(** * FinLens retrieval and agent orchestration: a shallow embedding

    The development follows the Python sources of the repository:
    - [core/ai/retrieval/keyword_search.py]  (module [KeywordSearch])
    - [core/ai/retrieval/query_processor.py] (module [QueryProcessor])
    - [core/ai/vector_db/qdrant_client.py]   (module [Qdrant])
    - [core/ai/retrieval/retriever.py]       (module [Retriever])
    - [core/ai/agent/agent1_retrieval]       (module [Agent1])
    - [core/ai/agent/agent3_generation]      (modules [Agent3], [Sources])
    - [core/utils/cache.py]                  (module [Cache])
    - [core/ai/embedding/manager.py]         (module [Embedding])
    - [core/ai/llm]                          (module [LLM])

    Conventions.  Python [int] is [Z] (lengths and indices are [nat]),
    Python [float] is read as a real number ([R]): rounding, overflow and
    NaN are outside the model.  Python [str] is [string], exact on ASCII
    text; bytes above 127 are never case-folded and count as word
    characters.  An exception is a value of [exn]; a function that can
    raise returns a [result].  Dictionaries used as maps are [gmap]s, sets
    are [gset]s. *)

From Stdlib Require Import ZArith List String Ascii Bool Lia Reals Lra Permutation.
From Stdlib Require Import Sorted.
From Stdlib Require Import DecimalString QArith.
From stdpp Require Import gmap strings.
Import ListNotations.

Local Open Scope string_scope.

(** ** Python values and exceptions *)

Module Py.

Inductive exn : Type :=
| ValueError (msg : string)
| AttributeError
| TypeError
| IndexError
| ZeroDivisionError
| ExternalError (msg : string).

Inductive result (A : Type) : Type :=
| Ok (a : A)
| Raise (e : exn).
Arguments Ok {A} a.
Arguments Raise {A} e.

Definition bind {A B} (m : result A) (k : A -> result B) : result B :=
  match m with
  | Ok a => k a
  | Raise e => Raise e
  end.

(** [try: body  except Exception: handler] *)
Definition try_except {A} (body : result A) (handler : exn -> A) : A :=
  match body with
  | Ok a => a
  | Raise e => handler e
  end.

Fixpoint mapM {A B} (f : A -> result B) (l : list A) : result (list B) :=
  match l with
  | [] => Ok []
  | x :: l' =>
      bind (f x) (fun y => bind (mapM f l') (fun ys => Ok (y :: ys)))
  end.

(** [ [x for x in l if p(x)] ] where [p] may raise. *)
Fixpoint filterM {A} (p : A -> result bool) (l : list A) : result (list A) :=
  match l with
  | [] => Ok []
  | x :: l' =>
      bind (p x) (fun b =>
      bind (filterM p l') (fun ys => Ok (if b then x :: ys else ys)))
  end.

(** A [for] loop that updates [acc] and may raise. *)
Fixpoint foldM {A B} (f : B -> A -> result B) (l : list A) (acc : B)
  : result B :=
  match l with
  | [] => Ok acc
  | x :: l' => bind (f acc x) (fun acc' => foldM f l' acc')
  end.

(** Truthiness: [if s], [if n], [if l], [if o]. *)
Definition truthy_str (s : string) : bool :=
  match s with EmptyString => false | _ => true end.
Definition truthy_int (n : Z) : bool := negb (n =? 0)%Z.
Definition truthy_list {A} (l : list A) : bool :=
  match l with [] => false | _ => true end.
Definition truthy_opt {A} (t : A -> bool) (o : option A) : bool :=
  match o with Some a => t a | None => false end.

(** [a or b] on optional strings. *)
Definition or_str (a b : option string) : option string :=
  if truthy_opt truthy_str a then a else b.

(** [l[:k]] for an integer [k], negative [k] counting from the end. *)
Definition slice_to {A} (l : list A) (k : Z) : list A :=
  if (0 <=? k)%Z then firstn (Z.to_nat k) l
  else firstn (List.length l - Z.to_nat (- k)) l.

(** [range(n)] *)
Definition range (n : nat) : list nat := seq 0 n.

(** [str(n)] for a natural number. *)
Definition str_of_nat (n : nat) : string :=
  NilEmpty.string_of_uint (Nat.to_uint n).

(** *** Strings *)

Definition is_upper (c : ascii) : bool :=
  (65 <=? nat_of_ascii c)%nat && (nat_of_ascii c <=? 90)%nat.
Definition is_lower (c : ascii) : bool :=
  (97 <=? nat_of_ascii c)%nat && (nat_of_ascii c <=? 122)%nat.
Definition is_digit (c : ascii) : bool :=
  (48 <=? nat_of_ascii c)%nat && (nat_of_ascii c <=? 57)%nat.

Definition lower_char (c : ascii) : ascii :=
  if is_upper c then ascii_of_nat (nat_of_ascii c + 32) else c.

(** [s.lower()] *)
Fixpoint lower (s : string) : string :=
  match s with
  | EmptyString => EmptyString
  | String c s' => String (lower_char c) (lower s')
  end.

(** [s[:n]] *)
Fixpoint prefix (n : nat) (s : string) : string :=
  match n, s with
  | S n', String c s' => String c (prefix n' s')
  | _, _ => EmptyString
  end.

Fixpoint starts_with (p s : string) : bool :=
  match p, s with
  | EmptyString, _ => true
  | String a p', String b s' => Ascii.eqb a b && starts_with p' s'
  | String _ _, EmptyString => false
  end.

(** [sub in s] *)
Fixpoint contains (sub s : string) : bool :=
  starts_with sub s ||
  match s with
  | EmptyString => false
  | String _ s' => contains sub s'
  end.

(** [s.replace(old, new)] for a non-empty [old]: leftmost matches, not
    overlapping.  [skip] counts the characters of a match still to drop. *)
Fixpoint replace_from (old new : string) (skip : nat) (s : string) : string :=
  match s with
  | EmptyString => EmptyString
  | String c s' =>
      match skip with
      | S k => replace_from old new k s'
      | O =>
          if starts_with old s
          then new ++ replace_from old new (String.length old - 1) s'
          else String c (replace_from old new 0 s')
      end
  end.

(** [s.replace("", new)] puts [new] before every character and at the end. *)
Fixpoint intersperse (new s : string) : string :=
  match s with
  | EmptyString => new
  | String c s' => new ++ String c (intersperse new s')
  end.

Definition replace (old new s : string) : string :=
  match old with
  | EmptyString => intersperse new s
  | _ => replace_from old new 0 s
  end.

(** Whitespace as [str.split()] and the regex class [\s] see it. *)
Definition is_space (c : ascii) : bool :=
  let n := nat_of_ascii c in
  ((9 <=? n)%nat && (n <=? 13)%nat) || ((28 <=? n)%nat && (n <=? 32)%nat).

(** The regex class [\w]. *)
Definition is_word (c : ascii) : bool :=
  is_upper c || is_lower c || is_digit c || Ascii.eqb c "_"%char
  || (128 <=? nat_of_ascii c)%nat.

(** [s.split()]: [cur] is the token being read. *)
Fixpoint split_from (cur s : string) : list string :=
  match s with
  | EmptyString => if truthy_str cur then [cur] else []
  | String c s' =>
      if is_space c
      then (if truthy_str cur then cur :: split_from "" s' else split_from "" s')
      else split_from (cur ++ String c "") s'
  end.

Definition split (s : string) : list string := split_from "" s.

(** [sep.join(l)] *)
Fixpoint join (sep : string) (l : list string) : string :=
  match l with
  | [] => ""
  | [x] => x
  | x :: l' => x ++ sep ++ join sep l'
  end.

(** [x in l] for a list or a set of strings. *)
Definition mem (x : string) (l : list string) : bool :=
  existsb (String.eqb x) l.

(** [re.sub(r'[^...]', ' ', s)] with the kept class given by [keep]. *)
Fixpoint sub_class (keep : ascii -> bool) (s : string) : string :=
  match s with
  | EmptyString => EmptyString
  | String c s' => String (if keep c then c else " "%char) (sub_class keep s')
  end.

(** Comparison of floats in Boolean form. *)
Definition Rltb (a b : R) : bool := if Rlt_dec a b then true else false.
Definition Rleb (a b : R) : bool := if Rle_dec a b then true else false.

(** [l.sort(key=key, reverse=True)]: stable, descending.  An element goes
    after the ones with a strictly larger key and before the first one
    whose key is not larger. *)
Section Sort.
Context {A : Type} (key : A -> R).

Fixpoint insert_desc (x : A) (l : list A) : list A :=
match l with
| [] => [x]
| y :: l' =>
if Rltb (key x) (key y) then y :: insert_desc x l' else x :: y :: l'
end.

Fixpoint sort_desc (l : list A) : list A :=
match l with
| [] => []
| x :: l' => insert_desc x (sort_desc l')
end.
End Sort.

(** *** External calls

    A computation that talks to the outside (language model, embedder,
    vector index) returns the calls it made, in order, next to its result. *)
Inductive event : Type :=
| EvLLM (prompt : string)
| EvEmbed (text : string)
| EvVectorSearch (user_id : string) (limit : Z).

Definition Eff (A : Type) : Type := (list event * result A)%type.

Definition eff_ret {A} (a : A) : Eff A := ([], Ok a).
Definition eff_raise {A} (e : exn) : Eff A := ([], Raise e).
Definition eff_lift {A} (r : result A) : Eff A := ([], r).
Definition eff_call {A} (ev : event) (r : result A) : Eff A := ([ev], r).

Definition eff_bind {A B} (m : Eff A) (k : A -> Eff B) : Eff B :=
  match m with
  | (t, Ok a) => let (t', r) := k a in ((t ++ t')%list, r)
  | (t, Raise e) => (t, Raise e)
  end.

(** [try: body  except Exception as e: handler(e)] around external calls. *)
Definition eff_try {A} (body : Eff A) (handler : exn -> Eff A) : Eff A :=
  match body with
  | (t, Ok a) => (t, Ok a)
  | (t, Raise e) => let (t', r) := handler e in ((t ++ t')%list, r)
  end.

Fixpoint eff_mapM {A B} (f : A -> Eff B) (l : list A) : Eff (list B) :=
  match l with
  | [] => eff_ret []
  | x :: l' =>
      eff_bind (f x) (fun y =>
      eff_bind (eff_mapM f l') (fun ys => eff_ret (y :: ys)))
  end.

End Py.

#[export] Instance result_bind : MBind Py.result :=
  fun A B k m => Py.bind m k.
#[export] Instance result_ret : MRet Py.result := @Py.Ok.
#[export] Instance eff_mbind : MBind Py.Eff :=
  fun A B k m => Py.eff_bind m k.
#[export] Instance eff_mret : MRet Py.Eff := @Py.eff_ret.

(** ** [keyword_search.py]: class [KeywordSearcher] *)

Module KeywordSearch.
Import Py.

Definition stop_words : list string :=
  [ "the"; "a"; "an"; "and"; "or"; "but"; "in"; "on"; "at"; "to"; "for";
    "of"; "with"; "by"; "from"; "as"; "is"; "was"; "are"; "were"; "be";
    "been"; "being"; "have"; "has"; "had"; "do"; "does"; "did"; "will";
    "would"; "should"; "could"; "may"; "might"; "must"; "can"; "this";
    "that"; "these"; "those"; "it"; "its"; "they"; "them"; "their";
    "we"; "our"; "us"; "you"; "your"; "he"; "she"; "his"; "her" ].

Definition financial_phrases : list string :=
  [ "operating income"; "net income"; "gross profit"; "revenue growth";
    "cash flow"; "operating cash flow"; "free cash flow";
    "cash flow from operations";
    "total revenue"; "net revenue"; "gross revenue"; "revenue recognition";
    "earnings per share"; "diluted eps"; "basic eps";
    "return on equity"; "return on assets"; "return on investment";
    "ebitda"; "adjusted ebitda"; "non-gaap";
    "cost of revenue"; "cost of goods sold"; "operating expenses";
    "research and development"; "sales and marketing";
    "general and administrative";
    "total assets"; "total liabilities"; "shareholders equity";
    "stockholders equity";
    "working capital"; "current assets"; "current liabilities";
    "debt to equity"; "debt ratio"; "leverage ratio";
    "year over year"; "quarter over quarter"; "sequential growth";
    "fiscal year"; "annual report"; "quarterly report";
    "amazon web services"; "aws"; "azure"; "google cloud";
    "segment revenue"; "geographic revenue"; "product revenue";
    "service revenue" ].

Definition financial_abbreviations : list string :=
  [ "gaap"; "ifrs"; "eps"; "ebitda"; "roi"; "roe"; "roa"; "pe"; "p/e";
    "aws"; "azure"; "gcp"; "ai"; "ml"; "iot"; "saas"; "paas"; "iaas" ].

(** [constants.COMPANIES], the source of [self.company_names]. *)
Definition COMPANIES : list string :=
  [ "apple"; "microsoft"; "amazon"; "alphabet"; "meta"; "nvidia"; "tesla" ].
Definition company_names : list string := COMPANIES.

Definition financial_metrics : list string :=
  [ "revenue"; "income"; "profit"; "loss"; "earnings"; "expenses"; "costs";
    "assets"; "liabilities"; "equity"; "debt"; "cash"; "capital";
    "margin"; "ratio"; "growth"; "decline"; "increase"; "decrease";
    "million"; "billion"; "trillion"; "percent"; "percentage" ].

(** The characters the regex [[^\w\s$%\._]] leaves in place. *)
Definition keep_char (c : ascii) : bool :=
  is_word c || is_space c || Ascii.eqb c "$"%char || Ascii.eqb c "%"%char
  || Ascii.eqb c "."%char || Ascii.eqb c "_"%char.

(** [re.match(r'^\d{4}$', s)]: four digits, then the end or a last newline. *)
Definition is_year (s : string) : bool :=
  match s with
  | String a (String b (String c (String d rest))) =>
      is_digit a && is_digit b && is_digit c && is_digit d
      && (String.eqb rest "" || String.eqb rest (String "010"%char ""))
  | _ => false
  end.

(** The keys of [dict.fromkeys(l)]: each string once, in order of first
    occurrence.  [set(l)] holds the same strings. *)
Fixpoint first_occurrences (seen l : list string) : list string :=
  match l with
  | [] => []
  | x :: l' =>
      if mem x seen then first_occurrences seen l'
      else x :: first_occurrences (x :: seen) l'
  end.

(** [Counter(l)[t]] *)
Definition count_token (t : string) (l : list string) : nat :=
  List.length (List.filter (String.eqb t) l).

Section Searcher.
(** [financial_phrases] is a Python set: the order in which a [for] loop
visits it is fixed for a process but not by the program.
[phrase_order] is that order. *)
Variable phrase_order : list string.

Definition protect (text : string) : string :=
fold_left (fun protected_text phrase =>
         replace phrase (replace " " "_" phrase) protected_text)
      phrase_order text.

Definition tokenize (text : string) : list string :=
let text_lower := lower text in
let protected_text := protect text_lower in
let protected_text := sub_class keep_char protected_text in
let tokens := split protected_text in
let filtered_tokens :=
flat_map (fun t =>
          if negb (truthy_str t) then []
          else if negb (mem t stop_words) || mem t financial_metrics
               then [replace "_" " " t]
               else []) tokens in
flat_map (fun token =>
        if contains " " token
        then replace " " "_" token :: split token
        else [token]) filtered_tokens.

Definition extract_phrases (text : string) (min_length max_length : nat)
: list string :=
let text_lower := lower text in
let phrases :=
List.filter (fun phrase => contains phrase text_lower) phrase_order in
let tokens := tokenize text in
let clean_tokens :=
flat_map (fun t =>
          if negb (contains "_" t)
             || mem (replace "_" " " t) financial_phrases
          then [replace "_" " " t] else []) tokens in
fold_left
(fun phrases length =>
 fold_left
   (fun phrases i =>
      let phrase := join " " (firstn length (skipn i clean_tokens)) in
      if mem phrase phrases then phrases
      else (phrases ++ [phrase])%list)
   (range (List.length clean_tokens + 1 - length)) phrases)
(seq min_length (max_length + 1 - min_length)) phrases.

Definition term_boost (term : string) : R :=
let clean_term := replace "_" " " term in
if mem clean_term financial_phrases then 2.0%R
else if mem clean_term financial_metrics then 1.5%R
else if mem clean_term company_names then 1.8%R
else if mem clean_term financial_abbreviations then 1.5%R
else if is_year clean_term then 1.3%R
else 1.0%R.

(** [max(d.values())] for a non-empty [d]. *)
Definition max_value (d : gmap string Z) : Z :=
match map_to_list d with
| [] => 0%Z
| (_, v) :: l => fold_left (fun m kv => Z.max m (snd kv)) l v
end.

(** The three ways of getting an IDF.  [math.log] is [ln]; the corpus
statistics are taken to be counts, so that the logarithm and the
quotient are defined. *)
Definition idf (term : string) (document_freq : option (gmap string Z))
     (total_documents : option Z) : R :=
let stats :=
match document_freq with
| Some d => if bool_decide (d = ∅) then None else d !! term
| None => None
end in
match stats with
| Some df =>
if truthy_opt truthy_int total_documents
then ln ((IZR (default 0%Z total_documents) + 1.0) / (IZR df + 1.0))%R
else
  let estimated_total := max_value (default ∅ document_freq) in
  ln ((IZR estimated_total + 1.0) / (IZR df + 1.0))%R
| None => ln 10.0%R
end.

(** One term of the BM25 sum. *)
Definition bm25_term (term : string) (tf doc_length : nat)
     (document_freq : option (gmap string Z))
     (total_documents : option Z) (avg_doc_length k1 b : R) : R :=
let numerator :=
(idf term document_freq total_documents * INR tf * (k1 + 1)
 * term_boost term)%R in
let denominator :=
(INR tf + k1 * (1 - b + b * (INR doc_length / avg_doc_length)))%R in
(numerator / denominator)%R.

Definition calculate_bm25_score
     (query_tokens document_tokens : list string)
     (document_freq : option (gmap string Z))
     (total_documents : option Z) (avg_doc_length k1 b : R) : R :=
if negb (truthy_list query_tokens) || negb (truthy_list document_tokens)
then 0.0%R
else
let doc_length := List.length document_tokens in
let unique_query_terms := first_occurrences [] query_tokens in
fold_left
(fun score term =>
   let tf := count_token term document_tokens in
   if (tf =? 0)%nat then score
   else (score + bm25_term term tf doc_length document_freq
                           total_documents avg_doc_length k1 b)%R)
unique_query_terms 0.0%R.

(** The bonus of one query phrase found in the content. *)
Definition phrase_bonus_of (content_lower phrase : string) : R :=
if contains phrase content_lower
then if mem phrase financial_phrases then 0.3%R
 else (INR (List.length (split phrase)) * 0.1)%R
else 0%R.

Definition calculate_keyword_relevance
     (query content : string) (use_phrases : bool) : R :=
let query_tokens := tokenize query in
let content_tokens := tokenize content in
if negb (truthy_list query_tokens) then 0.0%R
else
let bm25_score :=
calculate_bm25_score query_tokens content_tokens None None
                     100.0%R 1.5%R 0.75%R in
let normalized_score :=
(1.0 / (1.0 + exp (- bm25_score / 10.0)))%R in
let phrase_bonus :=
if use_phrases
then
  let query_phrases := extract_phrases query 2 3 in
  let content_lower := lower content in
  fold_left (fun bonus phrase =>
               (bonus + phrase_bonus_of content_lower phrase)%R)
            query_phrases 0.0%R
else 0.0%R in
Rmin 1.0%R (normalized_score + phrase_bonus)%R.
End Searcher.

End KeywordSearch.

(** ** [query_processor.py]: class [QueryProcessor] *)

Module QueryProcessor.
Import Py.

(** The metadata filters a query can carry. *)
Record metadata_filters : Type := {
  document_type : option string;
  document_category : option string;
  fiscal_quarter : option Z;
  sector : option string;
  period_type : option string;
  reporting_standard : option string;
  exchange : option string;
  has_financial_statements : option bool;
  has_mda : option bool;
  has_risk_factors : option bool;
  chunk_type : option string
}.

Definition no_metadata_filters : metadata_filters :=
  {| document_type := None; document_category := None;
     fiscal_quarter := None; sector := None; period_type := None;
     reporting_standard := None; exchange := None;
     has_financial_statements := None; has_mda := None;
     has_risk_factors := None; chunk_type := None |}.

(** The JSON object [process_and_augment_query] returns, read through
    [.get]: [None] is a missing key or a [null], but for [companies], whose
    default is the empty list (there [None] is a [null]), and for
    [augmented_query], whose default is the query (there [None] is a
    missing key). *)
Record llm_result : Type := {
  llm_companies : option (list string);
  llm_year : option Z;
  llm_year_range : option (list Z);
  llm_augmented_query : option string;
  llm_filters : metadata_filters;
  llm_needs_year_expansion : option bool
}.

(** The dictionary [process_query] returns; [filters] repeats [company],
    [companies], [year] and [year_range] and adds [meta]. *)
Record processed : Type := {
  query_text : string;
  original_query : string;
  query_embedding : list R;
  company : option string;
  companies : option (list string);
  year : option Z;
  year_range : option (list Z);
  meta : metadata_filters
}.

(** Lines 95-109: the smart year range expansion.  [needs_year_expansion
    is True] holds for the Boolean [True] alone. *)
Definition expand_years (needs_year_expansion : option bool)
           (final_year : option Z) (final_year_range : option (list Z))
  : result (option Z * option (list Z)) :=
  let should_expand :=
    match needs_year_expansion with Some true => true | _ => false end in
  if should_expand then
    if truthy_opt truthy_list final_year_range then
      let r := default [] final_year_range in
      match nth_error r 0, nth_error r 1 with
      | Some lo, Some hi =>
          Ok (final_year,
              Some [Z.max 2015 (lo - 1); Z.min 2025 (hi + 1)])
      | _, _ => Raise IndexError
      end
    else if truthy_opt truthy_int final_year then
      let y := default 0%Z final_year in
      Ok (None, Some [Z.max 2015 (y - 1); Z.min 2025 (y + 1)])
    else Ok (final_year, final_year_range)
  else Ok (final_year, final_year_range).

(** [tuple(r) if r else None] *)
Definition tuple_or_none (r : option (list Z)) : option (list Z) :=
  if truthy_opt truthy_list r then r else None.

Section Processor.
(** [llm_augmenter.process_and_augment_query] and the embedder. *)
Variable process_and_augment_query : string -> result llm_result.
Variable embed_query : string -> result (list R).

Definition process_query (query : string) (company : option string)
     (year : option Z) (expand : bool) : Eff processed :=
'(query_text, final_company, final_companies, final_year,
final_year_range, filters) ←
(if expand then
 llm_result ← eff_call (EvLLM query) (process_and_augment_query query);
 extracted_companies ←
   eff_lift (match llm_companies llm_result with
             | Some l => Ok l
             | None => Raise TypeError
             end);
 let extracted_year := llm_year llm_result in
 let extracted_year_range := llm_year_range llm_result in
 let augmented_query := default query (llm_augmented_query llm_result) in
 let needs_year_expansion := llm_needs_year_expansion llm_result in
 let final_company :=
   if truthy_opt truthy_str company then company
   else head extracted_companies in
 let final_companies :=
   if (1 <? List.length extracted_companies)%nat
   then Some extracted_companies else None in
 let final_year :=
   if truthy_opt truthy_int year then year else extracted_year in
 let final_year_range := extracted_year_range in
 '(final_year, final_year_range) ←
   eff_lift (expand_years needs_year_expansion final_year
                          final_year_range);
 mret (augmented_query, final_company, final_companies, final_year,
       final_year_range, llm_filters llm_result)
 else
 mret (query, company, None, year, None, no_metadata_filters));
query_embedding ← eff_call (EvEmbed query_text) (embed_query query_text);
mret {| query_text := query_text;
    original_query := query;
    query_embedding := query_embedding;
    company := final_company;
    companies := final_companies;
    year := final_year;
    year_range := tuple_or_none final_year_range;
    meta := filters |}.
End Processor.

End QueryProcessor.

(** ** [qdrant_client.py]: class [QdrantClient] *)

Module Qdrant.
Import Py.

(** A result dictionary.  [company] is [metadata['company']]; the other
    metadata (document id, fiscal year, page, ...) are carried along and
    never read by the functions below.  The scores added on the way are
    keys that may be absent. *)
Record chunk : Type := {
  chunk_id : option string;
  content : option string;
  score : R;
  company : option string;
  normalized_score : option R;
  semantic_score : option R;
  keyword_score : option R;
  rerank_score : option R;
  keyword_rerank_score : option R;
  sub_query_intent : option string;
  sub_query : option string
}.

(** A point as the index returns it: payload and similarity. *)
Record scored_point : Type := {
  payload_chunk_id : option string;
  payload_content : option string;
  payload_company : option string;
  point_score : R
}.

Definition chunk_of_point (p : scored_point) : chunk :=
  {| chunk_id := payload_chunk_id p; content := payload_content p;
     score := point_score p; company := payload_company p;
     normalized_score := None; semantic_score := None;
     keyword_score := None; rerank_score := None;
     keyword_rerank_score := None; sub_query_intent := None;
     sub_query := None |}.

Definition set_score (s : R) (c : chunk) : chunk :=
  {| chunk_id := chunk_id c; content := content c; score := s;
     company := company c; normalized_score := normalized_score c;
     semantic_score := semantic_score c; keyword_score := keyword_score c;
     rerank_score := rerank_score c;
     keyword_rerank_score := keyword_rerank_score c;
     sub_query_intent := sub_query_intent c; sub_query := sub_query c |}.

Definition set_normalized (s : R) (c : chunk) : chunk :=
  {| chunk_id := chunk_id c; content := content c; score := s;
     company := company c; normalized_score := Some s;
     semantic_score := semantic_score c; keyword_score := keyword_score c;
     rerank_score := rerank_score c;
     keyword_rerank_score := keyword_rerank_score c;
     sub_query_intent := sub_query_intent c; sub_query := sub_query c |}.

Definition set_hybrid (combined semantic keyword : R) (c : chunk) : chunk :=
  {| chunk_id := chunk_id c; content := content c; score := combined;
     company := company c; normalized_score := normalized_score c;
     semantic_score := Some semantic; keyword_score := Some keyword;
     rerank_score := rerank_score c;
     keyword_rerank_score := keyword_rerank_score c;
     sub_query_intent := sub_query_intent c; sub_query := sub_query c |}.

Definition set_rerank (rerank : R) (keyword : option R) (c : chunk) : chunk :=
  {| chunk_id := chunk_id c; content := content c; score := score c;
     company := company c; normalized_score := normalized_score c;
     semantic_score := semantic_score c; keyword_score := keyword_score c;
     rerank_score := Some rerank;
     keyword_rerank_score :=
       match keyword with Some k => Some k | None => keyword_rerank_score c end;
     sub_query_intent := sub_query_intent c; sub_query := sub_query c |}.

Definition set_sub_query (intent text : string) (c : chunk) : chunk :=
  {| chunk_id := chunk_id c; content := content c; score := score c;
     company := company c; normalized_score := normalized_score c;
     semantic_score := semantic_score c; keyword_score := keyword_score c;
     rerank_score := rerank_score c;
     keyword_rerank_score := keyword_rerank_score c;
     sub_query_intent := Some intent; sub_query := Some text |}.

(** [r['metadata'].get('company', '').lower()]: the key is always there,
    with [None] when the payload has no company. *)
Definition company_lower (r : chunk) : result string :=
  match company r with
  | Some c => Ok (lower c)
  | None => Raise AttributeError
  end.

(** [ [r for r in results if company_lower(r) == company] ] *)
Definition of_company (company : string) (results : list chunk)
  : result (list chunk) :=
  filterM (fun r => c ← company_lower r; Ok (String.eqb c company)) results.

(** The arguments [search] and [hybrid_search] share. *)
Record search_filters : Type := {
  f_company : option string;
  f_companies : option (list string);
  f_year : option Z;
  f_year_range : option (list Z);
  f_document_type : option string;
  f_document_types : option (list string);
  f_document_category : option string;
  f_fiscal_quarter : option Z;
  f_sector : option string;
  f_sectors : option (list string);
  f_industry : option string;
  f_has_financial_statements : option bool;
  f_has_mda : option bool;
  f_has_risk_factors : option bool;
  f_period_type : option string;
  f_reporting_standard : option string;
  f_country : option string;
  f_exchange : option string;
  f_chunk_type : option string;
  f_has_table : option bool
}.

Inductive match_value : Type :=
| VStr (s : string)
| VInt (n : Z)
| VBool (b : bool).

Inductive field_condition : Type :=
| MatchValue (key : string) (v : match_value)
| Range (key : string) (gte lte : Z).

(** [Filter(must=...)] *)
Definition query_filter : Type := list field_condition.

Definition cond_str (key : string) (guard : bool) (v : option string)
  : list field_condition :=
  match v with
  | Some s => if guard && truthy_str s then [MatchValue key (VStr s)] else []
  | None => []
  end.
Definition cond_int (key : string) (v : option Z) : list field_condition :=
  match v with Some n => [MatchValue key (VInt n)] | None => [] end.
Definition cond_bool (key : string) (v : option bool)
  : list field_condition :=
  match v with Some b => [MatchValue key (VBool b)] | None => [] end.

Definition _build_query_filter (user_id : string) (f : search_filters)
  : result query_filter :=
  let many {A} (l : option (list A)) := truthy_opt truthy_list l in
  temporal ←
    (if many (f_year_range f) then
       let r := default [] (f_year_range f) in
       match nth_error r 0, nth_error r 1 with
       | Some lo, Some hi => Ok [Range "fiscal_year" lo hi]
       | _, _ => Raise IndexError
       end
     else Ok (cond_int "fiscal_year" (f_year f)));
  Ok ([MatchValue "user_id" (VStr user_id)]
      ++ temporal
      ++ cond_str "company" (negb (many (f_companies f)))
                  (lower <$> f_company f)
      ++ cond_str "document_type" (negb (many (f_document_types f)))
                  (f_document_type f)
      ++ cond_str "document_category" true (f_document_category f)
      ++ cond_int "fiscal_quarter" (f_fiscal_quarter f)
      ++ cond_str "company_sector" (negb (many (f_sectors f))) (f_sector f)
      ++ cond_str "company_industry" true (f_industry f)
      ++ cond_bool "has_financial_statements" (f_has_financial_statements f)
      ++ cond_bool "has_mda" (f_has_mda f)
      ++ cond_bool "has_risk_factors" (f_has_risk_factors f)
      ++ cond_str "period_type" true (f_period_type f)
      ++ cond_str "reporting_standard" true (f_reporting_standard f)
      ++ cond_str "company_country" true (f_country f)
      ++ cond_str "company_exchange" true (f_exchange f)
      ++ cond_str "chunk_type" true (f_chunk_type f)
      ++ cond_bool "has_table" (f_has_table f))%list.

(** [target_companies] of [search] and [hybrid_search]. *)
Definition target_companies_of (f : search_filters) : list string :=
  if truthy_opt truthy_list (f_companies f)
  then map lower (default [] (f_companies f))
  else match f_company f with
       | Some c => if truthy_str c then [lower c] else []
       | None => []
       end.

Definition sum_R (l : list R) : R := fold_left Rplus l 0%R.

(** The body of the loop over [results_by_company.items()] in
    [_normalize_scores_per_company].  The mean, the standard deviation and
    the test [std_score > 0] are read over the reals: in floating point,
    three or more equal scores can leave a tiny positive deviation, and the
    code then takes the first branch where this definition takes the
    second. *)
Definition normalize_company (company_results : list chunk) : list chunk :=
  match company_results with
  | [] => []
  | _ =>
      let scores := map score company_results in
      let n := INR (List.length scores) in
      let mean_score := (sum_R scores / n)%R in
      let std_score :=
        sqrt (sum_R (map (fun s => (s - mean_score) ^ 2)%R scores) / n) in
      if Rltb 0 std_score
      then map (fun result =>
                  set_normalized ((score result - mean_score) / std_score)%R
                                 result) company_results
      else map (set_score 0.0%R) company_results
  end.

Definition _normalize_scores_per_company
           (results : list chunk) (target_companies : list string)
  : result (list chunk) :=
  let target_companies_lower := map lower target_companies in
  results_by_company ←
    foldM (fun (d : gmap string (list chunk)) company =>
             l ← of_company company results; Ok (<[company := l]> d))
          target_companies_lower ∅;
  (* a dictionary is read in the order its keys were first inserted *)
  let keys := KeywordSearch.first_occurrences [] target_companies_lower in
  Ok (flat_map (fun company =>
                  normalize_company
                    (default [] (results_by_company !! company))) keys).

(** The state of the round-robin loops of [_balance_results]. *)
Record balance_state : Type := {
  balanced_results : list chunk;
  taken_count : gmap string Z;
  remainder : Z
}.

Section Balance.
Variable results_by_company : gmap string (list chunk).
Variable top_k : Z.
Variable per_company_k : Z.

Definition full (st : balance_state) : bool :=
(top_k <=? Z.of_nat (List.length (balanced_results st)))%Z.

(** One pass of the inner loop body, past its [break] test. *)
Definition balance_take (round_idx : nat) (company : string)
     (st : balance_state) : balance_state :=
let group := default [] (results_by_company !! company) in
let taken := default 0%Z (taken_count st !! company) in
match nth_error group round_idx with
| Some r =>
if (taken <? per_company_k)%Z then
  {| balanced_results := balanced_results st ++ [r];
     taken_count := <[company := (taken + 1)%Z]> (taken_count st);
     remainder := remainder st |}
else if (0 <? remainder st)%Z && (taken =? per_company_k)%Z then
  {| balanced_results := balanced_results st ++ [r];
     taken_count := <[company := (taken + 1)%Z]> (taken_count st);
     remainder := (remainder st - 1)%Z |}
else st
| None => st
end.

(** [for company in target_companies_lower], leaving at the [break]. *)
Fixpoint balance_round (round_idx : nat) (companies : list string)
   (st : balance_state) : balance_state :=
match companies with
| [] => st
| company :: rest =>
if full st then st
else balance_round round_idx rest (balance_take round_idx company st)
end.

(** [for round_idx in range(max_available)], leaving at the [break]. *)
Fixpoint balance_rounds (targets : list string) (rounds : list nat)
   (st : balance_state) : balance_state :=
match rounds with
| [] => st
| round_idx :: rest =>
let st' := balance_round round_idx targets st in
if full st' then st' else balance_rounds targets rest st'
end.
End Balance.

Definition _balance_results (results : list chunk)
           (target_companies : list string) (top_k : Z)
  : result (list chunk) :=
  let target_companies_lower := map lower target_companies in
  results_by_company ←
    foldM (fun (d : gmap string (list chunk)) company =>
             l ← of_company company results;
             Ok (<[company := sort_desc score l]> d))
          target_companies_lower ∅;
  let n := Z.of_nat (List.length target_companies_lower) in
  if (n =? 0)%Z then Raise ZeroDivisionError
  else
    let per_company_k := Z.max 1 (top_k / n) in
    let remainder := (top_k mod n)%Z in
    let taken_count : gmap string Z :=
      list_to_map (map (fun company => (company, 0%Z))
                       target_companies_lower) in
    let max_available :=
      fold_left Nat.max
        (map (fun c => List.length (default [] (results_by_company !! c)))
             target_companies_lower) 0%nat in
    let st :=
      balance_rounds results_by_company top_k per_company_k
                     target_companies_lower (range max_available)
                     {| balanced_results := [];
                        taken_count := taken_count;
                        remainder := remainder |} in
    Ok (slice_to (balanced_results st) top_k).

(** [max(0.0, min(1.0, (s + 1) / 2)) if s < 0 else s] *)
Definition normalize_semantic (semantic_score : R) : R :=
  if Rltb semantic_score 0
  then Rmax 0.0 (Rmin 1.0 ((semantic_score + 1) / 2))
  else semantic_score.

(** [filters] without [chunk_type] and [has_table], which
    [hybrid_search] does not take. *)
Definition without_chunk_filters (f : search_filters) : search_filters :=
  {| f_company := f_company f; f_companies := f_companies f;
     f_year := f_year f; f_year_range := f_year_range f;
     f_document_type := f_document_type f;
     f_document_types := f_document_types f;
     f_document_category := f_document_category f;
     f_fiscal_quarter := f_fiscal_quarter f;
     f_sector := f_sector f; f_sectors := f_sectors f;
     f_industry := f_industry f;
     f_has_financial_statements := f_has_financial_statements f;
     f_has_mda := f_has_mda f; f_has_risk_factors := f_has_risk_factors f;
     f_period_type := f_period_type f;
     f_reporting_standard := f_reporting_standard f;
     f_country := f_country f; f_exchange := f_exchange f;
     f_chunk_type := None; f_has_table := None |}.

Section Client.
(** [self.client.search(collection, query_vector, limit, query_filter)] *)
Variable client_search :
list R -> Z -> query_filter -> result (list scored_point).
(** The iteration order of the keyword searcher's phrase set. *)
Variable phrase_order : list string.

Definition search (query_vector : list R) (user_id : option string)
     (top_k : Z) (f : search_filters) : Eff (list chunk) :=
if negb (truthy_opt truthy_str user_id)
then eff_raise (ValueError "user_id is required for search")
else
let user_id := default "" user_id in
query_filter ← eff_lift (_build_query_filter user_id f);
let target_companies := target_companies_of f in
let multi := (1 <? List.length target_companies)%nat in
eff_try
(let limit := if multi then (top_k * 3)%Z else top_k in
 search_results ←
   eff_call (EvVectorSearch user_id limit)
            (client_search query_vector limit query_filter);
 let results := map chunk_of_point search_results in
 results ←
   (if truthy_opt truthy_list (f_companies f) then
      let target_companies_lower :=
        map lower (default [] (f_companies f)) in
      eff_lift
        (filterM (fun r => c ← company_lower r;
                           Ok (mem c target_companies_lower))
                 results)
    else mret results);
 if multi then
   results ← eff_lift (_normalize_scores_per_company
                         results target_companies);
   eff_lift (_balance_results results target_companies top_k)
 else mret (slice_to (sort_desc score results) top_k))
(fun _ => mret []).

(** The keyword score of a chunk; [content] must be a string. *)
Definition keyword_relevance (query_text : string) (c : chunk) : result R :=
match content c with
| Some text =>
Ok (KeywordSearch.calculate_keyword_relevance
      phrase_order query_text text true)
| None => Raise AttributeError
end.

Definition hybrid_search (query_vector : list R) (query_text : string)
     (user_id : option string) (top_k : Z) (alpha : R)
     (f : search_filters) : Eff (list chunk) :=
if negb (truthy_opt truthy_str user_id)
then eff_raise (ValueError "user_id is required for hybrid_search")
else
let target_companies := target_companies_of f in
let multi := (1 <? List.length target_companies)%nat in
semantic_results ←
search query_vector user_id (if multi then (top_k * 3)%Z else top_k)
       (without_chunk_filters f);
if negb (truthy_str query_text)
then mret (slice_to semantic_results top_k)
else
scored_results ←
  eff_lift
    (mapM (fun chunk =>
             let semantic_score := score chunk in
             keyword_score ← keyword_relevance query_text chunk;
             let normalized_semantic :=
               normalize_semantic semantic_score in
             let combined_score :=
               (alpha * normalized_semantic
                + (1 - alpha) * keyword_score)%R in
             Ok (set_hybrid combined_score normalized_semantic
                            keyword_score chunk))
          semantic_results);
if multi then
  scored_results ← eff_lift (_normalize_scores_per_company
                                scored_results target_companies);
  eff_lift (_balance_results scored_results target_companies top_k)
else mret (slice_to (sort_desc score scored_results) top_k).
End Client.

End Qdrant.

(** ** [retriever.py]: class [Retriever] *)

Module Retriever.
Import Py.
Import Qdrant.

(** The retrieval settings of [config/settings.py], with their defaults. *)
Record settings : Type := {
  TOP_K_INITIAL : Z;
  TOP_K_FINAL : Z;
  HYBRID_SEARCH_ALPHA : R
}.

Definition default_settings : settings :=
  {| TOP_K_INITIAL := 30; TOP_K_FINAL := 8; HYBRID_SEARCH_ALPHA := 0.7%R |}.

(** The filter arguments of [retrieve] other than the companies and the
    years. *)
Record retrieve_filters : Type := {
  r_document_type : option string;
  r_document_types : option (list string);
  r_document_category : option string;
  r_fiscal_quarter : option Z;
  r_sector : option string;
  r_sectors : option (list string);
  r_industry : option string;
  r_has_financial_statements : option bool;
  r_has_mda : option bool;
  r_has_risk_factors : option bool;
  r_period_type : option string;
  r_reporting_standard : option string;
  r_country : option string;
  r_exchange : option string;
  r_chunk_type : option string;
  r_has_table : option bool
}.

Definition no_retrieve_filters : retrieve_filters :=
  {| r_document_type := None; r_document_types := None;
     r_document_category := None; r_fiscal_quarter := None;
     r_sector := None; r_sectors := None; r_industry := None;
     r_has_financial_statements := None; r_has_mda := None;
     r_has_risk_factors := None; r_period_type := None;
     r_reporting_standard := None; r_country := None; r_exchange := None;
     r_chunk_type := None; r_has_table := None |}.

(** [a if a is not None else b] *)
Definition or_else {A} (a b : option A) : option A :=
  match a with Some _ => a | None => b end.

(** What [company_filter] can hold. *)
Inductive company_filter : Type :=
| CompanyList (l : list string)
| CompanyName (c : string)
| NoCompany.

Section Retrieve.
Variable config : settings.
Variable client_search :
list R -> Z -> query_filter -> result (list scored_point).
Variable process_and_augment_query :
string -> result QueryProcessor.llm_result.
Variable embed_query : string -> result (list R).
Variable phrase_order : list string.
(** [self.cross_encoder.predict] on one pair, when a cross-encoder is
loaded and [use_cross_encoder] is set; the default is [None]. *)
Variable cross_encoder : option (string -> option string -> R).

Definition _rerank_with_cross_encoder (results : list chunk)
     (query_text : string) : list chunk :=
let scored :=
map (fun result =>
     set_rerank (match cross_encoder with
                 | Some predict => predict query_text (content result)
                 | None => 0%R
                 end) None result) results in
sort_desc (fun x => default 0%R (rerank_score x)) scored.

Definition _rerank_with_keywords (results : list chunk)
     (query_text : string) : result (list chunk) :=
scored ←
mapM (fun result =>
      let semantic_score := score result in
      keyword_score ← keyword_relevance phrase_order query_text result;
      let normalized_semantic := normalize_semantic semantic_score in
      let rerank_score :=
        (0.6 * normalized_semantic + 0.4 * keyword_score)%R in
      Ok (set_rerank rerank_score (Some keyword_score) result))
   results;
Ok (sort_desc (fun x => default 0%R (rerank_score x)) scored).

Definition _rerank (results : list chunk) (query_text : string)
: result (list chunk) :=
if negb (truthy_list results) then Ok results
else match cross_encoder with
 | Some _ => Ok (_rerank_with_cross_encoder results query_text)
 | None => _rerank_with_keywords results query_text
 end.

Definition retrieve (query : string) (user_id : option string)
     (top_k : option Z) (company : option string)
     (companies : option (list string)) (year : option Z)
     (year_range : option (list Z)) (use_hybrid expand_query : bool)
     (rf : retrieve_filters) : Eff (list chunk) :=
if negb (truthy_opt truthy_str user_id)
then eff_raise (ValueError "user_id is required for retrieval")
else
let top_k := default (TOP_K_FINAL config) top_k in
processed ←
QueryProcessor.process_query process_and_augment_query embed_query
                             query company year expand_query;
let filters := QueryProcessor.meta processed in
let company_filter :=
if truthy_opt truthy_list companies
then CompanyList (default [] companies)
else if truthy_opt (fun l => (1 <? List.length l)%nat)
                   (QueryProcessor.companies processed)
     then CompanyList (default [] (QueryProcessor.companies processed))
     else match QueryProcessor.company processed with
          | Some c => CompanyName c
          | None => NoCompany
          end in
let '(final_year_range, year_filter) :=
if truthy_opt truthy_list year_range then (year_range, None)
else if truthy_opt truthy_list (QueryProcessor.year_range processed)
     then (QueryProcessor.year_range processed, None)
     else (None, QueryProcessor.year processed) in
let f :=
{| f_company :=
     match company_filter with CompanyName c => Some c | _ => None end;
   f_companies :=
     match company_filter with CompanyList l => Some l | _ => None end;
   f_year := year_filter;
   f_year_range := final_year_range;
   f_document_type :=
     or_str (r_document_type rf) (QueryProcessor.document_type filters);
   f_document_types := r_document_types rf;
   f_document_category :=
     or_str (r_document_category rf)
            (QueryProcessor.document_category filters);
   f_fiscal_quarter :=
     or_else (r_fiscal_quarter rf)
             (QueryProcessor.fiscal_quarter filters);
   f_sector := or_str (r_sector rf) (QueryProcessor.sector filters);
   f_sectors := r_sectors rf;
   f_industry := r_industry rf;
   f_has_financial_statements :=
     or_else (r_has_financial_statements rf)
             (QueryProcessor.has_financial_statements filters);
   f_has_mda :=
     or_else (r_has_mda rf) (QueryProcessor.has_mda filters);
   f_has_risk_factors :=
     or_else (r_has_risk_factors rf)
             (QueryProcessor.has_risk_factors filters);
   f_period_type :=
     or_str (r_period_type rf) (QueryProcessor.period_type filters);
   f_reporting_standard :=
     or_str (r_reporting_standard rf)
            (QueryProcessor.reporting_standard filters);
   f_country := r_country rf;
   f_exchange :=
     or_str (r_exchange rf) (QueryProcessor.exchange filters);
   f_chunk_type :=
     or_str (r_chunk_type rf) (QueryProcessor.chunk_type filters);
   f_has_table := r_has_table rf |} in
results ←
(if use_hybrid
 then hybrid_search client_search phrase_order
        (QueryProcessor.query_embedding processed)
        (QueryProcessor.query_text processed)
        user_id (TOP_K_INITIAL config) (HYBRID_SEARCH_ALPHA config) f
 else search client_search
        (QueryProcessor.query_embedding processed)
        user_id (TOP_K_INITIAL config) f);
let rerank_query := QueryProcessor.query_text processed in
reranked ← eff_lift (_rerank results rerank_query);
mret (slice_to reranked top_k).
End Retrieve.

End Retriever.

(** ** [agent3_generation]: nodes and subgraph *)

Module Agent3.
Import Py.

(** A value [json.loads] can return.  An object is given by its items,
    one per key. *)
#[local] Set Warnings "-register-all".
Inductive json : Type :=
| JNull
| JBool (b : bool)
| JNumber (q : Q)
| JString (s : string)
| JArray (l : list json)
| JObject (fields : list (string * json)).

(** [key in d] and [d[key]] *)
Fixpoint lookup (key : string) (fields : list (string * json)) : option json :=
  match fields with
  | [] => None
  | (k, v) :: rest => if String.eqb k key then Some v else lookup key rest
  end.

Definition has_key (key : string) (fields : list (string * json)) : bool :=
  match lookup key fields with Some _ => true | None => false end.

(** Truthiness of a parsed value. *)
Definition truthy_json (v : json) : bool :=
  match v with
  | JNull => false
  | JBool b => b
  | JNumber q => negb (Qnum q =? 0)%Z
  | JString s => truthy_str s
  | JArray l => truthy_list l
  | JObject fields => truthy_list fields
  end.

Record AnswerResponse : Type := {
  text : string;
  charts : list json;
  sources : list json;
  metadata : list (string * json)
}.

(** The messages [quality_check_node] puts in [validation_errors]; [n] is
    the 1-based position of the chart:
    - [NoResponse]: "No response generated"
    - [NotObject n]: "Chart n: Not a valid JSON object"
    - [MissingType n]: "Chart n: Missing 'type' field"
    - [InvalidType n t]: "Chart n: Invalid type 't'"
    - [MissingData n]: "Chart n: Missing 'data' field"
    - [DataNotObject n]: "Chart n: 'data' must be an object"
    - [MissingLabelsOrDatasets n]:
      "Chart n: Missing 'labels' or 'datasets' in data" *)
Inductive chart_error : Type :=
| NoResponse
| NotObject (n : nat)
| MissingType (n : nat)
| InvalidType (n : nat) (t : json)
| MissingData (n : nat)
| DataNotObject (n : nat)
| MissingLabelsOrDatasets (n : nat).

(** The part of [AgentState] the generation stage reads and writes. *)
Record state : Type := {
  current_query : string;
  response : option AnswerResponse;
  response_valid : bool;
  validation_errors : list chart_error;
  self_heal_attempts : Z
}.

Definition chart_types : list string := ["line"; "bar"; "pie"; "doughnut"].

(** [chart["type"] in ["line", "bar", "pie", "doughnut"]] *)
Definition type_allowed (t : json) : bool :=
  match t with
  | JString s => mem s chart_types
  | _ => false
  end.

(** The checks of one chart, [n] being [i + 1].  None of them can raise
    on a parsed value, so the inner [except] is never entered. *)
Definition check_chart (n : nat) (chart : json) : list chart_error :=
  match chart with
  | JObject fields =>
      (match lookup "type" fields with
       | None => [MissingType n]
       | Some t => if type_allowed t then [] else [InvalidType n t]
       end)
      ++
      (match lookup "data" fields with
       | None => [MissingData n]
       | Some (JObject data) =>
           if negb (has_key "labels" data) || negb (has_key "datasets" data)
           then [MissingLabelsOrDatasets n]
           else []
       | Some _ => [DataNotObject n]
       end)
  | _ => [NotObject n]
  end%list.

(** [for i, chart in enumerate(charts)] starting at position [i]. *)
Fixpoint check_charts (i : nat) (charts : list json) : list chart_error :=
  match charts with
  | [] => []
  | chart :: rest => (check_chart (i + 1) chart ++ check_charts (S i) rest)%list
  end.

Definition fallback_response (query : string) : AnswerResponse :=
  {| text := "I apologize, but I was unable to generate a response for your query: "
             ++ query ++ ".";
     charts := []; sources := []; metadata := [] |}.

(** A node returns the keys it changes; the graph writes them into the
    state.  Each node below is given as the state after that write. *)

(** [text_explanation_node] always leaves a response: the generated one,
    or an apology when the generation raises. *)
Definition text_explanation_node (generated : AnswerResponse) (st : state)
  : state :=
  {| current_query := current_query st;
     response := Some generated;
     response_valid := response_valid st;
     validation_errors := validation_errors st;
     self_heal_attempts := self_heal_attempts st |}.

Definition synthesis_node (st : state) : state :=
  {| current_query := current_query st;
     response :=
       match response st with
       | Some existing_response => Some existing_response
       | None => Some (fallback_response (current_query st))
       end;
     response_valid := response_valid st;
     validation_errors := validation_errors st;
     self_heal_attempts := self_heal_attempts st |}.

Definition quality_check_node (st : state) : state :=
  match response st with
  | None =>
      {| current_query := current_query st;
         response := response st;
         response_valid := false;
         validation_errors := [NoResponse];
         self_heal_attempts := self_heal_attempts st |}
  | Some response =>
      let errors := check_charts 0 (charts response) in
      let valid := (List.length errors =? 0)%nat in
      {| current_query := current_query st;
         response := Some response;
         response_valid := valid;
         validation_errors := errors;
         self_heal_attempts := self_heal_attempts st |}
  end.

(** What the self-heal call to the language model comes to. *)
Inductive heal_reply : Type :=
| HealRaises       (* the prompt or the call raises, or [content] is no text *)
| HealNothing      (* a falsy response, or one without [content] *)
| HealUnparsable   (* [json.JSONDecodeError] *)
| HealJson (v : json).

Definition set_valid (st : state) : state :=
  {| current_query := current_query st;
     response := response st;
     response_valid := true;
     validation_errors := validation_errors st;
     self_heal_attempts := self_heal_attempts st |}.

Definition self_heal_node (reply : heal_reply) (st : state) : state :=
  let errors := validation_errors st in
  let attempts := self_heal_attempts st in
  if (2 <=? attempts)%Z then set_valid st
  else if negb (truthy_list errors) then set_valid st
  else
    match response st with
    | None => set_valid st
    | Some current_response =>
        let healed charts' :=
          {| current_query := current_query st;
             response := Some {| text := text current_response;
                                 charts := charts';
                                 sources := sources current_response;
                                 metadata := metadata current_response |};
             response_valid := false;
             validation_errors := validation_errors st;
             self_heal_attempts := (attempts + 1)%Z |} in
        match reply with
        | HealRaises => set_valid st
        | HealNothing => set_valid st
        | HealUnparsable => healed (charts current_response)
        | HealJson (JArray corrected_charts) => healed corrected_charts
        | HealJson v => healed (if truthy_json v then [v] else [])
        end
    end.

(** [memory_update_node] starts a background thread and returns [{}]. *)
Definition memory_update_node (st : state) : state := st.

Inductive healing_route : Type := heal | end_healing.

Definition should_continue_healing (st : state) : healing_route :=
  let valid := response_valid st in
  let attempts := self_heal_attempts st in
  if valid then end_healing
  else if (2 <=? attempts)%Z then end_healing
  else heal.

(** The edge [synthesis -> quality_check]. *)
Definition quality_pass (st : state) : state :=
  quality_check_node (synthesis_node st).

Section Subgraph.
(** The reply to the [n]-th self-heal call of the run. *)
Variable llm_heal : nat -> heal_reply.

(** The edges [synthesis -> quality_check -> (self_heal -> synthesis |
memory_update -> END)], followed for at most [fuel] quality checks.
The result is the final state and the number of runs of
[self_heal_node]; [None] when the fuel runs out first. *)
Fixpoint quality_loop (fuel : nat) (heals : nat) (st : state)
: option (state * nat) :=
match fuel with
| O => None
| S fuel' =>
let st := quality_pass st in
match should_continue_healing st with
| end_healing => Some (memory_update_node st, heals)
| heal =>
    quality_loop fuel' (S heals) (self_heal_node (llm_heal heals) st)
end
end.

Definition run_agent3 (fuel : nat) (generated : AnswerResponse)
     (st : state) : option (state * nat) :=
quality_loop fuel 0 (text_explanation_node generated st).
End Subgraph.

(** The generation fields of [initial_state] in [run_query]. *)
Definition initial_state (query : string) : state :=
  {| current_query := query; response := None; response_valid := false;
     validation_errors := []; self_heal_attempts := 0 |}.

End Agent3.

(** ** [agent1_retrieval]: nodes and subgraph *)

Module Agent1.
Import Py.

(** [config/constants.py] *)
Definition DEFAULT_TOP_K : Z := 8.
Definition DEFAULT_TOP_K_MULTI_COMPANY_MULTIPLIER : Z := 6.
Definition CONTENT_HASH_LENGTH : nat := 200.

Record SubQuery : Type := {
  sub_query : string;
  intent : string;
  sq_companies : list string;
  sq_years : option (list Z);
  sq_year_range : option (list Z);
  metrics : list string;
  priority : Z;
  sq_augmented_query : option string
}.

Record ProcessedQuery : Type := {
  query_text : string;
  companies : list string;
  years : option (list Z);
  year_range : option (list Z);
  query_type : string;
  augmented_query : string
}.

(** [RetrievedChunk]: [metadata] keeps the company and the two tags of a
    decomposed retrieval. *)
Record RetrievedChunk : Type := {
  content : string;
  score : R;
  metadata_company : option string;
  metadata_sub_query_intent : option string;
  metadata_sub_query : option string
}.

Record ValidationResponse : Type := {
  sufficient : bool;
  response_gaps : list string
}.

(** The part of [AgentState] the retrieval stage reads and writes.
    [previous_gaps] is a key [validation_node] returns and reads back that
    [AgentState] does not declare: [None] is the missing key. *)
Record state : Type := {
  current_query : string;
  user_id : option string;
  sub_queries : option (list SubQuery);
  is_decomposed : bool;
  sub_query_results : option (gmap string (list RetrievedChunk));
  processed_query : option ProcessedQuery;
  retrieval_sufficient : bool;
  retrieval_attempts : Z;
  gaps : list string;
  previous_gaps : option (list string);
  retrieved_context : list RetrievedChunk
}.

(** The retrieval fields of [initial_state] in [run_query]. *)
Definition initial_state (query : string) (user : option string) : state :=
  {| current_query := query; user_id := user; sub_queries := None;
     is_decomposed := false; sub_query_results := None;
     processed_query := None; retrieval_sufficient := false;
     retrieval_attempts := 0; gaps := []; previous_gaps := None;
     retrieved_context := [] |}.

Section Dedup.
(** The built-in [hash] on strings. *)
Variable hash : string -> Z.

Definition content_hash_of (c : Qdrant.chunk) : result Z :=
match Qdrant.content c with
| Some text => Ok (hash (prefix CONTENT_HASH_LENGTH text))
| None => Raise TypeError
end.

(** The loop of [_deduplicate_chunks] with [seen_content] as it stands. *)
Fixpoint dedup_from (seen_content : gset Z) (chunks : list Qdrant.chunk)
: result (list Qdrant.chunk) :=
match chunks with
| [] => Ok []
| chunk :: rest =>
content_hash ← content_hash_of chunk;
if bool_decide (content_hash ∈ seen_content)
then dedup_from seen_content rest
else
  unique_chunks ← dedup_from ({[content_hash]} ∪ seen_content) rest;
  Ok (chunk :: unique_chunks)
end.

Definition _deduplicate_chunks (chunks : list Qdrant.chunk)
: result (list Qdrant.chunk) :=
dedup_from ∅ chunks.
End Dedup.

(** [RetrievedChunk(content=r["content"], ...)] validates that the content
    is a string. *)
Definition _convert_to_retrieved_chunks (results : list Qdrant.chunk)
  : result (list RetrievedChunk) :=
  mapM (fun r =>
          match Qdrant.content r with
          | Some text =>
              Ok {| content := text; score := Qdrant.score r;
                    metadata_company := Qdrant.company r;
                    metadata_sub_query_intent := Qdrant.sub_query_intent r;
                    metadata_sub_query := Qdrant.sub_query r |}
          | None => Raise (ValueError "content")
          end) results.

(** [l[0] if l and len(l) == 1 else None] *)
Definition only {A} (l : list A) : option A :=
  match l with [x] => Some x | _ => None end.

Definition set_augmented (q : string) (sq : SubQuery) : SubQuery :=
  {| sub_query := sub_query sq; intent := intent sq;
     sq_companies := sq_companies sq; sq_years := sq_years sq;
     sq_year_range := sq_year_range sq; metrics := metrics sq;
     priority := priority sq; sq_augmented_query := Some q |}.

Inductive retrieval_route : Type := refine | end_retrieval.

Definition should_continue_retrieval (st : state) : retrieval_route :=
  let sufficient := retrieval_sufficient st in
  let attempts := retrieval_attempts st in
  if sufficient then end_retrieval
  else if (3 <=? attempts)%Z then end_retrieval
  else refine.

(** The gap message of a sub-query with too few chunks. *)
Definition gap_message (sq : SubQuery) (n : nat) : string :=
  "Sub-query '" ++ sub_query sq ++ "' (intent: " ++ intent sq
  ++ "): insufficient results (" ++ str_of_nat n ++ " chunks)".

Section Nodes.
Variable hash : string -> Z.
(** Whether the graph run-time keeps a returned key that [AgentState]
does not declare. *)
Variable keeps_undeclared_keys : bool.

(** The outside world at one pass of the loop. *)
Record world : Type := {
(** [retriever.retrieve(query, user_id, top_k, company, companies,
year, year_range, use_hybrid=True, expand_query)] *)
retrieve :
string -> string -> Z -> option string -> option (list string) ->
option Z -> option (list Z) -> bool -> result (list Qdrant.chunk);
(** the order in which the futures of the sub-queries complete *)
as_completed : list SubQuery -> list SubQuery;
(** the structured validation call *)
llm_validate : result ValidationResponse;
(** the structured refinement call: [refined_query] *)
llm_refine : result string;
(** [query_processor.process_query(...)["query_text"]] *)
reprocess : SubQuery -> result string
}.

Definition retrieve_for_subquery (w : world) (sq : SubQuery)
     (user_id : string) : result (list Qdrant.chunk) :=
let companies :=
if truthy_list (sq_companies sq)
then Some (map lower (sq_companies sq)) else None in
let company := only (default [] companies) in
let year := only (default [] (sq_years sq)) in
let query_text :=
if truthy_opt truthy_str (sq_augmented_query sq)
then default "" (sq_augmented_query sq) else sub_query sq in
let year_range :=
match sq_year_range sq with
| Some [a; b] => Some [a; b]
| _ => None
end in
let base_top_k := 8%Z in
let many := (1 <? List.length (default [] companies))%nat in
let top_k :=
if many
then Z.max base_top_k (Z.of_nat (List.length (default [] companies)) * 6)
else base_top_k in
results ←
retrieve w query_text user_id top_k company
       (if many then companies else None) year year_range
       (negb (truthy_opt truthy_str (sq_augmented_query sq)));
Ok (map (Qdrant.set_sub_query (intent sq) (sub_query sq)) results).

(** [all_chunks_dict] once every future has completed: the sub-queries
whose retrieval raises are logged and skipped. *)
Definition all_chunks_dict (w : world) (sub_queries : list SubQuery)
     (user_id : string) : list Qdrant.chunk :=
flat_map (fun sq =>
        try_except (retrieve_for_subquery w sq user_id)
                   (fun _ => []))
     (as_completed w sub_queries).

Definition _retrieve_decomposed_query (w : world)
     (sub_queries : list SubQuery) (user_id : string)
: result (list RetrievedChunk * gmap string (list RetrievedChunk)) :=
unique ← _deduplicate_chunks hash (all_chunks_dict w sub_queries user_id);
let unique_chunks_dict := sort_desc Qdrant.score unique in
retrieved_chunks ← _convert_to_retrieved_chunks unique_chunks_dict;
let sub_query_results : gmap string (list RetrievedChunk) :=
fold_left
(fun d sq =>
   <[intent sq :=
       List.filter
         (fun c => bool_decide
                     (metadata_sub_query_intent c = Some (intent sq)))
         retrieved_chunks]> d)
sub_queries ∅ in
Ok (retrieved_chunks, sub_query_results).

Definition _retrieve_single_query (w : world) (processed : ProcessedQuery)
     (user_id : string) : result (list RetrievedChunk) :=
let companies :=
if truthy_list (companies processed)
then Some (map lower (companies processed)) else None in
let company := only (default [] companies) in
let year := only (default [] (years processed)) in
let many := (1 <? List.length (default [] companies))%nat in
let top_k :=
if many
then Z.max DEFAULT_TOP_K
         (Z.of_nat (List.length (default [] companies))
          * DEFAULT_TOP_K_MULTI_COMPANY_MULTIPLIER)
else DEFAULT_TOP_K in
results ←
retrieve w (augmented_query processed) user_id top_k company
       (if many then companies else None) year
       (year_range processed) true;
_convert_to_retrieved_chunks results.

Definition with_retrieved (st : state) (chunks : list RetrievedChunk)
     (by_intent : option (gmap string (list RetrievedChunk)))
: state :=
{| current_query := current_query st; user_id := user_id st;
 sub_queries := sub_queries st; is_decomposed := is_decomposed st;
 sub_query_results :=
 match by_intent with
 | Some d => Some d
 | None => sub_query_results st
 end;
 processed_query := processed_query st;
 retrieval_sufficient := retrieval_sufficient st;
 retrieval_attempts := retrieval_attempts st;
 gaps := gaps st; previous_gaps := previous_gaps st;
 retrieved_context := chunks |}.

Definition decomposed (st : state) : bool :=
is_decomposed st && truthy_opt truthy_list (sub_queries st).

Definition retrieval_node (w : world) (st : state) : state :=
if negb (truthy_opt truthy_str (user_id st)) then with_retrieved st [] None
else
let user := default "" (user_id st) in
if decomposed st then
match _retrieve_decomposed_query w (default [] (sub_queries st)) user with
| Ok (chunks, by_intent) => with_retrieved st chunks (Some by_intent)
| Raise _ => with_retrieved st [] None
end
else
match processed_query st with
| None => with_retrieved st [] None
| Some processed =>
    match _retrieve_single_query w processed user with
    | Ok chunks => with_retrieved st chunks None
    | Raise _ => with_retrieved st [] None
    end
end.

(** The write of [validation_node]: [retrieval_sufficient],
[retrieval_attempts], [gaps] and, on the single-query path,
[previous_gaps]. *)
Definition validated (st : state) (sufficient : bool) (attempts : Z)
     (gaps : list string) (previous : option (list string)) : state :=
{| current_query := current_query st; user_id := user_id st;
 sub_queries := sub_queries st; is_decomposed := is_decomposed st;
 sub_query_results := sub_query_results st;
 processed_query := processed_query st;
 retrieval_sufficient := sufficient;
 retrieval_attempts := attempts;
 gaps := gaps;
 previous_gaps :=
 match previous with
 | Some g => if keeps_undeclared_keys then Some g else previous_gaps st
 | None => previous_gaps st
 end;
 retrieved_context := retrieved_context st |}.

Definition validation_node (w : world) (st : state) : state :=
let attempts := (retrieval_attempts st + 1)%Z in
try_except
(if decomposed st then
 let sub_queries := default [] (sub_queries st) in
 (* [state.get("sub_query_results", {})] is [None] until a
    decomposed retrieval has written it *)
 sub_query_results ←
   match sub_query_results st with
   | Some d => Ok d
   | None => Raise AttributeError
   end;
 let gaps :=
   flat_map (fun sq =>
               let relevant_chunks :=
                 default [] (sub_query_results !! intent sq) in
               if (List.length relevant_chunks <? 2)%nat
               then [gap_message sq (List.length relevant_chunks)]
               else []) sub_queries in
 let sufficient := (List.length gaps =? 0)%nat in
 let sufficient := if (3 <=? attempts)%Z then true else sufficient in
 Ok (validated st sufficient attempts gaps None)
 else
 validation_result ← llm_validate w;
 let sufficient := sufficient validation_result in
 let gaps := response_gaps validation_result in
 let previous_gaps := default [] (previous_gaps st) in
 let sufficient :=
   if truthy_list previous_gaps
      && bool_decide (list_to_set gaps
                      =@{gset string} list_to_set previous_gaps)
   then true else sufficient in
 let sufficient := if (3 <=? attempts)%Z then true else sufficient in
 Ok (validated st sufficient attempts gaps (Some gaps)))
(fun _ =>
 let has_chunks := (0 <? List.length (retrieved_context st))%nat in
 let force_sufficient := has_chunks || (3 <=? attempts)%Z in
 validated st force_sufficient attempts [] None).

(** The write of [refinement_node]. *)
Definition refined (st : state) (sufficient : bool)
     (subs : option (list SubQuery)) (processed : option ProcessedQuery)
: state :=
{| current_query := current_query st; user_id := user_id st;
 sub_queries := subs; is_decomposed := is_decomposed st;
 sub_query_results := sub_query_results st;
 processed_query := processed;
 retrieval_sufficient := sufficient;
 retrieval_attempts := retrieval_attempts st;
 gaps := gaps st; previous_gaps := previous_gaps st;
 retrieved_context := retrieved_context st |}.

(** The loop over the sub-queries in [refinement_node].  A sub-query is
an object of the state, updated in place: the ones refined before a
failure stay refined.  The Boolean tells whether the loop ended. *)
Fixpoint refine_sub_queries (w : world) (gaps : list string)
   (subs : list SubQuery) : list SubQuery * bool :=
match subs with
| [] => ([], true)
| sq :: rest =>
let has_gap :=
  existsb (fun gap => contains (intent sq) gap
                      || contains (sub_query sq) gap) gaps in
if has_gap then
  match reprocess w sq with
  | Ok q =>
      let (rest', ok) := refine_sub_queries w gaps rest in
      (set_augmented q sq :: rest', ok)
  | Raise _ => (sq :: rest, false)
  end
else
  let (rest', ok) := refine_sub_queries w gaps rest in
  (sq :: rest', ok)
end.

Definition refinement_node (w : world) (st : state) : state :=
if (3 <=? retrieval_attempts st)%Z
then refined st true (sub_queries st) (processed_query st)
else if decomposed st then
let (subs, ok) :=
refine_sub_queries w (gaps st) (default [] (sub_queries st)) in
refined st (negb ok) (Some subs) (processed_query st)
else
match processed_query st with
| None => refined st true (sub_queries st) None
| Some processed =>
  match llm_refine w with
  | Ok refined_query =>
      refined st false (sub_queries st)
              (Some {| query_text := query_text processed;
                       companies := companies processed;
                       years := years processed;
                       year_range := year_range processed;
                       query_type := query_type processed;
                       augmented_query := refined_query |})
  | Raise _ => refined st true (sub_queries st) (Some processed)
  end
end.

(** The edge [retrieval -> validation]. *)
Definition retrieval_pass (w : world) (st : state) : state :=
validation_node w (retrieval_node w st).

(** The edges [retrieval -> validation -> (refinement -> retrieval |
END)], followed for at most [fuel] validations; [worlds n] is the
outside world at pass [n].  The result is the final state and the
number of validations; [None] when the fuel runs out first. *)
Fixpoint retrieval_loop (worlds : nat -> world) (fuel : nat) (pass : nat)
   (st : state) : option (state * nat) :=
match fuel with
| O => None
| S fuel' =>
let w := worlds pass in
let st := retrieval_pass w st in
match should_continue_retrieval st with
| end_retrieval => Some (st, S pass)
| refine =>
    retrieval_loop worlds fuel' (S pass) (refinement_node w st)
end
end.
End Nodes.

End Agent1.

(** ** [core/utils/cache.py]: classes [CacheEntry] and [SimpleCache] *)

Module Cache.
Import Py.

Section SimpleCache.
(** The values stored; [None] is Python's [None], which [set] accepts as
any other value. *)
Context {V : Type}.

(** Time is the reading of [datetime.utcnow()], in microseconds. *)
Record CacheEntry : Type := {
value : option V;
expires_at : Z
}.

(** [CacheEntry(value, ttl_seconds)] at the time [now]:
[expires_at = utcnow() + timedelta(seconds=ttl_seconds)]. *)
Definition new_entry (now : Z) (v : option V) (ttl_seconds : Z)
: CacheEntry :=
{| value := v; expires_at := (now + ttl_seconds * 1000000)%Z |}.

(** [utcnow() >= self.expires_at] *)
Definition is_expired (now : Z) (entry : CacheEntry) : bool :=
(expires_at entry <=? now)%Z.

(** The dictionary [self._cache]. *)
Definition cache : Type := gmap string CacheEntry.

Definition get (now : Z) (key : string) (c : cache) : option V * cache :=
match c !! key with
| None => (None, c)
| Some entry =>
if is_expired now entry then (None, delete key c)
else (value entry, c)
end.

Definition set (default_ttl : Z) (now : Z) (key : string) (v : option V)
 (ttl_seconds : option Z) (c : cache) : cache :=
let ttl := match ttl_seconds with Some t => t | None => default_ttl end in
<[key := new_entry now v ttl]> c.

(** [self._cache.pop(key, None)] *)
Definition delete (key : string) (c : cache) : cache := base.delete key c.

Definition clear (c : cache) : cache := ∅.


(** [size]: the expired entries are deleted first.  The clock is taken to
show [now] for every entry of the scan. *)
Definition size (now : Z) (c : cache) : nat * cache :=
let c' := filter (fun kv => negb (is_expired now (snd kv))) c in
(base.size c', c').
End SimpleCache.

End Cache.

(** ** [core/ai/embedding/manager.py]: [EmbeddingManager.embed_query] *)

Module Embedding.
Import Py.

(** [embedding_cache = SimpleCache(default_ttl_seconds=3600)] *)
Definition EMBEDDING_TTL : Z := 3600.

Section Manager.
(** The class name of the embedder, whether it is a [VoyageEmbedder], and
its two methods. *)
Variable provider_name : string.
Variable is_voyage : bool.
Variable embedder_embed_query : string -> result (list R).
Variable embedder_embed_text : string -> result (list R).

Definition cache_key (query : string) : string :=
"embedding:query:" ++ provider_name ++ ":" ++ query.

(** [embed_query]: the clock is read at [now] by the cache lookup and at
[later] when the result is stored.  The embedder returns a list, never
[None]. *)
Definition embed_query (now later : Z) (query : string)
 (c : Cache.cache (V := list R))
: Eff (list R) * Cache.cache (V := list R) :=
match Cache.get now (cache_key query) c with
| (Some cached, c) => (eff_ret cached, c)
| (None, c) =>
let call :=
if is_voyage then embedder_embed_query query
else embedder_embed_text query in
match call with
| Ok embedding =>
(eff_call (EvEmbed query) (Ok embedding),
 Cache.set EMBEDDING_TTL later (cache_key query) (Some embedding)
           None c)
| Raise e => (eff_call (EvEmbed query) (Raise e), c)
end
end.
End Manager.

End Embedding.

(** ** [agent3_generation/nodes.py]: the sources of a response *)

Module Sources.
Import Py.

(** [str(n)] for an integer. *)
Definition str_of_Z (n : Z) : string :=
if (n <? 0)%Z then "-" ++ str_of_nat (Z.to_nat (- n))
else str_of_nat (Z.to_nat n).

(** The metadata of a retrieved chunk that [_extract_sources] reads.
  [None] is a missing key or a [null]; for [page_idx], whose default is
  0, the outer [None] is the missing key and [Some None] the [null]. *)
Record chunk_metadata : Type := {
company_name : option string;
company : option string;
fiscal_year : option Z;
document_type : option string;
fiscal_quarter : option Z;
company_ticker : option string;
page_idx : option (option Z);
company_sector : option string
}.

(** An entry of the list [_extract_sources] returns. *)
Record source : Type := {
s_company : string;
s_ticker : option string;
s_year : Z;
s_fiscal_quarter : option Z;
s_document_type : option string;
s_document_display : string;
s_page : option Z;
s_sector : option string
}.

(** [metadata.get('company_name') or metadata.get('company') or ""] *)
Definition company_of (m : chunk_metadata) : string :=
if truthy_opt truthy_str (company_name m) then default "" (company_name m)
else if truthy_opt truthy_str (company m) then default "" (company m)
else "".

(** [metadata.get('fiscal_year') or 0] *)
Definition year_of (m : chunk_metadata) : Z :=
if truthy_opt truthy_int (fiscal_year m) then default 0%Z (fiscal_year m)
else 0%Z.

(** [metadata.get('page_idx', 0)] *)
Definition page_of (m : chunk_metadata) : option Z :=
match page_idx m with
| None => Some 0%Z
| Some p => p
end.

Definition source_key_t : Type := string * Z * string * Z * option Z.

Definition source_key (m : chunk_metadata) : source_key_t :=
let company := company_of m in
(if truthy_str company then lower company else "",
 year_of m,
 if truthy_opt truthy_str (document_type m)
 then default "" (document_type m) else "",
 if truthy_opt truthy_int (fiscal_quarter m)
 then default 0%Z (fiscal_quarter m) else 0%Z,
 page_of m).

(** The dictionary appended for a chunk whose key is new. *)
Definition source_of (m : chunk_metadata) : source :=
let company := company_of m in
let doc_type_display :=
  if truthy_opt truthy_str (document_type m)
  then default "" (document_type m) else "Document" in
let doc_type_display :=
  if truthy_opt truthy_int (fiscal_quarter m)
     && match document_type m with
        | Some t => mem t ["10-Q"; "10Q"]
        | None => false
        end
  then default "" (document_type m) ++ " Q"
       ++ str_of_Z (default 0%Z (fiscal_quarter m))
  else doc_type_display in
{| s_company := if truthy_str company then company else "Unknown";
   s_ticker := company_ticker m;
   s_year := year_of m;
   s_fiscal_quarter := fiscal_quarter m;
   s_document_type := document_type m;
   s_document_display := doc_type_display;
   s_page := page_of m;
   s_sector := company_sector m |}.

(** The loop of [_extract_sources] with [seen_sources] as it stands. *)
Fixpoint extract_from (seen_sources : gset source_key_t)
       (retrieved_context : list chunk_metadata) : list source :=
match retrieved_context with
| [] => []
| chunk :: rest =>
    let key := source_key chunk in
    if bool_decide (key ∈ seen_sources)
    then extract_from seen_sources rest
    else source_of chunk :: extract_from ({[key]} ∪ seen_sources) rest
end.

Definition _extract_sources (retrieved_context : list chunk_metadata)
: list source :=
extract_from ∅ retrieved_context.

(** The line of one source in [_format_sources_text]. *)
Definition format_source (s : source) : string :=
let parts :=
  ((if truthy_str (s_company s) then [s_company s] else [])
   ++ (match s_ticker s with
       | Some t => if truthy_str t then [("(" ++ t ++ ")")%string] else []
       | None => []
       end)
   ++ (if truthy_int (s_year s) then [str_of_Z (s_year s)] else [])
   ++ (if truthy_str (s_document_display s)
       then [s_document_display s] else [])
   ++ (match s_page s with
       | Some p => [("Page " ++ str_of_Z p)%string]
       | None => []
       end))%list in
join " " parts.

Definition newline : string := String "010"%char "".

Definition _format_sources_text (sources : list source) : string :=
if negb (truthy_list sources) then ""
else join newline (map (fun s => "- " ++ format_source s) sources).


(** *** [_remove_sources_from_text] *)

(** [s.lstrip()], [s.rstrip()] and [s.strip()] *)
Fixpoint lstrip (s : string) : string :=
  match s with
  | EmptyString => EmptyString
  | String c s' => if is_space c then lstrip s' else s
  end.

Fixpoint rstrip (s : string) : string :=
  match s with
  | EmptyString => EmptyString
  | String c s' =>
      match rstrip s' with
      | EmptyString => if is_space c then EmptyString else String c EmptyString
      | r => String c r
      end
  end.

Definition strip (s : string) : string := lstrip (rstrip s).

(** [s.split('\n')], as the first line and the lines after it. *)
Fixpoint split_lines (s : string) : string * list string :=
  match s with
  | EmptyString => ("", [])
  | String c s' =>
      let (line, rest) := split_lines s' in
      if Ascii.eqb c "010" then ("", line :: rest) else (String c line, rest)
  end.

Definition lines (s : string) : list string :=
  let (line, rest) := split_lines s in line :: rest.

(** The test on a line that starts the skipping. *)
Definition is_sources_heading (line : string) : bool :=
  starts_with "## Sources" (strip line)
  || starts_with "### Sources" (strip line).

(** The loop over the lines, with the flag [skip] as it stands. *)
Fixpoint remove_loop (skip : bool) (text_lines : list string) : list string :=
  match text_lines with
  | [] => []
  | line :: rest =>
      if is_sources_heading line then remove_loop true rest
      else if skip && starts_with "#" (strip line)
      then line :: remove_loop false rest
      else if skip then remove_loop skip rest
      else line :: remove_loop skip rest
  end.

Definition _remove_sources_from_text (text : string) : string :=
  if negb (contains "## Sources" text) && negb (contains "### Sources" text)
  then text
  else strip (join newline (remove_loop false (lines text))).

End Sources.

(** ** [core/ai/llm]: model selection, cost tracking, [LLMManager.generate] *)

Module LLM.
Import Py.

(** [LLMModels] in [config/constants.py] *)
Definition GPT_4O_MINI : string := "gpt-4o-mini".
Definition GPT_4O : string := "gpt-4o".
Definition CLAUDE_3_5_SONNET : string := "claude-3-5-sonnet-20241022".

(** [d.get(key)] for a dictionary literal, given by its items in the order
    written; the keys of the literals below are pairwise distinct. *)
Fixpoint dict_get {A} (key : string) (d : list (string * A)) : option A :=
  match d with
  | [] => None
  | (k, v) :: d' => if String.eqb k key then Some v else dict_get key d'
  end.

Definition TASK_MODELS : list (string * string) :=
  [ ("query_augmentation", GPT_4O_MINI);
    ("query_decomposition", GPT_4O_MINI);
    ("format_selection", GPT_4O_MINI);
    ("data_extraction", GPT_4O);
    ("analysis", GPT_4O);
    ("text_explanation", GPT_4O);
    ("generation", GPT_4O);
    ("response_synthesis", GPT_4O);
    ("analytical_reasoning", CLAUDE_3_5_SONNET);
    ("memory_compression", GPT_4O_MINI);
    ("memory_summarization", GPT_4O_MINI);
    ("quality_validation", GPT_4O) ].

(** *** [model_selector.py] *)

Definition get_model_for_task (task : string) : string :=
  match dict_get task TASK_MODELS with
  | Some model => if truthy_str model then model else GPT_4O_MINI
  | None => GPT_4O_MINI
  end.

Definition get_provider_for_model (model : string) : string :=
  if starts_with "gpt-" model || starts_with "text-embedding-" model
  then "openai"
  else if starts_with "claude-" model then "anthropic"
  else "openai".

Definition is_embedding_model (model : string) : bool :=
  contains "embedding" (lower model).

Definition list_available_tasks : list string := map fst TASK_MODELS.

(** *** [cost_tracker.py] *)

(** The prices of a model, in dollars for a million tokens. *)
Record pricing : Type := {
  input : R;
  output : R
}.

Definition MODEL_PRICING : list (string * list (string * pricing)) :=
  [ ("openai",
     [ ("gpt-4o", {| input := 2.50%R; output := 10.00%R |});
       ("gpt-4o-mini", {| input := 0.15%R; output := 0.60%R |});
       ("text-embedding-3-small", {| input := 0.02%R; output := 0.0%R |}) ]);
    ("anthropic",
     [ ("claude-3-5-sonnet-20241022",
        {| input := 3.00%R; output := 15.00%R |}) ]) ].

(** [MODEL_PRICING.get(provider, {}).get(model)] *)
Definition pricing_of (provider model : string) : option pricing :=
  dict_get model (default [] (dict_get provider MODEL_PRICING)).

(** A pricing dictionary has two keys, so [not pricing] holds for [None]
    only. *)
Definition calculate_cost (prompt_tokens completion_tokens : Z)
           (model provider : string) : R :=
  match pricing_of provider model with
  | None => 0.0%R
  | Some pricing =>
      let input_cost := (IZR prompt_tokens / 1000000 * input pricing)%R in
      let output_cost :=
        (IZR completion_tokens / 1000000 * output pricing)%R in
      (input_cost + output_cost)%R
  end.

(** The fields of a [CostTracker]; a day is the number of [date.today()]. *)
Record CostTracker : Type := {
  daily_costs : gmap Z R;
  task_costs : gmap string R;
  model_costs : gmap string R;
  provider_costs : gmap string R;
  total_cost : R
}.

Definition new_tracker : CostTracker :=
  {| daily_costs := ∅; task_costs := ∅; model_costs := ∅;
     provider_costs := ∅; total_cost := 0.0%R |}.

(** [d[key] += cost] on a [defaultdict(float)] *)
Definition add_cost {K} `{Countable K} (key : K) (cost : R) (d : gmap K R)
  : gmap K R :=
  <[key := (default 0.0%R (d !! key) + cost)%R]> d.

(** [if name: d[name] += cost] *)
Definition add_named (name : option string) (cost : R) (d : gmap string R)
  : gmap string R :=
  match name with
  | Some n => if truthy_str n then add_cost n cost d else d
  | None => d
  end.

(** [record_cost] on the day [today]. *)
Definition record_cost (today : Z) (cost : R)
           (task model provider : option string) (t : CostTracker)
  : CostTracker :=
  {| daily_costs := add_cost today cost (daily_costs t);
     task_costs := add_named task cost (task_costs t);
     model_costs := add_named model cost (model_costs t);
     provider_costs := add_named provider cost (provider_costs t);
     total_cost := (total_cost t + cost)%R |}.

Definition get_daily_cost (today : Z) (target_date : option Z)
           (t : CostTracker) : R :=
  let target_date :=
    match target_date with Some d => d | None => today end in
  default 0.0%R (daily_costs t !! target_date).

Definition get_task_cost (task : string) (t : CostTracker) : R :=
  default 0.0%R (task_costs t !! task).

Definition reset (t : CostTracker) : CostTracker := new_tracker.

(** *** [providers/base.py], [providers/openai_provider.py] *)

(** The dictionary [OpenAIProvider.generate] puts in [metadata]. *)
Record response_metadata : Type := {
  m_prompt_tokens : Z;
  m_completion_tokens : Z;
  m_finish_reason : string
}.

(** [LLMResponse]; [metadata] is [None] for the default [{}]. *)
Record LLMResponse : Type := {
  content : string;
  model : string;
  provider : string;
  tokens_used : option Z;
  cost : option R;
  metadata : option response_metadata
}.

(** What [generate] reads in the answer of the chat completions API. *)
Record completion : Type := {
  message_content : option string;
  prompt_tokens : Z;
  completion_tokens : Z;
  total_tokens : Z;
  finish_reason : string
}.

(** The parameters [generate] sends, without the extra keyword arguments;
    a message is a role and a content. *)
Record api_params : Type := {
  p_model : string;
  p_messages : list (string * string);
  p_temperature : R;
  p_max_tokens : option Z;
  p_response_format : option (list (string * Agent3.json))
}.

Definition truthy_float (x : R) : bool :=
  if Req_dec_T x 0 then false else true.

(** The messages and the parameters [OpenAIProvider.generate] prepares. *)
Definition api_params_of (prompt model : string)
           (system_prompt : option string) (temperature : R)
           (max_tokens : option Z)
           (response_format : option (list (string * Agent3.json)))
  : api_params :=
  let messages :=
    ((if truthy_opt truthy_str system_prompt
      then [("system", default "" system_prompt)] else [])
     ++ [("user", prompt)])%list in
  {| p_model := model;
     p_messages := messages;
     p_temperature := temperature;
     p_max_tokens := max_tokens;
     p_response_format :=
       if truthy_opt truthy_list response_format
       then response_format else None |}.

Section OpenAIProvider.
(** [self.client.chat.completions.create]: an API error, or an answer
without a choice or without usage, is an exception. *)
Variable chat_completions_create : api_params -> result completion.

(** [OpenAIProvider.generate] on the day [today], with the shared cost
tracker threaded through. *)
Definition openai_generate (today : Z) (prompt model : string)
       (system_prompt : option string) (temperature : R)
       (max_tokens : option Z)
       (response_format : option (list (string * Agent3.json)))
       (t : CostTracker) : Eff LLMResponse * CostTracker :=
let params :=
api_params_of prompt model system_prompt temperature max_tokens
              response_format in
match chat_completions_create params with
| Raise e => (eff_call (EvLLM prompt) (Raise e), t)
| Ok response =>
  let cost :=
    calculate_cost (prompt_tokens response) (completion_tokens response)
                   model "openai" in
  (eff_call (EvLLM prompt)
     (Ok {| content :=
              if truthy_opt truthy_str (message_content response)
              then default "" (message_content response) else "";
            model := model;
            provider := "openai";
            tokens_used := Some (total_tokens response);
            cost := Some cost;
            metadata :=
              Some {| m_prompt_tokens := prompt_tokens response;
                      m_completion_tokens := completion_tokens response;
                      m_finish_reason := finish_reason response |} |}),
   record_cost today cost None (Some model) (Some "openai") t)
end.
End OpenAIProvider.

(** *** [manager.py] *)

(** The [generate] method of a provider. *)
Definition provider_generate : Type :=
  Z -> string -> string -> option string -> R -> option Z ->
  option (list (string * Agent3.json)) -> CostTracker ->
  Eff LLMResponse * CostTracker.

(** [_initialize_providers]: [OpenAIProvider()] raises without an API key,
    and the manager then has no provider. *)
Definition _initialize_providers (api_key : option string)
           (chat_completions_create : api_params -> result completion)
  : gmap string provider_generate :=
  if truthy_opt truthy_str api_key
  then {[ "openai" := openai_generate chat_completions_create ]}
  else ∅.

Definition get_provider (providers : gmap string provider_generate)
           (provider_name : string) : result provider_generate :=
  match providers !! provider_name with
  | Some provider => Ok provider
  | None => Raise (ValueError "Provider not found")
  end.

(** [LLMManager.generate]: the provider reads the date on [today], the
    manager afterwards on [later]. *)
Definition generate (providers : gmap string provider_generate)
           (today later : Z) (prompt : string)
           (task model provider : option string)
           (system_prompt : option string) (temperature : R)
           (max_tokens : option Z)
           (response_format : option (list (string * Agent3.json)))
           (t : CostTracker) : Eff LLMResponse * CostTracker :=
  let selected :=
    match model with
    | Some m => Ok m
    | None =>
        match task with
        | None => Raise (ValueError "Either 'task' or 'model' must be provided")
        | Some task => Ok (get_model_for_task task)
        end
    end in
  match selected with
  | Raise e => (eff_raise e, t)
  | Ok model =>
      let provider :=
        match provider with
        | Some p => p
        | None => get_provider_for_model model
        end in
      match get_provider providers provider with
      | Raise e => (eff_raise e, t)
      | Ok llm_provider =>
          match llm_provider today prompt model system_prompt temperature
                             max_tokens response_format t with
          | ((trace, Raise e), t) => ((trace, Raise e), t)
          | ((trace, Ok response), t) =>
              if truthy_opt truthy_str task
                 && truthy_opt truthy_float (cost response)
              then ((trace, Ok response),
                    record_cost later (default 0.0%R (cost response)) task
                                (Some model) (Some provider) t)
              else ((trace, Ok response), t)
          end
      end
  end.

End LLM.

(** * Sample inputs *)

Module Samples.
Import Py.

(** An extraction for a trend query, "Apple revenue from 2018 to 2022". *)
Definition trend_result : QueryProcessor.llm_result :=
  {| QueryProcessor.llm_companies := Some ["apple"];
     QueryProcessor.llm_year := None;
     QueryProcessor.llm_year_range := Some [2018; 2022]%Z;
     QueryProcessor.llm_augmented_query := Some "apple revenue trend";
     QueryProcessor.llm_filters := QueryProcessor.no_metadata_filters;
     QueryProcessor.llm_needs_year_expansion := Some true |}.

Definition trend_llm (_ : string) : result QueryProcessor.llm_result :=
  Ok trend_result.

Definition no_embedding (_ : string) : result (list R) := Ok [].

(** The chart [{"type": "scatter", "data": {}}]. *)
Definition scatter_chart : Agent3.json :=
  Agent3.JObject [("type", Agent3.JString "scatter");
                  ("data", Agent3.JObject [])].

Definition scatter_response : Agent3.AnswerResponse :=
  {| Agent3.text := "Revenue by year [CHART:1]";
     Agent3.charts := [scatter_chart];
     Agent3.sources := []; Agent3.metadata := [] |}.

Definition text_chunk (id text name : string) (s : R) : Qdrant.chunk :=
  {| Qdrant.chunk_id := Some id; Qdrant.content := Some text;
     Qdrant.score := s; Qdrant.company := Some name;
     Qdrant.normalized_score := None; Qdrant.semantic_score := None;
     Qdrant.keyword_score := None; Qdrant.rerank_score := None;
     Qdrant.keyword_rerank_score := None; Qdrant.sub_query_intent := None;
     Qdrant.sub_query := None |}.

(** A stand-in for the built-in [hash]: the length of the text. *)
Definition length_hash (s : string) : Z := Z.of_nat (String.length s).

(** A sub-query and a world in which every retrieval returns two chunks
    with the same text; the language-model calls fail. *)
Definition income_sub_query : Agent1.SubQuery :=
  {| Agent1.sub_query := "Also show net income";
     Agent1.intent := "net_income_lookup";
     Agent1.sq_companies := ["nvidia"];
     Agent1.sq_years := Some [2017%Z];
     Agent1.sq_year_range := None;
     Agent1.metrics := ["net income"];
     Agent1.priority := 1;
     Agent1.sq_augmented_query := Some "nvidia net income 2017" |}.

Definition twin_chunks : list Qdrant.chunk :=
  [ text_chunk "c1" "Net income was $3,047 million" "nvidia" 0.9%R;
    text_chunk "c2" "Net income was $3,047 million" "nvidia" 0.8%R ].

Definition twin_world : Agent1.world :=
  {| Agent1.retrieve := fun _ _ _ _ _ _ _ _ => Ok twin_chunks;
     Agent1.as_completed := fun l => l;
     Agent1.llm_validate := Raise (ExternalError "no model");
     Agent1.llm_refine := Raise (ExternalError "no model");
     Agent1.reprocess := fun _ => Raise (ExternalError "no model") |}.

(** A world that makes no progress: every retrieval comes back empty and
    every validation reports the same gap. *)
Definition stalled_world : Agent1.world :=
  {| Agent1.retrieve := fun _ _ _ _ _ _ _ _ => Ok [];
     Agent1.as_completed := fun l => l;
     Agent1.llm_validate :=
       Ok {| Agent1.sufficient := false;
             Agent1.response_gaps := ["revenue for 2023 is missing"] |};
     Agent1.llm_refine := Ok "apple revenue 2023 annual report";
     Agent1.reprocess := fun _ => Ok "nvidia net income fiscal 2017" |}.

(** The state after query processing of a decomposed query. *)
Definition decomposed_state : Agent1.state :=
  {| Agent1.current_query :=
       "What was NVIDIA's revenue in 2017? Also show net income.";
     Agent1.user_id := Some "u";
     Agent1.sub_queries := Some [income_sub_query];
     Agent1.is_decomposed := true;
     Agent1.sub_query_results := None;
     Agent1.processed_query := None;
     Agent1.retrieval_sufficient := false;
     Agent1.retrieval_attempts := 0;
     Agent1.gaps := [];
     Agent1.previous_gaps := None;
     Agent1.retrieved_context := [] |}.

(** The state after query processing of a single query. *)
Definition single_state : Agent1.state :=
  {| Agent1.current_query := "What was Apple's revenue in 2023?";
     Agent1.user_id := Some "u";
     Agent1.sub_queries := None;
     Agent1.is_decomposed := false;
     Agent1.sub_query_results := None;
     Agent1.processed_query :=
       Some {| Agent1.query_text := "What was Apple's revenue in 2023?";
               Agent1.companies := ["apple"];
               Agent1.years := Some [2023%Z];
               Agent1.year_range := None;
               Agent1.query_type := "numerical_lookup";
               Agent1.augmented_query := "apple revenue 2023" |};
     Agent1.retrieval_sufficient := false;
     Agent1.retrieval_attempts := 0;
     Agent1.gaps := [];
     Agent1.previous_gaps := None;
     Agent1.retrieved_context := [] |}.

(** [single_state] as the second validation finds it when the key
    [previous_gaps] has been kept. *)
Definition single_state_second_attempt : Agent1.state :=
  {| Agent1.current_query := "What was Apple's revenue in 2023?";
     Agent1.user_id := Some "u";
     Agent1.sub_queries := None;
     Agent1.is_decomposed := false;
     Agent1.sub_query_results := None;
     Agent1.processed_query := Agent1.processed_query single_state;
     Agent1.retrieval_sufficient := false;
     Agent1.retrieval_attempts := 1;
     Agent1.gaps := ["revenue for 2023 is missing"];
     Agent1.previous_gaps := Some ["revenue for 2023 is missing"];
     Agent1.retrieved_context := [] |}.

(** Self-heal replies: the same invalid chart again, and a failing call. *)
Definition heal_same (_ : nat) : Agent3.heal_reply :=
  Agent3.HealJson (Agent3.JArray [scatter_chart]).
Definition heal_fails (_ : nat) : Agent3.heal_reply := Agent3.HealRaises.

(** The first two passes of the retrieval loop on [decomposed_state] in
    the stalled world. *)
Definition stalled_first : Agent1.state :=
  Agent1.retrieval_pass length_hash true stalled_world decomposed_state.
Definition stalled_second : Agent1.state :=
  Agent1.retrieval_pass length_hash true stalled_world
    (Agent1.refinement_node stalled_world stalled_first).

(** The same two passes, for either behaviour of the run-time towards
    undeclared keys. *)
Definition stalled_decomposed_first (keeps : bool) : Agent1.state :=
  Agent1.retrieval_pass length_hash keeps stalled_world decomposed_state.
Definition stalled_decomposed_second (keeps : bool) : Agent1.state :=
  Agent1.retrieval_pass length_hash keeps stalled_world
    (Agent1.refinement_node stalled_world (stalled_decomposed_first keeps)).

(** The first two passes on [single_state] in the stalled world, when the
    run-time does not keep the undeclared key [previous_gaps]. *)
Definition stalled_single_first : Agent1.state :=
  Agent1.retrieval_pass length_hash false stalled_world single_state.
Definition stalled_single_second : Agent1.state :=
  Agent1.retrieval_pass length_hash false stalled_world
    (Agent1.refinement_node stalled_world stalled_single_first).

(** Five Apple and six Microsoft chunks, as the index returns them. *)
Definition apple_microsoft_results : list Qdrant.chunk :=
  [ text_chunk "a1" "Apple revenue 2023" "Apple" 0.91%R;
    text_chunk "m1" "Microsoft revenue 2023" "Microsoft" 0.90%R;
    text_chunk "a2" "Apple net sales" "Apple" 0.89%R;
    text_chunk "a3" "Apple services revenue" "Apple" 0.88%R;
    text_chunk "a4" "Apple iPhone revenue" "Apple" 0.87%R;
    text_chunk "a5" "Apple gross margin" "apple" 0.86%R;
    text_chunk "m2" "Microsoft cloud revenue" "microsoft" 0.70%R;
    text_chunk "m3" "Microsoft Azure growth" "microsoft" 0.69%R;
    text_chunk "m4" "Microsoft operating income" "microsoft" 0.68%R;
    text_chunk "m5" "Microsoft net income" "microsoft" 0.67%R;
    text_chunk "m6" "Microsoft gaming revenue" "microsoft" 0.66%R ].

(** An index that holds two Apple and two Microsoft chunks for the user;
    only the Apple chunks mention revenue. *)
Definition point (id text name : string) (s : R) : Qdrant.scored_point :=
  {| Qdrant.payload_chunk_id := Some id;
     Qdrant.payload_content := Some text;
     Qdrant.payload_company := Some name;
     Qdrant.point_score := s |}.

Definition apple_1 : Qdrant.scored_point :=
  point "a1" "Apple Revenue" "apple" 0.9%R.
Definition apple_2 : Qdrant.scored_point :=
  point "a2" "Apple revenue" "apple" 0.9%R.
Definition microsoft_1 : Qdrant.scored_point :=
  point "m1" "Microsoft Azure" "microsoft" 0.8%R.
Definition microsoft_2 : Qdrant.scored_point :=
  point "m2" "Microsoft azure" "microsoft" 0.8%R.

Definition comparison_points : list Qdrant.scored_point :=
  [apple_1; apple_2; microsoft_1; microsoft_2].

Definition comparison_index (_ : list R) (_ : Z) (_ : Qdrant.query_filter)
  : result (list Qdrant.scored_point) :=
  Ok comparison_points.

Definition no_llm (_ : string) : result QueryProcessor.llm_result :=
  Raise (ExternalError "not called").

(** [retriever.retrieve("revenue", "u", top_k, companies=["apple",
    "microsoft"], expand_query=False)] on that index, with the default
    settings and the keyword reranker. *)
Definition comparison_retrieve (top_k : Z) : Eff (list Qdrant.chunk) :=
  Retriever.retrieve Retriever.default_settings comparison_index no_llm
                     no_embedding KeywordSearch.financial_phrases None
                     "revenue" (Some "u") (Some top_k) None
                     (Some ["apple"; "microsoft"]) None None true false
                     Retriever.no_retrieve_filters.

(** The filters [retrieve] hands to [hybrid_search] in that call. *)
Definition comparison_filters : Qdrant.search_filters :=
  {| Qdrant.f_company := None;
     Qdrant.f_companies := Some ["apple"; "microsoft"];
     Qdrant.f_year := None; Qdrant.f_year_range := None;
     Qdrant.f_document_type := None; Qdrant.f_document_types := None;
     Qdrant.f_document_category := None; Qdrant.f_fiscal_quarter := None;
     Qdrant.f_sector := None; Qdrant.f_sectors := None;
     Qdrant.f_industry := None;
     Qdrant.f_has_financial_statements := None; Qdrant.f_has_mda := None;
     Qdrant.f_has_risk_factors := None; Qdrant.f_period_type := None;
     Qdrant.f_reporting_standard := None; Qdrant.f_country := None;
     Qdrant.f_exchange := None; Qdrant.f_chunk_type := None;
     Qdrant.f_has_table := None |}.

(** The call of [hybrid_search] inside [comparison_retrieve]. *)
Definition comparison_hybrid : Eff (list Qdrant.chunk) :=
  Qdrant.hybrid_search comparison_index KeywordSearch.financial_phrases
                       [] "revenue" (Some "u") 30 0.7%R comparison_filters.

(** The chunks of [comparison_points] as [search] first builds them. *)
Definition comparison_chunks : list Qdrant.chunk :=
  map Qdrant.chunk_of_point comparison_points.

(** What the stages make of a point of the index in that call: the chunk
    [search] returns, the chunk [hybrid_search] scores, the chunk it
    returns, and the chunk the reranker scores. *)
Definition keyword_of (c : Qdrant.chunk) : R :=
  KeywordSearch.calculate_keyword_relevance
    KeywordSearch.financial_phrases "revenue"
    (default "" (Qdrant.content c)) true.

Definition searched (p : Qdrant.scored_point) : Qdrant.chunk :=
  Qdrant.set_score 0.0%R (Qdrant.chunk_of_point p).

Definition hybrid_scored (p : Qdrant.scored_point) : Qdrant.chunk :=
  let c := searched p in
  Qdrant.set_hybrid
    (0.7 * Qdrant.normalize_semantic (Qdrant.score c)
     + (1 - 0.7) * keyword_of c)%R
    (Qdrant.normalize_semantic (Qdrant.score c)) (keyword_of c) c.

Definition balanced_chunk (p : Qdrant.scored_point) : Qdrant.chunk :=
  Qdrant.set_score 0.0%R (hybrid_scored p).

Definition reranked_chunk (p : Qdrant.scored_point) : Qdrant.chunk :=
  let c := balanced_chunk p in
  Qdrant.set_rerank
    (0.6 * Qdrant.normalize_semantic (Qdrant.score c)
     + 0.4 * keyword_of c)%R
    (Some (keyword_of c)) c.

(** An index that answers like [comparison_index] when the filter
    restricts the query to user "u", and with nothing otherwise. *)
Definition other_tenant_index (_ : list R) (_ : Z) (qf : Qdrant.query_filter)
  : result (list Qdrant.scored_point) :=
  if existsb (fun c => match c with
                       | Qdrant.MatchValue key (Qdrant.VStr s) =>
                           String.eqb key "user_id" && String.eqb s "u"
                       | _ => false
                       end) qf
  then Ok comparison_points else Ok [].

(** An index that is down, and one that holds a point without text. *)
Definition failing_index (_ : list R) (_ : Z) (_ : Qdrant.query_filter)
  : result (list Qdrant.scored_point) :=
  Raise (ExternalError "connection refused").

Definition blank_point : Qdrant.scored_point :=
  {| Qdrant.payload_chunk_id := Some "b1"; Qdrant.payload_content := None;
     Qdrant.payload_company := Some "apple"; Qdrant.point_score := 0%R |}.

Definition blank_index (_ : list R) (_ : Z) (_ : Qdrant.query_filter)
  : result (list Qdrant.scored_point) :=
  Ok [blank_point].

(** A search without any filter but the user's. *)
Definition no_filters : Qdrant.search_filters :=
  {| Qdrant.f_company := None; Qdrant.f_companies := None;
     Qdrant.f_year := None; Qdrant.f_year_range := None;
     Qdrant.f_document_type := None; Qdrant.f_document_types := None;
     Qdrant.f_document_category := None; Qdrant.f_fiscal_quarter := None;
     Qdrant.f_sector := None; Qdrant.f_sectors := None;
     Qdrant.f_industry := None;
     Qdrant.f_has_financial_statements := None; Qdrant.f_has_mda := None;
     Qdrant.f_has_risk_factors := None; Qdrant.f_period_type := None;
     Qdrant.f_reporting_standard := None; Qdrant.f_country := None;
     Qdrant.f_exchange := None; Qdrant.f_chunk_type := None;
     Qdrant.f_has_table := None |}.


(** An answer of the chat completions API, an API that gives it to every
    request, and one that fails. *)
Definition api_answer : LLM.completion :=
  {| LLM.message_content := Some "Revenue grew.";
     LLM.prompt_tokens := 1200;
     LLM.completion_tokens := 300;
     LLM.total_tokens := 1500;
     LLM.finish_reason := "stop" |}.

Definition answering_api (_ : LLM.api_params) : result LLM.completion :=
  Ok api_answer.

Definition failing_api (_ : LLM.api_params) : result LLM.completion :=
  Raise (ExternalError "rate limit").

(** A generated answer that ends with a Sources section. *)
Definition answer_with_sources : string :=
  "Revenue grew." ++ Sources.newline ++ Sources.newline
  ++ "## Sources" ++ Sources.newline ++ "- Apple 2023 10-K".
End Samples.

(** * Statements about the code *)

Module Spec.
Import Py.

Section UserId.
Import Qdrant Retriever.
Variable config : settings.
Variable client_search :
list R -> Z -> query_filter -> result (list scored_point).
Variable paq : string -> result QueryProcessor.llm_result.
Variable embed : string -> result (list R).
Variable phrase_order : list string.
Variable cross_encoder : option (string -> option string -> R).

(** What the three entry points do for the user id [u], whatever the
other arguments: they raise [ValueError] and have called neither the
language model, nor the embedder, nor the index. *)
Definition refuses (u : option string) : Prop :=
(forall query top_k company companies year year_range use_hybrid
    expand_query rf,
retrieve config client_search paq embed phrase_order cross_encoder
         query u top_k company companies year year_range use_hybrid
         expand_query rf
= ([], Raise (ValueError "user_id is required for retrieval")))
/\ (forall query_vector top_k f,
   search client_search query_vector u top_k f
   = ([], Raise (ValueError "user_id is required for search")))
/\ (forall query_vector query_text top_k alpha f,
   hybrid_search client_search phrase_order query_vector query_text
                 u top_k alpha f
   = ([], Raise (ValueError "user_id is required for hybrid_search"))).
End UserId.

(** A chart as the quality check is said to want it: a JSON object whose
    ['type'] is one of line, bar, pie and doughnut and whose ['data'] is
    an object with both ['labels'] and ['datasets']. *)
Definition well_formed_chart (chart : Agent3.json) : Prop :=
  exists fields t data,
    chart = Agent3.JObject fields
    /\ Agent3.lookup "type" fields = Some (Agent3.JString t)
    /\ In t ["line"; "bar"; "pie"; "doughnut"]
    /\ Agent3.lookup "data" fields = Some (Agent3.JObject data)
    /\ Agent3.has_key "labels" data = true
    /\ Agent3.has_key "datasets" data = true.

(** The response [r] with another text. *)
Definition with_text (t : string) (r : Agent3.AnswerResponse)
  : Agent3.AnswerResponse :=
  {| Agent3.text := t; Agent3.charts := Agent3.charts r;
     Agent3.sources := Agent3.sources r;
     Agent3.metadata := Agent3.metadata r |}.

(** The deduplication key of a result dictionary and of a
    [RetrievedChunk]: the hash of the first 200 characters of the content
    (of the empty text when there is no content). *)
Definition dedup_key (hash : string -> Z) (c : Qdrant.chunk) : Z :=
  hash (prefix 200 (default "" (Qdrant.content c))).

Definition pooled_key (hash : string -> Z) (c : Agent1.RetrievedChunk) : Z :=
  hash (prefix 200 (Agent1.content c)).

Definition has_content (c : Qdrant.chunk) : Prop := Qdrant.content c <> None.

(** Every list [retriever.retrieve] returns holds chunks with a text. *)
Definition retrieves_texts (w : Agent1.world) : Prop :=
  forall q u k c cs y yr e l,
    Agent1.retrieve w q u k c cs y yr e = Ok l -> Forall has_content l.

(** The self-heal replies on which [self_heal_node] counts the attempt. *)
Definition counted (r : Agent3.heal_reply) : bool :=
  match r with
  | Agent3.HealUnparsable | Agent3.HealJson _ => true
  | Agent3.HealRaises | Agent3.HealNothing => false
  end.

(** The chunks of a company: those whose lower-cased company name is
    [name]. *)
Definition from_company (name : string) (r : Qdrant.chunk) : bool :=
  match Qdrant.company r with
  | Some c => String.eqb (lower c) name
  | None => false
  end.

Definition count_company (name : string) (rs : list Qdrant.chunk) : nat :=
  List.length (List.filter (from_company name) rs).

Definition has_company (r : Qdrant.chunk) : Prop := Qdrant.company r <> None.

(** The state of the round-robin loops after [j] full rounds over the two
    companies [l1] and [l2]. *)
Definition after_rounds (l1 l2 : string) (j : nat)
           (st : Qdrant.balance_state) : Prop :=
  List.length (Qdrant.balanced_results st) = (2 * j)%nat
  /\ count_company l1 (Qdrant.balanced_results st) = j
  /\ count_company l2 (Qdrant.balanced_results st) = j
  /\ Qdrant.taken_count st !! l1 = Some (Z.of_nat j)
  /\ Qdrant.taken_count st !! l2 = Some (Z.of_nat j)
  /\ Qdrant.remainder st = 0%Z.

(** The payload key a filter condition tests. *)
Definition condition_key (c : Qdrant.field_condition) : string :=
  match c with
  | Qdrant.MatchValue key _ => key
  | Qdrant.Range key _ _ => key
  end.

(** The filter restricts the query to the points of user [u]. *)
Definition carries_user (u : string) (qf : Qdrant.query_filter) : Prop :=
  In (Qdrant.MatchValue "user_id" (Qdrant.VStr u)) qf.

(** Two indexes answer alike every query restricted to the points of
    user [u]; on the other queries they may differ. *)
Definition agree_for_user (u : string)
           (c1 c2 : list R -> Z -> Qdrant.query_filter ->
                    result (list Qdrant.scored_point)) : Prop :=
  forall qv limit qf, carries_user u qf -> c1 qv limit qf = c2 qv limit qf.

(** Every group of [results_by_company] holds candidates of its company. *)
Definition grouped (results : list Qdrant.chunk)
           (d : gmap string (list Qdrant.chunk)) : Prop :=
  forall c G, d !! c = Some G ->
    Forall (fun r => In r results /\ from_company c r = true) G.

(** What the round-robin loops of [_balance_results] keep true: the
    chunks taken are candidates of a target company, [taken_count] counts
    the chunks taken of each company, no count goes beyond [cap], and the
    remainder never grows beyond [rem0]. *)
Definition balance_inv (results : list Qdrant.chunk) (targets : list string)
           (cap rem0 : Z) (st : Qdrant.balance_state) : Prop :=
  Forall (fun r => In r results
                   /\ exists c, In c targets /\ from_company c r = true)
         (Qdrant.balanced_results st)
  /\ (forall c, Z.of_nat (count_company c (Qdrant.balanced_results st))
                = default 0%Z (Qdrant.taken_count st !! c))
  /\ (forall c, (default 0%Z (Qdrant.taken_count st !! c) <= cap)%Z)
  /\ (Qdrant.remainder st <= rem0)%Z.

(** The state of the round-robin loops after [i] rounds when only the
    company [l1], with the sorted candidates [G1], has candidates and its
    share is [k]. *)
Definition one_sided (G1 : list Qdrant.chunk) (l1 : string) (k i : nat)
           (st : Qdrant.balance_state) : Prop :=
  Qdrant.balanced_results st = firstn (Nat.min i k) G1
  /\ Qdrant.taken_count st !! l1 = Some (Z.of_nat (Nat.min i k))
  /\ Qdrant.remainder st = 0%Z.

(** The state [st] with [retrieval_sufficient] set to [b]. *)
Definition with_sufficient (b : bool) (st : Agent1.state) : Agent1.state :=
  Agent1.refined st b (Agent1.sub_queries st) (Agent1.processed_query st).


(** A call of [CostTracker.record_cost] and the day it was made. *)
Record cost_record : Type := {
  r_day : Z;
  r_cost : R;
  r_task : option string;
  r_model : option string;
  r_provider : option string
}.

(** The tracker after the calls [records], in order. *)
Definition replay (records : list cost_record) (t : LLM.CostTracker)
  : LLM.CostTracker :=
  fold_left
    (fun t r =>
       LLM.record_cost (r_day r) (r_cost r) (r_task r) (r_model r)
                       (r_provider r) t)
    records t.

(** The costs recorded on the day [d], and those recorded for [task]. *)
Definition costs_of_day (d : Z) (records : list cost_record) : list R :=
  map r_cost (List.filter (fun r => (r_day r =? d)%Z) records).

Definition costs_of_task (task : string) (records : list cost_record)
  : list R :=
  map r_cost
      (List.filter
         (fun r => match r_task r with
                   | Some name => Py.truthy_str name && String.eqb name task
                   | None => false
                   end)
         records).

End Spec.

(** * Properties *)

(** ** Query processing *)

Section QueryProcessorFacts.
Import Py QueryProcessor.
Variable paq : string -> result llm_result.
Variable embed : string -> result (list R).

Lemma process_query_expand_ok query company year r cs v yr :
paq query = Ok r ->
llm_companies r = Some cs ->
embed (default query (llm_augmented_query r)) = Ok v ->
expand_years (llm_needs_year_expansion r)
         (if truthy_opt truthy_int year then year else llm_year r)
         (llm_year_range r) = Ok yr ->
exists p,
process_query paq embed query company year true
= ([EvLLM query; EvEmbed (default query (llm_augmented_query r))], Ok p)
/\ QueryProcessor.year p = fst yr
/\ QueryProcessor.year_range p = tuple_or_none (snd yr).
Proof.
intros Hq Hc He Hy. unfold process_query.
unfold mbind, mret, eff_mbind, eff_mret, eff_call, eff_lift, eff_bind,
eff_ret.
rewrite Hq, Hc. cbn. rewrite Hy. destruct yr as [y rg]. cbn.
rewrite He. cbn. eexists. split; [reflexivity|]. cbn. auto.
Qed.

(** C8.  With the language-model pass on ([expand = True]) and the
extraction [r] in hand, let the resolved year be the caller's year
when it is given and the extracted one otherwise.  When
[needs_year_expansion] is [True], a year range [(a, b)] is returned
as [(max(2015, a-1), min(2025, b+1))]; without a range, a resolved
year [y] is returned as the range [(max(2015, y-1), min(2025, y+1))]
and the year is cleared.  When [needs_year_expansion] is not [True],
the resolved year and the year range are returned as they are. *)
Theorem process_query_year_expansion query company year r cs v :
paq query = Ok r ->
llm_companies r = Some cs ->
embed (default query (llm_augmented_query r)) = Ok v ->
let resolved_year :=
if truthy_opt truthy_int year then year else llm_year r in
let out := snd (process_query paq embed query company year true) in
(forall a b,
llm_needs_year_expansion r = Some true ->
llm_year_range r = Some [a; b] ->
exists p, out = Ok p
          /\ QueryProcessor.year_range p
             = Some [Z.max 2015 (a - 1); Z.min 2025 (b + 1)]
          /\ QueryProcessor.year p = resolved_year)
/\ (forall y,
   llm_needs_year_expansion r = Some true ->
   truthy_opt truthy_list (llm_year_range r) = false ->
   resolved_year = Some y -> y <> 0%Z ->
   exists p, out = Ok p
             /\ QueryProcessor.year_range p
                = Some [Z.max 2015 (y - 1); Z.min 2025 (y + 1)]
             /\ QueryProcessor.year p = None)
/\ (llm_needs_year_expansion r <> Some true ->
exists p, out = Ok p
          /\ QueryProcessor.year p = resolved_year
          /\ QueryProcessor.year_range p
             = tuple_or_none (llm_year_range r)
          /\ (forall a b, llm_year_range r = Some [a; b] ->
                          QueryProcessor.year_range p = Some [a; b])).
Proof.
intros Hq Hc He resolved_year out. subst out.
split; [|split].
- intros a b Hn Hr.
destruct (process_query_expand_ok query company year r cs v
          (resolved_year,
           Some [Z.max 2015 (a - 1); Z.min 2025 (b + 1)]))
as (p & Hp & Hy & Hg); auto.
{ rewrite Hn, Hr. reflexivity. }
exists p. rewrite Hp. auto.
- intros y Hn Hr Hy Hy0.
destruct (process_query_expand_ok query company year r cs v
          (None, Some [Z.max 2015 (y - 1); Z.min 2025 (y + 1)]))
as (p & Hp & Hy' & Hg); auto.
{ fold resolved_year. rewrite Hn, Hy. unfold expand_years.
rewrite Hr. cbn. unfold truthy_int.
destruct (Z.eqb_spec y 0); [contradiction|]. reflexivity. }
exists p. rewrite Hp. auto.
- intros Hn.
destruct (process_query_expand_ok query company year r cs v
          (resolved_year, llm_year_range r))
as (p & Hp & Hy & Hg); auto.
{ unfold expand_years.
destruct (llm_needs_year_expansion r) as [[|]|];
  [contradiction|reflexivity|reflexivity]. }
exists p. rewrite Hp. repeat split; auto.
intros a b Hr. rewrite Hg. cbn. rewrite Hr. reflexivity.
Qed.
End QueryProcessorFacts.

Lemma process_query_year_expansion_witness :
  exists p,
    snd (QueryProcessor.process_query Samples.trend_llm Samples.no_embedding
           "Apple revenue from 2018 to 2022" None None true) = Py.Ok p
    /\ QueryProcessor.year_range p = Some [2017; 2023]%Z
    /\ QueryProcessor.year p = None.
Proof.
  exact (proj1 (process_query_year_expansion
                  Samples.trend_llm Samples.no_embedding
                  "Apple revenue from 2018 to 2022" None None
                  Samples.trend_result ["apple"] []
                  eq_refl eq_refl eq_refl)
               2018%Z 2022%Z eq_refl eq_refl).
Defined.

(** ** The user filter *)

Section UserId.
Import Py Qdrant Retriever.
Variable config : settings.
Variable client_search :
list R -> Z -> query_filter -> result (list scored_point).
Variable paq : string -> result QueryProcessor.llm_result.
Variable embed : string -> result (list R).
Variable phrase_order : list string.
Variable cross_encoder : option (string -> option string -> R).

(** C6.  [Retriever.retrieve], [QdrantClient.search] and
[QdrantClient.hybrid_search] called with a missing ([None]) or an
empty user id raise [ValueError] for every value of the other
arguments, before any external call; the outcome is the error, never
an empty result list. *)
Theorem missing_user_id_raises :
Spec.refuses config client_search paq embed phrase_order cross_encoder
         None
/\ Spec.refuses config client_search paq embed phrase_order cross_encoder
            (Some "").
Proof. split; (split; [|split]); intros; reflexivity. Qed.
End UserId.

(** ** The quality check of the generation stage *)

Section QualityCheck.
Import Py Agent3.

Lemma mem_In x l : mem x l = true <-> In x l.
Proof.
unfold mem. rewrite existsb_exists. split.
- intros (y & Hy & He). apply String.eqb_eq in He. now subst.
- intros H. exists x. split; [assumption|apply String.eqb_refl].
Qed.

Lemma check_chart_nil n chart :
check_chart n chart = [] <-> Spec.well_formed_chart chart.
Proof.
split.
- destruct chart as [| | | |l|fields]; cbn; try discriminate.
destruct (lookup "type" fields) as [t|] eqn:Ht; [|discriminate].
destruct (type_allowed t) eqn:Hal; [|discriminate].
destruct (lookup "data" fields) as [d|] eqn:Hd; [|discriminate].
destruct d as [| | | |l|data]; try discriminate.
destruct (has_key "labels" data) eqn:Hl; [|discriminate].
destruct (has_key "datasets" data) eqn:Hs; [|discriminate].
intros _. destruct t as [| | |s| |]; try discriminate.
exists fields, s, data. repeat split; auto.
now apply mem_In.
- intros (fields & t & data & -> & Ht & Hin & Hd & Hl & Hs).
apply (mem_In t chart_types) in Hin.
unfold check_chart, type_allowed. rewrite Ht, Hd, Hin, Hl, Hs.
reflexivity.
Qed.

Lemma check_charts_nil i charts :
check_charts i charts = [] <-> Forall Spec.well_formed_chart charts.
Proof.
revert i. induction charts as [|c charts IH]; intros i; cbn.
- split; auto.
- split.
+ intros H. apply app_eq_nil in H as [H1 H2]. constructor.
* now apply (check_chart_nil (i + 1)).
* now apply (IH (S i)).
+ intros H. inversion H as [|? ? Hc Hr]; subst.
apply (check_chart_nil (i + 1)) in Hc. apply (IH (S i)) in Hr.
now rewrite Hc, Hr.
Qed.

(** C7.  On a state that holds a response [r], the quality check sets
[response_valid] exactly when every chart of [r] is a JSON object
whose type is line, bar, pie or doughnut and whose data is an object
with labels and datasets; the verdict and the errors are the same
for every text of the response; and for the single chart
[{"type": "scatter", "data": {}}] the verdict is invalid, with an
invalid-type error and a missing labels/datasets error. *)
Theorem quality_check_judges_charts_only st r :
(response_valid (quality_check_node (text_explanation_node r st)) = true
 <-> Forall Spec.well_formed_chart (charts r))
/\ (forall t,
   let st' :=
     quality_check_node (text_explanation_node (Spec.with_text t r) st)
   in
   response_valid st'
   = response_valid (quality_check_node (text_explanation_node r st))
   /\ validation_errors st'
      = validation_errors
          (quality_check_node (text_explanation_node r st)))
/\ (let st' :=
  quality_check_node
    (text_explanation_node Samples.scatter_response st) in
response_valid st' = false
/\ validation_errors st'
   = [InvalidType 1 (JString "scatter"); MissingLabelsOrDatasets 1]).
Proof.
split; [|split].
- cbn. rewrite <- (check_charts_nil 0).
destruct (check_charts 0 (charts r)); cbn; split;
congruence.
- intros t. cbn. auto.
- cbn. auto.
Qed.
End QualityCheck.

(** ** Sorting and deduplication *)

Section SortFacts.
Import Py.
Context {A : Type} (key : A -> R).

Lemma insert_desc_perm x l : Permutation (insert_desc key x l) (x :: l).
Proof.
induction l as [|y l IH]; cbn; [reflexivity|].
destruct (Rltb (key x) (key y)); [|reflexivity].
rewrite IH. apply perm_swap.
Qed.

Lemma sort_desc_perm l : Permutation (sort_desc key l) l.
Proof.
induction l as [|x l IH]; cbn; [reflexivity|].
rewrite insert_desc_perm. now constructor.
Qed.

Lemma sort_desc_length l : List.length (sort_desc key l) = List.length l.
Proof. apply Permutation_length, sort_desc_perm. Qed.

Lemma sort_desc_In x l : In x (sort_desc key l) <-> In x l.
Proof.
split; apply Permutation_in; [|symmetry]; apply sort_desc_perm.
Qed.
End SortFacts.

Section DedupFacts.
Import Py Agent1.
Variable hash : string -> Z.

Lemma content_hash_of_ok c :
Spec.has_content c -> content_hash_of hash c = Ok (Spec.dedup_key hash c).
Proof.
unfold Spec.has_content, content_hash_of, Spec.dedup_key.
destruct (Qdrant.content c); [reflexivity|congruence].
Qed.

(** What the loop returns from a given [seen_content]. *)
Lemma dedup_from_spec chunks :
Forall Spec.has_content chunks ->
forall seen,
exists out,
dedup_from hash seen chunks = Ok out
/\ List.NoDup (map (Spec.dedup_key hash) out)
/\ (forall d, In d out -> In d chunks /\ Spec.dedup_key hash d ∉ seen)
/\ (forall c, In c chunks -> Spec.dedup_key hash c ∉ seen ->
            In (Spec.dedup_key hash c) (map (Spec.dedup_key hash) out)).
Proof.
induction 1 as [|c chunks Hc _ IH]; intros seen.
- exists []. cbn. split; [reflexivity|]. split; [constructor|].
split; intros ? [].
- cbn. rewrite (content_hash_of_ok c Hc). cbn.
destruct (bool_decide_reflect (Spec.dedup_key hash c ∈ seen))
as [Hin|Hnin].
+ destruct (IH seen) as (out & -> & Hnd & Hsub & Hcov).
exists out. split; [reflexivity|]. split; [assumption|]. split.
* intros d Hd. apply Hsub in Hd as [? ?]. split; [now right|assumption].
* intros c' [<-|Hin'] Hns; [contradiction|]. now apply Hcov.
+ destruct (IH ({[Spec.dedup_key hash c]} ∪ seen))
  as (out & -> & Hnd & Hsub & Hcov).
exists (c :: out). cbn. split; [reflexivity|]. split; [|split].
* constructor; [|assumption].
  intros Hk. apply in_map_iff in Hk as (d & Hd & Hdin).
  apply Hsub in Hdin as [_ Hdn]. apply Hdn. rewrite Hd.
  apply elem_of_union_l, elem_of_singleton. reflexivity.
* intros d [<-|Hd]; [split; [now left|assumption]|].
  apply Hsub in Hd as [? Hd]. split; [now right|].
  intros Hs. apply Hd. now apply elem_of_union_r.
* intros c' [<-|Hin'] Hns; [now left|].
  destruct (decide (Spec.dedup_key hash c' = Spec.dedup_key hash c))
    as [->|Hne]; [now left|].
  right. apply Hcov; [assumption|].
  intros [Hs|Hs]%elem_of_union; [|contradiction].
  now apply elem_of_singleton in Hs.
Qed.

Lemma count_absent {B} (f : B -> Z) (l : list B) (x : Z) :
~ In x (map f l) ->
List.length (List.filter (fun d => (f d =? x)%Z) l) = 0%nat.
Proof.
induction l as [|e l IH]; cbn; [reflexivity|].
intros Hni. destruct (Z.eqb_spec (f e) x) as [He|He].
- exfalso. apply Hni. now left.
- apply IH. intros Hc. apply Hni. now right.
Qed.

Lemma count_key_once {B} (f : B -> Z) (l : list B) (x : Z) :
List.NoDup (map f l) -> In x (map f l) ->
List.length (List.filter (fun d => (f d =? x)%Z) l) = 1%nat.
Proof.
induction l as [|d l IH]; cbn; [contradiction|].
intros Hnd Hx. inversion Hnd as [|? ? Hn Hnd']; subst.
destruct (Z.eqb_spec (f d) x) as [He|He].
- subst. cbn. f_equal. now apply count_absent.
- destruct Hx as [Hx|Hx]; [contradiction|]. now apply IH.
Qed.

Lemma count_perm {B} (p : B -> bool) (l l' : list B) :
Permutation l l' ->
List.length (List.filter p l) = List.length (List.filter p l').
Proof.
induction 1; cbn; auto.
- destruct (p x); cbn; auto.
- destruct (p x), (p y); cbn; auto.
- congruence.
Qed.

Lemma convert_ok results :
Forall Spec.has_content results ->
exists out,
_convert_to_retrieved_chunks results = Ok out
/\ map (Spec.pooled_key hash) out = map (Spec.dedup_key hash) results.
Proof.
induction 1 as [|c results Hc _ (out & Hout & Hk)].
- exists []. auto.
- unfold _convert_to_retrieved_chunks in *. cbn.
unfold Spec.has_content in Hc.
destruct (Qdrant.content c) as [t|] eqn:Ht; [|congruence].
cbn. rewrite Hout. cbn. eexists. split; [reflexivity|].
cbn. rewrite Hk. unfold Spec.pooled_key, Spec.dedup_key. cbn.
now rewrite Ht.
Qed.

Lemma count_map {B C} (f : B -> Z) (g : C -> Z) (l : list B) (l' : list C) x :
map f l = map g l' ->
List.length (List.filter (fun d => (f d =? x)%Z) l)
= List.length (List.filter (fun d => (g d =? x)%Z) l').
Proof.
revert l'. induction l as [|a l IH]; intros [|b l']; cbn; try discriminate.
- reflexivity.
- intros H. injection H as Hab Hl. rewrite Hab.
destruct (g b =? x)%Z; cbn; auto.
Qed.

Lemma all_chunks_have_content w subs user :
Spec.retrieves_texts w ->
Forall Spec.has_content (all_chunks_dict w subs user).
Proof.
intros Hw. unfold all_chunks_dict.
induction (as_completed w subs) as [|sq l IH]; cbn; [constructor|].
apply List.Forall_app. split; [|assumption].
unfold retrieve_for_subquery.
match goal with
| |- context [retrieve w ?q ?u ?k ?c ?cs ?y ?yr ?e] =>
destruct (retrieve w q u k c cs y yr e) as [res|err] eqn:Hr
end; cbn; [|constructor].
apply Hw in Hr. induction Hr; cbn; constructor; auto.
Qed.

(** C9.  In the pooling of a decomposed query, when every retrieved
chunk has a text, [_deduplicate_chunks] returns a list in which no
two chunks share the hash of their first 200 characters, and so does
the pooled result, which is that list sorted and converted; two
gathered chunks with the same first 200 characters have the same
hash and come out as exactly one chunk. *)
Theorem dedup_collapses_equal_prefixes w subs user :
Spec.retrieves_texts w ->
let all := all_chunks_dict w subs user in
exists unique pooled by_intent,
_deduplicate_chunks hash all = Ok unique
/\ _retrieve_decomposed_query hash w subs user = Ok (pooled, by_intent)
/\ List.NoDup (map (Spec.dedup_key hash) unique)
/\ List.NoDup (map (Spec.pooled_key hash) pooled)
/\ (forall c1 c2 t1 t2,
     In c1 all -> In c2 all ->
     Qdrant.content c1 = Some t1 -> Qdrant.content c2 = Some t2 ->
     prefix 200 t1 = prefix 200 t2 ->
     Spec.dedup_key hash c1 = Spec.dedup_key hash c2
     /\ List.length
          (List.filter
             (fun d => (Spec.dedup_key hash d
                        =? Spec.dedup_key hash c1)%Z) unique) = 1%nat
     /\ List.length
          (List.filter
             (fun d => (Spec.pooled_key hash d
                        =? Spec.dedup_key hash c1)%Z) pooled) = 1%nat).
Proof.
intros Hw all.
pose proof (all_chunks_have_content w subs user Hw) as Hall.
fold all in Hall.
destruct (dedup_from_spec all Hall ∅) as (unique & Hu & Hnd & Hsub & Hcov).
assert (Hperm : Permutation (sort_desc Qdrant.score unique) unique)
by apply sort_desc_perm.
assert (Hsc : Forall Spec.has_content (sort_desc Qdrant.score unique)).
{ apply List.Forall_forall. intros d Hd. apply (proj1 (sort_desc_In Qdrant.score d unique)) in Hd.
apply Hsub in Hd as [Hd _]. revert d Hd. now apply List.Forall_forall. }
destruct (convert_ok _ Hsc) as (pooled & Hp & Hk).
exists unique, pooled. eexists.
split; [exact Hu|]. split.
{ unfold _retrieve_decomposed_query. fold all.
unfold _deduplicate_chunks. rewrite Hu. cbn. rewrite Hp. cbn.
reflexivity. }
split; [assumption|]. split.
{ rewrite Hk. eapply Permutation_NoDup; [|exact Hnd].
symmetry. now apply Permutation_map. }
intros c1 c2 t1 t2 H1 H2 Ht1 Ht2 Hpre.
assert (Hkey : Spec.dedup_key hash c1 = Spec.dedup_key hash c2).
{ unfold Spec.dedup_key. rewrite Ht1, Ht2.
change (hash (prefix 200 t1) = hash (prefix 200 t2)). congruence. }
split; [assumption|].
assert (Hone : List.length
             (List.filter
                (fun d => (Spec.dedup_key hash d
                           =? Spec.dedup_key hash c1)%Z) unique) = 1%nat).
{ apply count_key_once; [assumption|].
apply Hcov; [assumption|apply not_elem_of_empty]. }
split; [assumption|].
rewrite (count_map _ (Spec.dedup_key hash) pooled
               (sort_desc Qdrant.score unique) _ Hk).
rewrite (count_perm _ _ _ Hperm). exact Hone.
Qed.
End DedupFacts.

Lemma twin_world_retrieves_texts : Spec.retrieves_texts Samples.twin_world.
Proof.
  intros q u k c cs y yr e l H. cbn in H. injection H as <-.
  repeat constructor; discriminate.
Defined.

Lemma dedup_collapses_equal_prefixes_witness :
  exists unique,
    Agent1._deduplicate_chunks Samples.length_hash
      (Agent1.all_chunks_dict Samples.twin_world [Samples.income_sub_query] "u")
    = Py.Ok unique
    /\ List.NoDup (map (Spec.dedup_key Samples.length_hash) unique).
Proof.
  destruct (dedup_collapses_equal_prefixes Samples.length_hash
              Samples.twin_world [Samples.income_sub_query] "u"
              twin_world_retrieves_texts)
    as (unique & pooled & by_intent & Hu & Hp & Hnu & Hnp & Hc).
  exists unique. split; assumption.
Defined.

Example dedup_twin_chunks :
  Agent1._deduplicate_chunks Samples.length_hash Samples.twin_chunks
  = Py.Ok [Samples.text_chunk "c1" "Net income was $3,047 million" "nvidia"
                              0.9%R].
Proof. reflexivity. Qed.

(** ** The loops of the agent *)

Section RetrievalLoop.
Import Py Agent1.
Variable hash : string -> Z.
Variable keeps : bool.

Lemma retrieval_node_keeps w st :
retrieval_attempts (retrieval_node hash w st) = retrieval_attempts st.
Proof.
unfold retrieval_node.
repeat match goal with
   | |- context [if ?b then _ else _] => destruct b
   | |- context [match ?x with _ => _ end] => destruct x
   end; reflexivity.
Qed.

Lemma refinement_node_keeps w st :
retrieval_attempts (refinement_node w st) = retrieval_attempts st.
Proof.
unfold refinement_node.
repeat match goal with
   | |- context [if ?b then _ else _] => destruct b
   | |- context [match ?x with _ => _ end] => destruct x
   end; reflexivity.
Qed.

(** Every path of [validation_node] counts the attempt, and forces
sufficiency from the third on. *)
Lemma validation_node_shape w st :
exists s g p,
validation_node keeps w st
= validated keeps st s (retrieval_attempts st + 1) g p
/\ ((3 <= retrieval_attempts st + 1)%Z -> s = true).
Proof.
unfold validation_node.
destruct (decomposed st).
- destruct (sub_query_results st) as [d|]; cbn.
+ eexists _, _, _. split; [reflexivity|].
intros H. apply Z.leb_le in H. now rewrite H.
+ eexists _, _, _. split; [reflexivity|].
intros H. apply Z.leb_le in H. rewrite H. apply orb_true_r.
- destruct (llm_validate w) as [v|e]; cbn.
+ eexists _, _, _. split; [reflexivity|].
intros H. apply Z.leb_le in H. now rewrite H.
+ eexists _, _, _. split; [reflexivity|].
intros H. apply Z.leb_le in H. rewrite H. apply orb_true_r.
Qed.

Lemma validation_node_counts w st :
retrieval_attempts (validation_node keeps w st)
= (retrieval_attempts st + 1)%Z.
Proof.
destruct (validation_node_shape w st) as (s & g & p & -> & _).
reflexivity.
Qed.

Lemma validation_node_forces w st :
(3 <= retrieval_attempts st + 1)%Z ->
retrieval_sufficient (validation_node keeps w st) = true.
Proof.
intros H. destruct (validation_node_shape w st) as (s & g & p & -> & Hs).
cbn. auto.
Qed.

Lemma continue_refine st :
should_continue_retrieval st = refine ->
retrieval_sufficient st = false /\ (retrieval_attempts st < 3)%Z.
Proof.
unfold should_continue_retrieval.
destruct (retrieval_sufficient st); [discriminate|].
destruct (Z.leb_spec 3 (retrieval_attempts st)); [discriminate|].
auto.
Qed.

Lemma continue_end st :
should_continue_retrieval st = end_retrieval ->
retrieval_sufficient st = true \/ (3 <= retrieval_attempts st)%Z.
Proof.
unfold should_continue_retrieval.
destruct (retrieval_sufficient st); [auto|].
destruct (Z.leb_spec 3 (retrieval_attempts st)); [auto|discriminate].
Qed.

Lemma pass_counts w st :
retrieval_attempts (retrieval_pass hash keeps w st) = (retrieval_attempts st + 1)%Z.
Proof.
unfold retrieval_pass. now rewrite validation_node_counts, retrieval_node_keeps.
Qed.

Lemma pass_forces w st :
(2 <= retrieval_attempts st)%Z ->
retrieval_sufficient (retrieval_pass hash keeps w st) = true.
Proof.
intros H. apply validation_node_forces. rewrite retrieval_node_keeps. lia.
Qed.

(** From [k] Spec.counted attempts the loop ends within [3 - k] validations,
and a third validation leaves [retrieval_sufficient] set. *)
Lemma retrieval_loop_from worlds fuel :
forall pass st,
(0 <= retrieval_attempts st <= 2)%Z ->
(3 - Z.to_nat (retrieval_attempts st) <= fuel)%nat ->
exists st' n,
retrieval_loop hash keeps worlds fuel pass st = Some (st', n)
/\ (pass < n)%nat
/\ (retrieval_attempts st'
    = retrieval_attempts st + Z.of_nat (n - pass))%Z
/\ (retrieval_attempts st' <= 3)%Z
/\ retrieval_sufficient st' = true.
Proof.
induction fuel as [|fuel IH]; intros pass st Ha Hf; [lia|].
cbn [retrieval_loop].
pose proof (pass_counts (worlds pass) st) as Hc.
destruct (should_continue_retrieval (retrieval_pass hash keeps (worlds pass) st)) eqn:Hr.
- apply continue_refine in Hr as [Hs Hlt].
assert (retrieval_attempts st < 2)%Z as Hlt2.
{ destruct (Z.le_gt_cases 2 (retrieval_attempts st)) as [H2|H2]; [|lia].
rewrite (pass_forces _ _ H2) in Hs. discriminate. }
destruct (IH (S pass)
           (refinement_node (worlds pass) (retrieval_pass hash keeps (worlds pass) st)))
as (st' & n & Hl & Hn & Hat & Hle & Hsuf).
{ rewrite refinement_node_keeps, Hc. lia. }
{ rewrite refinement_node_keeps, Hc. lia. }
exists st', n. rewrite Hl. split; [reflexivity|]. split; [lia|].
rewrite refinement_node_keeps, Hc in Hat. split; [lia|]. auto.
- exists (retrieval_pass hash keeps (worlds pass) st), (S pass).
split; [reflexivity|]. split; [lia|].
split; [rewrite Hc; lia|]. split; [lia|].
apply continue_end in Hr as [Hs|Hge]; [assumption|].
apply pass_forces. lia.
Qed.
End RetrievalLoop.

Section RetrievalLoopBound.
Import Py Agent1.

(** The retrieval loop of a run, which starts with no attempt counted,
ends within three validations whatever the language model and the
index answer, and leaves [retrieval_sufficient] set. *)
Lemma retrieval_loop_terminates hash keeps worlds st fuel :
retrieval_attempts st = 0%Z ->
(3 <= fuel)%nat ->
exists st' n,
retrieval_loop hash keeps worlds fuel 0 st = Some (st', n)
/\ (1 <= n <= 3)%nat
/\ retrieval_attempts st' = Z.of_nat n
/\ retrieval_sufficient st' = true.
Proof.
intros H0 Hf.
destruct (retrieval_loop_from hash keeps worlds fuel 0 st)
as (st' & n & Hl & Hn & Ha & Hle & Hs).
{ rewrite H0. lia. }
{ rewrite H0. cbn. lia. }
exists st', n. rewrite H0 in Ha. repeat split; auto; lia.
Qed.
End RetrievalLoopBound.

Section GenerationLoop.
Import Py Agent3.

Lemma quality_pass_keeps st :
self_heal_attempts (quality_pass st) = self_heal_attempts st.
Proof.
unfold quality_pass, quality_check_node, synthesis_node. cbn.
destruct (response st); reflexivity.
Qed.

Lemma continue_heal st :
should_continue_healing st = heal ->
response_valid st = false /\ (self_heal_attempts st < 2)%Z.
Proof.
unfold should_continue_healing.
destruct (response_valid st); [discriminate|].
destruct (Z.leb_spec 2 (self_heal_attempts st)); [discriminate|]. auto.
Qed.

Lemma self_heal_counts reply st :
should_continue_healing (quality_pass st) = heal ->
Spec.counted reply = true ->
self_heal_attempts (self_heal_node reply (quality_pass st))
= (self_heal_attempts st + 1)%Z.
Proof.
intros Hh Hc. apply continue_heal in Hh as [Hv Hlt].
rewrite quality_pass_keeps in Hlt.
unfold self_heal_node. rewrite quality_pass_keeps.
destruct (Z.leb_spec 2 (self_heal_attempts st)); [lia|].
unfold quality_pass, quality_check_node, synthesis_node in *.
cbn in *. destruct (response st) as [r|]; cbn in *.
- destruct (check_charts 0 (charts r)) eqn:He; [discriminate|]. cbn.
destruct reply as [| | |v]; try discriminate; [reflexivity|].
destruct v; reflexivity.
- discriminate.
Qed.

(** When every self-heal call is answered (with charts or with text
that does not parse), the loop ends within two self-heal attempts. *)
Lemma quality_loop_from llm_heal fuel :
(forall n, Spec.counted (llm_heal n) = true) ->
forall heals st,
(0 <= self_heal_attempts st <= 2)%Z ->
(3 - Z.to_nat (self_heal_attempts st) <= fuel)%nat ->
exists st' n,
quality_loop llm_heal fuel heals st = Some (st', n)
/\ (self_heal_attempts st'
    = self_heal_attempts st + Z.of_nat (n - heals))%Z
/\ (heals <= n)%nat
/\ (self_heal_attempts st' <= 2)%Z.
Proof.
intros Hall. induction fuel as [|fuel IH]; intros heals st Ha Hf; [lia|].
cbn [quality_loop].
destruct (should_continue_healing (quality_pass st)) eqn:Hr.
- pose proof (self_heal_counts (llm_heal heals) st Hr (Hall heals)) as Hc.
apply continue_heal in Hr as [Hv Hlt].
rewrite quality_pass_keeps in Hlt.
destruct (IH (S heals)
           (self_heal_node (llm_heal heals) (quality_pass st)))
as (st' & n & Hl & Hat & Hn & Hle).
{ rewrite Hc. lia. }
{ rewrite Hc. lia. }
exists st', n. rewrite Hl. split; [reflexivity|].
rewrite Hc in Hat. repeat split; lia.
- exists (quality_pass st), heals. unfold memory_update_node.
split; [reflexivity|]. rewrite quality_pass_keeps.
repeat split; lia.
Qed.

Lemma quality_loop_terminates llm_heal generated query fuel :
(forall n, Spec.counted (llm_heal n) = true) ->
(3 <= fuel)%nat ->
exists st' n,
run_agent3 llm_heal fuel generated (initial_state query) = Some (st', n)
/\ (n <= 2)%nat
/\ self_heal_attempts st' = Z.of_nat n.
Proof.
intros Hall Hf. unfold run_agent3.
destruct (quality_loop_from llm_heal fuel Hall 0
        (text_explanation_node generated (initial_state query)))
as (st' & n & Hl & Hat & Hn & Hle); cbn; try lia.
exists st', n. rewrite Hl. cbn in Hat. repeat split; lia.
Qed.

(** A failing self-heal call leaves the invalid charts and the counter
as they are: the next quality check sends the run back to
[self_heal_node]. *)
Lemma heal_fails_loops fuel :
forall heals st,
response st = Some Samples.scatter_response ->
self_heal_attempts st = 0%Z ->
quality_loop Samples.heal_fails fuel heals st = None.
Proof.
induction fuel as [|fuel IH]; intros heals st Hr Ha; [reflexivity|].
cbn [quality_loop]. unfold quality_pass, quality_check_node, synthesis_node.
cbn. rewrite Hr. cbn. unfold should_continue_healing. cbn. rewrite Ha. cbn.
apply IH; cbn; auto.
Qed.

(** C2 (the generation loop against the code).  With the chart
[{"type": "scatter", "data": {}}] and a self-heal that returns the
same chart, the run ends after two self-heal attempts with
[self_heal_attempts = 2] and [response_valid] still false: the gate
of [should_continue_healing] ends the loop, and the branch of
[self_heal_node] that would force [response_valid] is never
reached.  With a self-heal call that raises, the attempt is not
counted and the next quality check asks for a self-heal again: no
amount of fuel ends the run. *)
Theorem self_heal_bound_leaves_response_invalid query :
(exists st,
run_agent3 Samples.heal_same 3 Samples.scatter_response
           (initial_state query) = Some (st, 2%nat)
/\ self_heal_attempts st = 2%Z
/\ response_valid st = false)
/\ (forall fuel,
   run_agent3 Samples.heal_fails fuel Samples.scatter_response
              (initial_state query) = None).
Proof.
split.
- eexists. split; [reflexivity|]. split; reflexivity.
- intros fuel. apply heal_fails_loops; reflexivity.
Qed.
End GenerationLoop.

Section NoProgress.
Import Py Agent1.

(** What the test of [validation_node] does when it finds the key: on
the single-query path, when the state handed to the validation holds a
non-empty [previous_gaps] and the validation response reports the same
set of gaps, the validation sets [retrieval_sufficient], whatever the
response says and whatever the attempt, and the loop goes to its end on
that attempt. *)
Theorem no_progress_forces_sufficiency_single_query
  keeps w st v pg :
decomposed st = false ->
llm_validate w = Ok v ->
previous_gaps st = Some pg ->
pg <> [] ->
list_to_set (response_gaps v) =@{gset string} list_to_set pg ->
let st' := validation_node keeps w st in
retrieval_sufficient st' = true
/\ should_continue_retrieval st' = end_retrieval
/\ retrieval_attempts st' = (retrieval_attempts st + 1)%Z
/\ gaps st' = response_gaps v.
Proof.
intros Hd Hv Hp Hne Heq st'. subst st'.
unfold validation_node. rewrite Hd, Hv, Hp. cbn.
destruct pg as [|g pg]; [contradiction|]. cbn [truthy_list andb].
rewrite bool_decide_eq_true_2 by exact Heq.
unfold should_continue_retrieval. cbn.
destruct (3 <=? retrieval_attempts st + 1)%Z; auto.
Qed.

Lemma no_progress_forces_sufficiency_single_query_witness :
retrieval_sufficient
(validation_node true Samples.stalled_world
               Samples.single_state_second_attempt) = true
/\ retrieval_attempts
 (validation_node true Samples.stalled_world
                  Samples.single_state_second_attempt) = 2%Z.
Proof.
destruct (no_progress_forces_sufficiency_single_query
        true Samples.stalled_world Samples.single_state_second_attempt
        {| sufficient := false;
           response_gaps := ["revenue for 2023 is missing"] |}
        ["revenue for 2023 is missing"]
        eq_refl eq_refl eq_refl
        ltac:(discriminate) eq_refl)
as (Hs & _ & Ha & _).
split; [exact Hs|exact Ha].
Defined.

(** When the run-time drops the undeclared key, no node ever writes
[previous_gaps], and the single-query validation is left with the
response and the bound of three attempts. *)
Lemma validation_without_previous_gaps hash w st v :
decomposed st = false ->
llm_validate w = Ok v ->
previous_gaps st = None ->
let st' := validation_node false w st in
retrieval_sufficient st'
= (if (3 <=? retrieval_attempts st + 1)%Z then true else sufficient v)
/\ previous_gaps st' = None
/\ previous_gaps (refinement_node w st') = None
/\ previous_gaps (retrieval_node hash w (refinement_node w st')) = None.
Proof.
intros Hd Hv Hp st'. subst st'.
assert (Href : forall s, previous_gaps (refinement_node w s) = previous_gaps s).
{ intros s. unfold refinement_node.
  destruct (3 <=? retrieval_attempts s)%Z; [reflexivity|].
  destruct (decomposed s).
  - destruct (refine_sub_queries w (gaps s) (default [] (sub_queries s)));
      reflexivity.
  - destruct (processed_query s); [|reflexivity].
    destruct (llm_refine w); reflexivity. }
assert (Hret : forall s,
         previous_gaps (retrieval_node hash w s) = previous_gaps s).
{ intros s. unfold retrieval_node.
  repeat match goal with
         | |- context [match ?x with _ => _ end] => destruct x
         end; reflexivity. }
unfold validation_node. rewrite Hd, Hv, Hp. cbn.
split; [reflexivity|]. split; [exact Hp|].
rewrite Hret, Href. cbn. split; exact Hp.
Qed.

(** C3.  The no-progress exit is missed.  In two runs the second
validation finds exactly the gaps of the first, which are not empty, and
yet leaves [retrieval_sufficient] unset and sends the run to a third
attempt, where only the bound of three attempts ends the loop.  The
first is a single query whose validation call reports the same gap each
time, under a run-time that does not keep [previous_gaps], a key
[AgentState] does not declare.  The second is a decomposed query whose
sub-query finds no chunk: the decomposed branch of [validation_node]
never compares the gaps, whether the run-time keeps the key or not. *)
Theorem no_progress_exit_is_missed :
(gaps Samples.stalled_single_first <> []
 /\ list_to_set (gaps Samples.stalled_single_second)
    =@{gset string} list_to_set (gaps Samples.stalled_single_first)
 /\ retrieval_attempts Samples.stalled_single_second = 2%Z
 /\ retrieval_sufficient Samples.stalled_single_second = false
 /\ should_continue_retrieval Samples.stalled_single_second = refine
 /\ exists final,
    retrieval_loop Samples.length_hash false
                   (fun _ => Samples.stalled_world) 3 0
                   Samples.single_state = Some (final, 3%nat))
/\ (forall keeps,
    gaps (Samples.stalled_decomposed_first keeps) <> []
    /\ list_to_set (gaps (Samples.stalled_decomposed_second keeps))
       =@{gset string}
       list_to_set (gaps (Samples.stalled_decomposed_first keeps))
    /\ retrieval_attempts (Samples.stalled_decomposed_second keeps) = 2%Z
    /\ retrieval_sufficient (Samples.stalled_decomposed_second keeps)
       = false
    /\ should_continue_retrieval (Samples.stalled_decomposed_second keeps)
       = refine
    /\ exists final,
       retrieval_loop Samples.length_hash keeps
                      (fun _ => Samples.stalled_world) 3 0
                      Samples.decomposed_state = Some (final, 3%nat)).
Proof.
split.
- assert (Hg1 : gaps Samples.stalled_single_first
              = ["revenue for 2023 is missing"])
  by (vm_compute; reflexivity).
assert (Hg2 : gaps Samples.stalled_single_second
              = gaps Samples.stalled_single_first)
  by (vm_compute; reflexivity).
split; [rewrite Hg1; discriminate|].
split; [now rewrite Hg2|].
split; [vm_compute; reflexivity|].
split; [vm_compute; reflexivity|].
split; [vm_compute; reflexivity|].
eexists. vm_compute. reflexivity.
- intros keeps.
assert (Hg1 : gaps (Samples.stalled_decomposed_first keeps)
              = ["Sub-query 'Also show net income' (intent: net_income_lookup): insufficient results (0 chunks)"])
  by (destruct keeps; vm_compute; reflexivity).
assert (Hg2 : gaps (Samples.stalled_decomposed_second keeps)
              = gaps (Samples.stalled_decomposed_first keeps))
  by (destruct keeps; vm_compute; reflexivity).
split; [rewrite Hg1; discriminate|].
split; [now rewrite Hg2|].
split; [destruct keeps; vm_compute; reflexivity|].
split; [destruct keeps; vm_compute; reflexivity|].
split; [destruct keeps; vm_compute; reflexivity|].
destruct keeps; eexists; vm_compute; reflexivity.
Qed.

(** The single-query loop in the stalled world: two validations when
the key [previous_gaps] is kept from one pass to the next, three
when it is not. *)
Example stalled_single_query_kept :
exists final,
retrieval_loop Samples.length_hash true (fun _ => Samples.stalled_world)
             3 0 Samples.single_state = Some (final, 2%nat).
Proof. eexists. vm_compute. reflexivity. Qed.

Example stalled_single_query_dropped :
exists final,
retrieval_loop Samples.length_hash false (fun _ => Samples.stalled_world)
             3 0 Samples.single_state = Some (final, 3%nat).
Proof. eexists. vm_compute. reflexivity. Qed.
End NoProgress.

(** ** The keyword score *)

Section KeywordScore.
Import Py KeywordSearch.
Variable phrase_order : list string.

Lemma ln10_pos : (0 < ln 10.0)%R.
Proof. rewrite <- ln_1. apply ln_increasing; lra. Qed.

Lemma term_boost_pos term : (1 <= term_boost term)%R.
Proof.
unfold term_boost.
repeat match goal with
   | |- context [if ?b then _ else _] => destruct b
   end; lra.
Qed.

(** A term of the sum, without corpus statistics, is not negative. *)
Lemma bm25_term_nonneg term tf doc_length :
(0 <= bm25_term term tf doc_length None None 100.0 1.5 0.75)%R.
Proof.
unfold bm25_term, idf. cbn.
pose proof ln10_pos. pose proof (term_boost_pos term).
pose proof (pos_INR tf). pose proof (pos_INR doc_length).
apply Rmult_le_pos.
- repeat apply Rmult_le_pos; lra.
- apply Rlt_le, Rinv_0_lt_compat.
assert (0 <= INR doc_length / 100.0)%R.
{ apply Rmult_le_pos; [assumption|]. apply Rlt_le, Rinv_0_lt_compat. lra. }
nra.
Qed.

Lemma fold_sum_nonneg {A} (f : A -> R) (g : R -> A -> R) l :
(forall acc x, 0 <= acc -> 0 <= g acc x)%R ->
forall acc, (0 <= acc)%R -> (0 <= fold_left g l acc)%R.
Proof.
intros Hg. induction l as [|x l IH]; intros acc Ha; cbn; auto.
Qed.

Lemma bm25_nonneg query_tokens document_tokens :
(0 <= calculate_bm25_score query_tokens document_tokens None None
                       100.0 1.5 0.75)%R.
Proof.
unfold calculate_bm25_score.
destruct (negb (truthy_list query_tokens)
      || negb (truthy_list document_tokens)); [lra|].
apply (fold_sum_nonneg (fun _ => 0%R)); [|lra].
intros acc term Ha.
destruct (count_token term document_tokens =? 0)%nat; [assumption|].
pose proof (bm25_term_nonneg term (count_token term document_tokens)
                         (List.length document_tokens)).
lra.
Qed.

(** The sigmoid of a BM25 sum that is not negative. *)
Lemma sigmoid_bounds x :
(0 <= x)%R ->
(0.5 <= 1.0 / (1.0 + exp (- x / 10.0)) < 1)%R.
Proof.
intros Hx.
assert (He : (0 < exp (- x / 10.0) <= 1)%R).
{ split; [apply exp_pos|].
rewrite <- exp_0.
destruct (Req_dec x 0) as [->|Hne].
- right. f_equal. lra.
- left. apply exp_increasing. lra. }
split.
- apply Rmult_le_reg_r with (1.0 + exp (- x / 10.0))%R; [lra|].
unfold Rdiv. rewrite Rmult_assoc, Rinv_l by lra. lra.
- apply Rmult_lt_reg_r with (1.0 + exp (- x / 10.0))%R; [lra|].
unfold Rdiv. rewrite Rmult_assoc, Rinv_l by lra. lra.
Qed.

Lemma phrase_bonus_of_nonneg content_lower phrase :
(0 <= phrase_bonus_of content_lower phrase)%R.
Proof.
unfold phrase_bonus_of.
destruct (contains phrase content_lower); [|lra].
destruct (mem phrase financial_phrases); [lra|].
pose proof (pos_INR (List.length (split phrase))). lra.
Qed.

Lemma phrase_bonus_nonneg content_lower phrases :
(0 <= fold_left (fun bonus phrase =>
               bonus + phrase_bonus_of content_lower phrase)
            phrases 0.0)%R.
Proof.
apply (fold_sum_nonneg (fun _ => 0%R)); [|lra].
intros acc p Ha. pose proof (phrase_bonus_of_nonneg content_lower p). lra.
Qed.

Lemma replace_empty old : replace old (replace " " "_" old) "" = "".
Proof. destruct old; reflexivity. Qed.

Lemma protect_empty : protect phrase_order "" = "".
Proof.
unfold protect. induction phrase_order as [|p l IH]; cbn; [reflexivity|].
rewrite replace_empty. exact IH.
Qed.

Lemma tokenize_empty : tokenize phrase_order "" = [].
Proof. unfold tokenize. cbn [lower]. rewrite protect_empty. reflexivity. Qed.

(** The score of a query with a token. *)
Lemma relevance_with_tokens query content use_phrases :
tokenize phrase_order query <> [] ->
let bm25 :=
calculate_bm25_score (tokenize phrase_order query)
                   (tokenize phrase_order content) None None
                   100.0 1.5 0.75 in
(0.5 <= 1.0 / (1.0 + exp (- bm25 / 10.0)))%R
/\ (1.0 / (1.0 + exp (- bm25 / 10.0))
<= calculate_keyword_relevance phrase_order query content use_phrases
\/ calculate_keyword_relevance phrase_order query content use_phrases
   = 1)%R
/\ (0.5 <= calculate_keyword_relevance phrase_order query content
                                    use_phrases <= 1)%R.
Proof.
intros Ht bm25.
pose proof (bm25_nonneg (tokenize phrase_order query)
                    (tokenize phrase_order content)) as Hb.
fold bm25 in Hb. pose proof (sigmoid_bounds bm25 Hb) as [Hlo Hhi].
unfold calculate_keyword_relevance. fold bm25.
destruct (tokenize phrase_order query) as [|t ts] eqn:Hq; [contradiction|].
cbn [truthy_list negb].
set (bonus := if use_phrases then _ else _).
assert (Hbonus : (0 <= bonus)%R).
{ subst bonus. destruct use_phrases; [apply phrase_bonus_nonneg|lra]. }
split; [assumption|]. unfold Rmin.
destruct (Rle_dec 1.0 (1.0 / (1.0 + exp (- bm25 / 10.0)) + bonus)); split;
try lra.
Qed.
(** C4.  For every query and every document the keyword score lies in
[[0, 1]] (so it does for every non-empty query), and for the empty
query it is exactly [0.0]. *)
Theorem keyword_relevance_in_unit_interval query content use_phrases :
(0 <= calculate_keyword_relevance phrase_order query content use_phrases
 <= 1)%R
/\ calculate_keyword_relevance phrase_order "" content use_phrases = 0%R.
Proof.
split.
- destruct (tokenize phrase_order query) as [|t ts] eqn:Hq.
+ unfold calculate_keyword_relevance. rewrite Hq. cbn. lra.
+ assert (Hne : tokenize phrase_order query <> []) by (rewrite Hq; discriminate).
destruct (relevance_with_tokens query content use_phrases Hne)
  as (_ & _ & Hs). lra.
- unfold calculate_keyword_relevance. rewrite tokenize_empty. cbn. lra.
Qed.

(** C10.  When the query has at least one token, the BM25 sum is not
negative, its sigmoid lies in [[0.5, 1)], the phrase bonus only adds
to it (up to the cap at 1), and the score is at least [0.5] for every
document; in particular it is not [0.0]. *)
Theorem keyword_relevance_at_least_half query content use_phrases :
tokenize phrase_order query <> [] ->
let bm25 :=
calculate_bm25_score (tokenize phrase_order query)
                   (tokenize phrase_order content) None None
                   100.0 1.5 0.75 in
let score :=
calculate_keyword_relevance phrase_order query content use_phrases in
(0 <= bm25)%R
/\ (0.5 <= 1.0 / (1.0 + exp (- bm25 / 10.0)) < 1)%R
/\ (1.0 / (1.0 + exp (- bm25 / 10.0)) <= score \/ score = 1)%R
/\ (0.5 <= score <= 1)%R
/\ score <> 0%R.
Proof.
intros Hne bm25 score.
pose proof (bm25_nonneg (tokenize phrase_order query)
                    (tokenize phrase_order content)) as Hb.
fold bm25 in Hb.
destruct (relevance_with_tokens query content use_phrases Hne)
as (_ & Hadd & Hs).
fold bm25 in Hadd. fold score in Hadd, Hs.
split; [assumption|]. split; [now apply sigmoid_bounds|].
split; [assumption|]. split; [assumption|]. lra.
Qed.

(** A score of [0.0] is the score of a query without tokens. *)
Lemma zero_relevance_without_tokens query content use_phrases :
calculate_keyword_relevance phrase_order query content use_phrases = 0%R ->
tokenize phrase_order query = [].
Proof.
intros H0. destruct (tokenize phrase_order query) as [|t ts] eqn:Hq;
[reflexivity|].
assert (Hne : tokenize phrase_order query <> []) by (rewrite Hq; discriminate).
destruct (relevance_with_tokens query content use_phrases Hne)
as (_ & _ & Hs). lra.
Qed.
End KeywordScore.

Lemma keyword_relevance_at_least_half_witness :
  (0.5 <= KeywordSearch.calculate_keyword_relevance
            KeywordSearch.financial_phrases "revenue" "azure grew" true)%R.
Proof.
  assert (Hne : KeywordSearch.tokenize KeywordSearch.financial_phrases
                                       "revenue" <> [])
    by (vm_compute; discriminate).
  exact (proj1 (proj1 (proj2 (proj2 (proj2
           (keyword_relevance_at_least_half KeywordSearch.financial_phrases
              "revenue" "azure grew" true Hne)))))).
Defined.

(** ** Balancing across companies *)

Section BalanceFacts.
Import Py Qdrant.

Lemma company_lower_ok r :
Spec.has_company r ->
exists c, Qdrant.company r = Some c /\ company_lower r = Ok (lower c).
Proof.
unfold Spec.has_company, company_lower.
destruct (Qdrant.company r) as [c|]; [eauto|congruence].
Qed.

Lemma of_company_ok name results :
Forall Spec.has_company results ->
of_company name results = Ok (List.filter (Spec.from_company name) results).
Proof.
unfold of_company.
induction 1 as [|r results Hr _ IH]; [reflexivity|].
cbn. destruct (company_lower_ok r Hr) as (c & Hc & Hl).
rewrite Hl. cbn. rewrite IH. cbn. unfold Spec.from_company. rewrite Hc.
reflexivity.
Qed.

Lemma from_company_unique a b r :
Spec.from_company a r = true -> Spec.from_company b r = true -> a = b.
Proof.
unfold Spec.from_company. destruct (Qdrant.company r); [|discriminate].
intros Ha%String.eqb_eq Hb%String.eqb_eq. congruence.
Qed.

Lemma count_company_app name l l' :
Spec.count_company name (l ++ l')
= (Spec.count_company name l + Spec.count_company name l')%nat.
Proof.
unfold Spec.count_company. now rewrite List.filter_app, List.length_app.
Qed.

Lemma nth_from G name j :
Forall (fun r => Spec.from_company name r = true) G ->
(j < List.length G)%nat ->
exists r, nth_error G j = Some r /\ Spec.from_company name r = true.
Proof.
intros HG Hj. destruct (nth_error G j) as [r|] eqn:Hn.
- exists r. split; [reflexivity|].
apply nth_error_In in Hn. now apply (proj1 (List.Forall_forall _ _) HG).
- apply nth_error_None in Hn. lia.
Qed.

(** The inner loop body when the company still has a share to take. *)
Lemma take_ok (d : gmap string (list chunk)) per_company_k round company st
    G r taken :
d !! company = Some G ->
taken_count st !! company = Some taken ->
nth_error G round = Some r ->
(taken < per_company_k)%Z ->
balance_take d per_company_k round company st
= {| balanced_results := balanced_results st ++ [r];
   taken_count := <[company := (taken + 1)%Z]> (taken_count st);
   remainder := remainder st |}.
Proof.
intros Hd Ht Hn Hlt. unfold balance_take. rewrite Hd, Ht.
change (default [] (Some G)) with G.
change (default 0%Z (Some taken)) with taken.
rewrite Hn. destruct (Z.ltb_spec taken per_company_k); [reflexivity|lia].
Qed.

Section TwoCompanies.
Variable d : gmap string (list chunk).
Variables l1 l2 : string.
Variables G1 G2 : list chunk.
Variable k : nat.
Hypothesis Hne : l1 <> l2.
Hypothesis Hd1 : d !! l1 = Some G1.
Hypothesis Hd2 : d !! l2 = Some G2.
Hypothesis HG1 : Forall (fun r => Spec.from_company l1 r = true) G1.
Hypothesis HG2 : Forall (fun r => Spec.from_company l2 r = true) G2.
Hypothesis Hk1 : (k <= List.length G1)%nat.
Hypothesis Hk2 : (k <= List.length G2)%nat.

Variables top_k per_company_k : Z.
Hypothesis Htop : top_k = (2 * Z.of_nat k)%Z.
Hypothesis Hper : per_company_k = Z.of_nat k.


Lemma full_after j st :
Spec.after_rounds l1 l2 j st -> (j <= k)%nat ->
full top_k st = bool_decide (j = k).
Proof.
intros (Hl & _) Hj. unfold full. rewrite Htop, Hl.
destruct (Z.leb_spec (2 * Z.of_nat k) (Z.of_nat (2 * j)));
[rewrite bool_decide_eq_true_2|rewrite bool_decide_eq_false_2];
auto; lia.
Qed.

Lemma round_step j st :
Spec.after_rounds l1 l2 j st -> (j < k)%nat ->
Spec.after_rounds l1 l2 (S j)
(balance_round d top_k per_company_k j [l1; l2] st).
Proof.
intros Hst Hj.
pose proof (full_after j st Hst ltac:(lia)) as Hfull.
rewrite bool_decide_eq_false_2 in Hfull by lia.
destruct Hst as (Hl & Hc1 & Hc2 & Ht1 & Ht2 & Hr).
destruct (nth_from G1 l1 j HG1 ltac:(lia)) as (r1 & Hn1 & Hr1).
destruct (nth_from G2 l2 j HG2 ltac:(lia)) as (r2 & Hn2 & Hr2).
assert (Hr12 : Spec.from_company l2 r1 = false).
{ destruct (Spec.from_company l2 r1) eqn:E; [|reflexivity].
exfalso. apply Hne. eapply from_company_unique; eassumption. }
assert (Hr21 : Spec.from_company l1 r2 = false).
{ destruct (Spec.from_company l1 r2) eqn:E; [|reflexivity].
exfalso. apply Hne. symmetry. eapply from_company_unique; eassumption. }
cbn [balance_round]. rewrite Hfull.
rewrite (take_ok d per_company_k j l1 st G1 r1 (Z.of_nat j) Hd1 Ht1 Hn1)
by (rewrite Hper; lia).
set (st1 := {| balanced_results := balanced_results st ++ [r1];
             taken_count := _; remainder := _ |}).
assert (Hf1 : full top_k st1 = false).
{ unfold full, st1. rewrite Htop. cbn [balanced_results].
rewrite List.length_app, Hl. cbn [List.length].
apply Z.leb_gt. lia. }
rewrite Hf1.
rewrite (take_ok d per_company_k j l2 st1 G2 r2 (Z.of_nat j) Hd2)
by (try assumption; try (rewrite Hper; lia);
    unfold st1; cbn [taken_count];
    rewrite lookup_insert_ne by exact Hne; exact Ht2).
unfold Spec.after_rounds, st1.
cbn [balanced_results taken_count remainder].
rewrite !List.length_app, !count_company_app, Hl, Hc1, Hc2.
unfold Spec.count_company. cbn [List.filter].
rewrite Hr1, Hr2, Hr12, Hr21. cbn [List.length].
rewrite lookup_insert_ne by (intros E; apply Hne; now symmetry).
rewrite !lookup_insert_eq.
repeat split; try lia; f_equal; lia.
Qed.

Lemma rounds_reach j m :
forall st,
Spec.after_rounds l1 l2 j st -> (j <= k)%nat -> (k <= j + m)%nat ->
Spec.after_rounds l1 l2 k
  (balance_rounds d top_k per_company_k [l1; l2] (seq j m) st).
Proof.
revert j. induction m as [|m IH]; intros j st Hst Hj Hm.
- cbn. replace k with j by lia. assumption.
- cbn [seq balance_rounds].
destruct (Nat.eq_dec j k) as [->|Hjk].
+ (* already full: the round leaves at once *)
  pose proof (full_after k st Hst ltac:(lia)) as Hfull.
  rewrite bool_decide_eq_true_2 in Hfull by reflexivity.
  cbn [balance_round]. rewrite Hfull, Hfull. assumption.
+ pose proof (round_step j st Hst ltac:(lia)) as Hst'.
  rewrite (full_after (S j) _ Hst') by lia.
  destruct (bool_decide_reflect (S j = k)) as [<-|Hn]; [assumption|].
  apply IH; [assumption|lia|lia].
Qed.
End TwoCompanies.

Lemma group_two results l1 l2 :
Forall Spec.has_company results ->
foldM (fun (d : gmap string (list chunk)) company =>
       l ← of_company company results;
       Ok (<[company := sort_desc score l]> d)) [l1; l2] ∅
= Ok (<[l2 := sort_desc score (List.filter (Spec.from_company l2) results)]>
      (<[l1 := sort_desc score
                 (List.filter (Spec.from_company l1) results)]> ∅)).
Proof.
intros H. cbn. rewrite !(of_company_ok _ _ H). reflexivity.
Qed.

Lemma sorted_group name results :
Forall (fun r => Spec.from_company name r = true)
     (sort_desc score (List.filter (Spec.from_company name) results)).
Proof.
apply List.Forall_forall. intros r Hr.
apply (proj1 (sort_desc_In score r _)) in Hr.
now apply List.filter_In in Hr.
Qed.

(** Two companies, [top_k = 2k], at least [k] chunks each: [k] of each. *)
Lemma balance_two_companies results c1 c2 k :
lower c1 <> lower c2 ->
Forall Spec.has_company results ->
(1 <= k)%nat ->
(k <= Spec.count_company (lower c1) results)%nat ->
(k <= Spec.count_company (lower c2) results)%nat ->
exists out,
_balance_results results [c1; c2] (2 * Z.of_nat k) = Ok out
/\ List.length out = (2 * k)%nat
/\ Spec.count_company (lower c1) out = k
/\ Spec.count_company (lower c2) out = k.
Proof.
intros Hne Hall Hk H1 H2.
unfold _balance_results. cbn [map]. rewrite (group_two _ _ _ Hall).
set (G1 := sort_desc score (List.filter (Spec.from_company (lower c1)) results)).
set (G2 := sort_desc score (List.filter (Spec.from_company (lower c2)) results)).
set (d := <[lower c2 := G2]> (<[lower c1 := G1]> ∅)).
assert (Hd1 : d !! lower c1 = Some G1).
{ unfold d. rewrite lookup_insert_ne by (intros E; apply Hne; now symmetry).
apply lookup_insert_eq. }
assert (Hd2 : d !! lower c2 = Some G2) by apply lookup_insert_eq.
assert (Hl1 : List.length G1 = Spec.count_company (lower c1) results)
by apply sort_desc_length.
assert (Hl2 : List.length G2 = Spec.count_company (lower c2) results)
by apply sort_desc_length.
change (Py.Ok d ≫= ?f) with (f d). cbv beta.
cbn [List.length]. change (Z.of_nat 2 =? 0)%Z with false. cbv iota.
change (Z.of_nat 2) with 2%Z.
assert (Hper : Z.max 1 (2 * Z.of_nat k / 2) = Z.of_nat k).
{ rewrite Z.mul_comm, Z.div_mul by lia. lia. }
assert (Hrem : ((2 * Z.of_nat k) mod 2 = 0)%Z).
{ rewrite Z.mul_comm. apply Z.mod_mul. lia. }
rewrite Hrem. cbn [map fold_left]. rewrite Hd1, Hd2.
change (default [] (Some G1)) with G1.
change (default [] (Some G2)) with G2.
set (m := Nat.max (Nat.max 0 (List.length G1)) (List.length G2)).
set (st0 := {| balanced_results := []; taken_count := _; remainder := 0 |}).
assert (H0 : Spec.after_rounds (lower c1) (lower c2) 0 st0).
{ unfold Spec.after_rounds, st0. cbn [balanced_results taken_count remainder].
repeat split; try reflexivity.
- cbn [list_to_map foldr]. apply lookup_insert_eq.
- cbn [list_to_map foldr].
  rewrite lookup_insert_ne by exact Hne. apply lookup_insert_eq. }
pose proof (rounds_reach d (lower c1) (lower c2) G1 G2 k Hne Hd1 Hd2
            (sorted_group _ _) (sorted_group _ _)
            ltac:(lia) ltac:(lia)
            (2 * Z.of_nat k) (Z.max 1 (2 * Z.of_nat k / 2))
            eq_refl Hper 0 m st0 H0 ltac:(lia) ltac:(lia))
as (Hlen & Hc1 & Hc2 & _).
unfold range.
set (st := balance_rounds _ _ _ _ _ _) in *.
exists (slice_to (balanced_results st) (2 * Z.of_nat k)).
split; [reflexivity|].
assert (Hs : slice_to (balanced_results st) (2 * Z.of_nat k)
           = balanced_results st).
{ unfold slice_to. destruct (Z.leb_spec 0 (2 * Z.of_nat k)); [|lia].
apply firstn_all2. lia. }
rewrite Hs. auto.
Qed.

(** C1.  For two target companies (different after lower-casing) and
[top_k = 10], when every candidate chunk carries a company name, as
after the filtering of [search], and each company has at least 5
candidate chunks, [_balance_results] returns 10 chunks, exactly 5 of
each company. *)
Theorem balance_two_companies_top_10 results c1 c2 :
lower c1 <> lower c2 ->
Forall Spec.has_company results ->
(5 <= Spec.count_company (lower c1) results)%nat ->
(5 <= Spec.count_company (lower c2) results)%nat ->
exists out,
_balance_results results [c1; c2] 10 = Ok out
/\ List.length out = 10%nat
/\ Spec.count_company (lower c1) out = 5%nat
/\ Spec.count_company (lower c2) out = 5%nat.
Proof.
intros Hne Hall H1 H2.
exact (balance_two_companies results c1 c2 5 Hne Hall ltac:(lia) H1 H2).
Qed.
End BalanceFacts.

Lemma balance_two_companies_top_10_witness :
  exists out,
    Qdrant._balance_results Samples.apple_microsoft_results
                            ["Apple"; "Microsoft"] 10 = Py.Ok out
    /\ List.length out = 10%nat
    /\ Spec.count_company "apple" out = 5%nat
    /\ Spec.count_company "microsoft" out = 5%nat.
Proof.
  apply (balance_two_companies_top_10 Samples.apple_microsoft_results
                                      "Apple" "Microsoft").
  - vm_compute. discriminate.
  - repeat constructor; discriminate.
  - vm_compute. lia.
  - vm_compute. lia.
Defined.

(** ** Order of a multi-company retrieval *)

Section RetrieveOrder.
Import Py Qdrant.

Section RerankFacts.

Lemma Rltb_true a b : (a < b)%R -> Rltb a b = true.
Proof. intros H. unfold Rltb. destruct (Rlt_dec a b); [reflexivity|contradiction]. Qed.

Lemma Rltb_false a b : (b <= a)%R -> Rltb a b = false.
Proof. intros H. unfold Rltb. destruct (Rlt_dec a b); [lra|reflexivity]. Qed.

Lemma normalize_semantic_nonneg s : (0 <= s)%R -> normalize_semantic s = s.
Proof. intros H. unfold normalize_semantic. now rewrite Rltb_false. Qed.

(** The keyword score reads the document through its lower-cased text. *)
Lemma relevance_lower order query c1 c2 use_phrases :
lower c1 = lower c2 ->
KeywordSearch.calculate_keyword_relevance order query c1 use_phrases
= KeywordSearch.calculate_keyword_relevance order query c2 use_phrases.
Proof.
intros H. unfold KeywordSearch.calculate_keyword_relevance,
  KeywordSearch.tokenize. now rewrite H.
Qed.

Lemma sum_R_from l acc : fold_left Rplus l acc = (acc + sum_R l)%R.
Proof.
unfold sum_R. revert acc. induction l as [|x l IH]; intros acc; cbn.
- lra.
- rewrite IH, (IH (0 + x)%R). lra.
Qed.

Lemma sum_R_const s l :
Forall (fun x => x = s) l -> sum_R l = (INR (List.length l) * s)%R.
Proof.
induction 1 as [|x l -> _ IH].
- unfold sum_R. cbn. lra.
- unfold sum_R. cbn [fold_left]. rewrite sum_R_from, IH.
  cbn [List.length]. rewrite S_INR. lra.
Qed.

Lemma sum_R_zero l : Forall (fun x => x = 0%R) l -> sum_R l = 0%R.
Proof. intros H. rewrite (sum_R_const 0 l H). lra. Qed.

(** Chunks of equal score have no spread: the scores are set to [0.0]. *)
Lemma normalize_company_const s l :
Forall (fun r => score r = s) l ->
normalize_company l = map (set_score 0.0) l.
Proof.
intros H. destruct l as [|r l]; [reflexivity|].
unfold normalize_company.
set (rs := r :: l) in *.
assert (Hn : (0 < INR (List.length (map score rs)))%R).
{ apply lt_0_INR. unfold rs. cbn. lia. }
assert (Hs : Forall (fun x => x = s) (map score rs)).
{ apply List.Forall_forall. intros x Hx. apply in_map_iff in Hx as (c & <- & Hc).
  now apply (proj1 (List.Forall_forall _ _) H). }
rewrite (sum_R_const s _ Hs).
replace (INR (List.length (map score rs)) * s
         / INR (List.length (map score rs)))%R with s by (field; lra).
rewrite sum_R_zero.
- unfold Rdiv. rewrite Rmult_0_l, sqrt_0, Rltb_false by lra. reflexivity.
- apply List.Forall_forall. intros x Hx.
  apply in_map_iff in Hx as (y & <- & Hy).
  apply (proj1 (List.Forall_forall _ _) Hs) in Hy. subst. lra.
Qed.

Lemma sort_desc_const {A} (key : A -> R) s l :
Forall (fun r => key r = s) l -> sort_desc key l = l.
Proof.
induction 1 as [|r l Hr Hl IH]; [reflexivity|].
cbn. rewrite IH. destruct Hl as [|r' l Hr' _]; [reflexivity|].
cbn. now rewrite Rltb_false by lra.
Qed.

(** The keyword scores of the sample chunks for the query "revenue". *)
Lemma relevance_microsoft :
KeywordSearch.calculate_keyword_relevance
  KeywordSearch.financial_phrases "revenue" "Microsoft Azure" true = 0.5%R.
Proof.
unfold KeywordSearch.calculate_keyword_relevance.
replace (KeywordSearch.tokenize KeywordSearch.financial_phrases "revenue")
  with ["revenue"] by (vm_compute; reflexivity).
replace (KeywordSearch.tokenize KeywordSearch.financial_phrases
                                "Microsoft Azure")
  with ["microsoft"; "azure"] by (vm_compute; reflexivity).
replace (KeywordSearch.extract_phrases KeywordSearch.financial_phrases
                                       "revenue" 2 3)
  with (@nil string) by (vm_compute; reflexivity).
cbn [truthy_list negb fold_left].
unfold KeywordSearch.calculate_bm25_score.
cbn [truthy_list negb orb KeywordSearch.first_occurrences mem existsb
     fold_left].
replace (KeywordSearch.count_token "revenue" ["microsoft"; "azure"])
  with 0%nat by (vm_compute; reflexivity).
cbn [Nat.eqb].
replace (- 0.0 / 10.0)%R with 0%R by lra. rewrite exp_0.
unfold Rmin. destruct (Rle_dec 1.0 (1.0 / (1.0 + 1) + 0.0)); lra.
Qed.

Lemma relevance_apple :
(0.5 < KeywordSearch.calculate_keyword_relevance
         KeywordSearch.financial_phrases "revenue" "Apple Revenue" true)%R.
Proof.
unfold KeywordSearch.calculate_keyword_relevance.
replace (KeywordSearch.tokenize KeywordSearch.financial_phrases "revenue")
  with ["revenue"] by (vm_compute; reflexivity).
replace (KeywordSearch.tokenize KeywordSearch.financial_phrases
                                "Apple Revenue")
  with ["apple"; "revenue"] by (vm_compute; reflexivity).
replace (KeywordSearch.extract_phrases KeywordSearch.financial_phrases
                                       "revenue" 2 3)
  with (@nil string) by (vm_compute; reflexivity).
cbn [truthy_list negb fold_left].
unfold KeywordSearch.calculate_bm25_score.
cbn [truthy_list negb orb KeywordSearch.first_occurrences mem existsb
     fold_left].
replace (KeywordSearch.count_token "revenue" ["apple"; "revenue"])
  with 1%nat by (vm_compute; reflexivity).
cbn [Nat.eqb List.length].
set (t := KeywordSearch.bm25_term _ _ _ _ _ _ _ _).
assert (Ht : (0 < t)%R).
{ subst t. unfold KeywordSearch.bm25_term, KeywordSearch.idf.
  cbn [KeywordSearch.term_boost].
  replace (KeywordSearch.term_boost "revenue") with 1.5%R
    by (unfold KeywordSearch.term_boost;
        replace (replace "_" " " "revenue") with "revenue"
          by (vm_compute; reflexivity);
        replace (mem "revenue" KeywordSearch.financial_phrases) with false
          by (vm_compute; reflexivity);
        replace (mem "revenue" KeywordSearch.financial_metrics) with true
          by (vm_compute; reflexivity);
        reflexivity).
  pose proof ln10_pos. cbn [INR].
  apply Rmult_lt_0_compat.
  - apply Rmult_lt_0_compat;
      [apply Rmult_lt_0_compat; [apply Rmult_lt_0_compat|]|]; lra.
  - apply Rinv_0_lt_compat. lra. }
assert (He : (exp (- (0.0 + t) / 10.0) < 1)%R).
{ rewrite <- exp_0. apply exp_increasing. lra. }
pose proof (exp_pos (- (0.0 + t) / 10.0)) as Hp.
assert (Hs : (0.5 < 1.0 / (1.0 + exp (- (0.0 + t) / 10.0)))%R).
{ apply Rmult_lt_reg_r with (1.0 + exp (- (0.0 + t) / 10.0))%R; [lra|].
  unfold Rdiv. rewrite Rmult_assoc, Rinv_l by lra. lra. }
unfold Rmin.
destruct (Rle_dec 1.0 (1.0 / (1.0 + exp (- (0.0 + t) / 10.0)) + 0.0)); lra.
Qed.

Lemma normalize_two results c1 c2 :
lower c1 <> lower c2 ->
Forall Spec.has_company results ->
_normalize_scores_per_company results [c1; c2]
= Ok (normalize_company
        (List.filter (Spec.from_company (lower c1)) results)
      ++ normalize_company
           (List.filter (Spec.from_company (lower c2)) results))%list.
Proof.
intros Hne Hall. unfold _normalize_scores_per_company. cbn [map foldM].
rewrite !(of_company_ok _ _ Hall).
change (Py.bind (Ok ?x) ?f) with (f x). cbv beta.
change (Ok ?x ≫= ?f) with (f x). cbv beta.
change (Py.bind (Ok ?x) ?f) with (f x). cbv beta.
change (Ok ?x ≫= ?f) with (f x). cbv beta.
change (Py.bind (Ok ?x) ?f) with (f x). cbv beta.
change (Ok ?x ≫= ?f) with (f x). cbv beta.
cbn [KeywordSearch.first_occurrences mem existsb].
destruct (String.eqb_spec (lower c2) (lower c1)) as [E|_];
  [exfalso; apply Hne; now symmetry|].
cbn [orb flat_map].
rewrite lookup_insert_ne by (intros E; apply Hne; now symmetry).
rewrite !lookup_insert_eq. cbn [default from_option id].
now rewrite app_nil_r.
Qed.

(** Two chunks of each of two companies, of equal score within a
  company, and room for the four: they come out interleaved. *)
Lemma balance_two_by_two results c1 c2 a1 a2 b1 b2 top_k :
lower c1 <> lower c2 ->
Forall Spec.has_company results ->
List.filter (Spec.from_company (lower c1)) results = [a1; a2] ->
List.filter (Spec.from_company (lower c2)) results = [b1; b2] ->
score a1 = score a2 ->
score b1 = score b2 ->
(4 <= top_k)%Z ->
_balance_results results [c1; c2] top_k = Ok [a1; b1; a2; b2].
Proof.
intros Hne Hall Ha Hb Hsa Hsb Hk.
unfold _balance_results. cbn [map]. rewrite (group_two _ _ _ Hall).
rewrite Ha, Hb.
rewrite (sort_desc_const score (score a2) [a1; a2])
  by (repeat constructor; assumption).
rewrite (sort_desc_const score (score b2) [b1; b2])
  by (repeat constructor; assumption).
set (d := <[lower c2 := [b1; b2]]> (<[lower c1 := [a1; a2]]> ∅)).
assert (Hd1 : d !! lower c1 = Some [a1; a2]).
{ unfold d. rewrite lookup_insert_ne by (intros E; apply Hne; now symmetry).
  apply lookup_insert_eq. }
assert (Hd2 : d !! lower c2 = Some [b1; b2]) by apply lookup_insert_eq.
change (Py.Ok d ≫= ?f) with (f d). cbv beta.
cbn [List.length]. change (Z.of_nat 2 =? 0)%Z with false. cbv iota.
change (Z.of_nat 2) with 2%Z.
set (per := Z.max 1 (top_k / 2)).
assert (Hper : (2 <= per)%Z).
{ unfold per. assert (2 <= top_k / 2)%Z by (apply Z.div_le_lower_bound; lia).
  lia. }
cbn [map fold_left]. rewrite Hd1, Hd2.
cbn [default from_option]. unfold Datatypes.id.
cbn [List.length Nat.max].
unfold range. cbn [seq balance_rounds balance_round].
set (t0 := list_to_map _).
assert (Ht1 : t0 !! lower c1 = Some 0%Z).
{ unfold t0. cbn [list_to_map foldr]. apply lookup_insert_eq. }
assert (Ht2 : t0 !! lower c2 = Some 0%Z).
{ unfold t0. cbn [list_to_map foldr].
  rewrite lookup_insert_ne by exact Hne. apply lookup_insert_eq. }
assert (Hfull : forall l t r, (List.length l < 4)%nat ->
          full top_k {| balanced_results := l; taken_count := t;
                        remainder := r |} = false).
{ intros l t r Hl. unfold full. cbn [balanced_results].
  apply Z.leb_gt. lia. }
rewrite Hfull by (cbn; lia).
erewrite (take_ok d per 0 (lower c1));
  [|exact Hd1|cbn [taken_count]; exact Ht1|reflexivity|lia].
rewrite Hfull by (cbn; lia).
erewrite (take_ok d per 0 (lower c2));
  [|exact Hd2
   |cbn [taken_count]; rewrite lookup_insert_ne by exact Hne; exact Ht2
   |reflexivity|lia].
cbn [balanced_results taken_count remainder app].
repeat rewrite Hfull by (cbn; lia).
erewrite (take_ok d per 1 (lower c1));
  [|exact Hd1
   |cbn [taken_count];
    rewrite lookup_insert_ne by (intros E; apply Hne; now symmetry);
    apply lookup_insert_eq
   |reflexivity|lia].
cbn [balanced_results taken_count remainder app].
rewrite Hfull by (cbn; lia).
erewrite (take_ok d per 1 (lower c2));
  [|exact Hd2
   |cbn [taken_count]; rewrite lookup_insert_ne by exact Hne;
    apply lookup_insert_eq
   |reflexivity|lia].
cbn [balanced_results taken_count remainder app].
match goal with
| |- Ok (slice_to (balanced_results (if ?c then ?s else ?s)) _) = _ =>
    destruct c
end; cbn [balanced_results];
  unfold slice_to; (destruct (Z.leb_spec 0 top_k); [|lia]);
  rewrite firstn_all2 by (cbn; lia); reflexivity.
Qed.
End RerankFacts.

Section EffFacts.
Context {A B : Type}.

Lemma bind_lift_ok (a : A) (k : A -> Eff B) : eff_lift (Ok a) ≫= k = k a.
Proof.
unfold mbind, eff_mbind, eff_bind, eff_lift. now destruct (k a).
Qed.

Lemma bind_ret (a : A) (k : A -> Eff B) : mret a ≫= k = k a.
Proof. apply bind_lift_ok. Qed.

Lemma bind_call_ok ev (a : A) (k : A -> Eff B) :
eff_call ev (Ok a) ≫= k = (ev :: fst (k a), snd (k a)).
Proof.
unfold mbind, eff_mbind, eff_bind, eff_call. now destruct (k a).
Qed.

Lemma bind_trace (t : list event) (a : A) (k : A -> Eff B) :
(t, Ok a) ≫= k = ((t ++ fst (k a))%list, snd (k a)).
Proof. unfold mbind, eff_mbind, eff_bind. now destruct (k a). Qed.
End EffFacts.

Lemma try_ok {A} (t : list event) (a : A) handler :
  eff_try (t, Ok a) handler = (t, Ok a).
Proof. reflexivity. Qed.

Section Pipeline.
Variable client_search :
list R -> Z -> query_filter -> result (list scored_point).
Variable phrase_order : list string.

(** [search] for several companies, step by step. *)
Lemma search_multi_ok qv user top_k f cl qf pts filtered normed out :
truthy_str user = true ->
f_companies f = Some cl ->
(1 <? List.length cl)%nat = true ->
_build_query_filter user f = Ok qf ->
client_search qv (top_k * 3)%Z qf = Ok pts ->
filterM (fun r => c ← company_lower r; Ok (mem c (map lower cl)))
        (map chunk_of_point pts) = Ok filtered ->
_normalize_scores_per_company filtered (map lower cl) = Ok normed ->
_balance_results normed (map lower cl) top_k = Ok out ->
search client_search qv (Some user) top_k f
= ([EvVectorSearch user (top_k * 3)], Ok out).
Proof.
intros Hu Hc Hl Hqf Hcs Hf Hn Hb.
assert (Htl : truthy_list cl = true) by (destruct cl; [discriminate|reflexivity]).
unfold search, target_companies_of. rewrite Hc.
cbn [truthy_opt default from_option]. unfold Datatypes.id.
rewrite Hu, Htl. cbn [negb]. rewrite Hqf.
rewrite List.length_map, Hl. rewrite bind_lift_ok, Hcs, bind_call_ok.
rewrite Hf, bind_lift_ok, Hn, bind_lift_ok, Hb. reflexivity.
Qed.

(** [hybrid_search] for several companies, step by step. *)
Lemma hybrid_search_multi_ok qv query_text user top_k alpha f cl trace
    semantic scored normed out :
truthy_str user = true ->
truthy_str query_text = true ->
f_companies f = Some cl ->
(1 <? List.length cl)%nat = true ->
search client_search qv (Some user) (top_k * 3)
       (without_chunk_filters f) = (trace, Ok semantic) ->
mapM (fun chunk =>
        keyword_score ← keyword_relevance phrase_order query_text chunk;
        Ok (set_hybrid
              (alpha * normalize_semantic (score chunk)
               + (1 - alpha) * keyword_score)%R
              (normalize_semantic (score chunk)) keyword_score chunk))
     semantic = Ok scored ->
_normalize_scores_per_company scored (map lower cl) = Ok normed ->
_balance_results normed (map lower cl) top_k = Ok out ->
hybrid_search client_search phrase_order qv query_text (Some user) top_k
              alpha f
= (trace, Ok out).
Proof.
intros Hu Hq Hc Hl Hs Hm Hn Hb.
assert (Htl : truthy_list cl = true) by (destruct cl; [discriminate|reflexivity]).
unfold hybrid_search, target_companies_of. rewrite Hc.
cbn [truthy_opt default from_option]. unfold Datatypes.id.
rewrite Hu, Htl, Hq. cbn [negb].
rewrite List.length_map, Hl, Hs, bind_trace.
rewrite Hm, bind_lift_ok, Hn, bind_lift_ok, Hb.
cbn [fst snd eff_lift]. now rewrite app_nil_r.
Qed.
End Pipeline.

Lemma comparison_retrieve_unfold k trace balanced reranked :
  Samples.comparison_hybrid = (trace, Ok balanced) ->
  balanced <> [] ->
  Retriever._rerank_with_keywords KeywordSearch.financial_phrases balanced
                                  "revenue" = Ok reranked ->
  Samples.comparison_retrieve k
  = (EvEmbed "revenue" :: trace, Ok (slice_to reranked k)).
Proof.
  intros Hh Hne Hr.
  unfold Samples.comparison_retrieve, Retriever.retrieve.
  cbn [negb truthy_opt truthy_str default from_option].
  unfold QueryProcessor.process_query.
  match goal with
  | |- ?pq ≫= ?cont = _ =>
      change pq with
        ([EvEmbed "revenue"],
         Ok {| QueryProcessor.query_text := "revenue";
               QueryProcessor.original_query := "revenue";
               QueryProcessor.query_embedding := [];
               QueryProcessor.company := None;
               QueryProcessor.companies := None;
               QueryProcessor.year := None;
               QueryProcessor.year_range := None;
               QueryProcessor.meta := QueryProcessor.no_metadata_filters |});
      rewrite bind_trace
  end.
  match goal with
  | |- (_, snd ?x) = _ =>
      change x with
        (Samples.comparison_hybrid
         ≫= fun results =>
              eff_lift (Retriever._rerank KeywordSearch.financial_phrases None
                                          results "revenue")
              ≫= fun reranked => mret (slice_to reranked k))
  end.
  rewrite Hh, bind_trace.
  assert (Hrr : Retriever._rerank KeywordSearch.financial_phrases None
                                  balanced "revenue" = Ok reranked).
  { unfold Retriever._rerank. destruct balanced; [contradiction|].
    exact Hr. }
  rewrite Hrr, bind_lift_ok. cbn [fst snd mret eff_mret eff_ret].
  now rewrite app_nil_r.
Qed.

(** The sample comparison query, stage by stage. *)
Section Comparison.
Import Samples.

Lemma normalize_two_const results c1 c2 la lb sa sb :
lower c1 <> lower c2 ->
Forall Spec.has_company results ->
List.filter (Spec.from_company (lower c1)) results = la ->
List.filter (Spec.from_company (lower c2)) results = lb ->
Forall (fun r => score r = sa) la ->
Forall (fun r => score r = sb) lb ->
_normalize_scores_per_company results [c1; c2]
= Ok (map (set_score 0.0) la ++ map (set_score 0.0) lb)%list.
Proof.
intros Hne Hall <- <- Ha Hb. rewrite (normalize_two _ _ _ Hne Hall).
now rewrite (normalize_company_const sa _ Ha),
  (normalize_company_const sb _ Hb).
Qed.

Lemma sort_interleaved {A} (key : A -> R) a1 b1 a2 b2 :
(key a2 <= key a1)%R -> (key b2 <= key b1)%R -> (key b1 < key a2)%R ->
sort_desc key [a1; b1; a2; b2] = [a1; a2; b1; b2].
Proof.
intros Ha Hb Hlt. cbn [sort_desc insert_desc].
rewrite (Rltb_false (key a2) (key b2)) by lra. cbn [insert_desc].
rewrite (Rltb_true (key b1) (key a2)) by lra. cbn [insert_desc].
rewrite (Rltb_false (key b1) (key b2)) by lra. cbn [insert_desc].
rewrite (Rltb_false (key a1) (key a2)) by lra.
reflexivity.
Qed.

Lemma names_differ : lower "apple" <> lower "microsoft".
Proof. intros E. vm_compute in E. discriminate E. Qed.

Lemma comparison_search :
search comparison_index [] (Some "u") (30 * 3)
       (without_chunk_filters comparison_filters)
= ([EvVectorSearch "u" 270],
   Ok [searched apple_1; searched microsoft_1;
       searched apple_2; searched microsoft_2]).
Proof.
apply (search_multi_ok comparison_index [] "u" (30 * 3)
         (without_chunk_filters comparison_filters)
         ["apple"; "microsoft"]
         [MatchValue "user_id" (VStr "u")]
         comparison_points comparison_chunks
         [searched apple_1; searched apple_2;
          searched microsoft_1; searched microsoft_2]);
  try reflexivity.
- apply (normalize_two_const comparison_chunks "apple" "microsoft"
           [chunk_of_point apple_1; chunk_of_point apple_2]
           [chunk_of_point microsoft_1; chunk_of_point microsoft_2]
           0.9%R 0.8%R);
    try reflexivity; try exact names_differ;
    repeat constructor; discriminate.
- apply (balance_two_by_two _ "apple" "microsoft");
    try reflexivity; try exact names_differ; try lia.
  repeat constructor; discriminate.
Qed.

Lemma keyword_of_apple_2 :
keyword_of (searched apple_2) = keyword_of (searched apple_1).
Proof.
unfold keyword_of.
change (default "" (content (searched apple_2))) with "Apple revenue".
change (default "" (content (searched apple_1))) with "Apple Revenue".
exact (relevance_lower KeywordSearch.financial_phrases "revenue"
         "Apple revenue" "Apple Revenue" true eq_refl).
Qed.

Lemma keyword_of_microsoft_2 :
keyword_of (searched microsoft_2) = keyword_of (searched microsoft_1).
Proof.
unfold keyword_of.
change (default "" (content (searched microsoft_2))) with "Microsoft azure".
change (default "" (content (searched microsoft_1))) with "Microsoft Azure".
exact (relevance_lower KeywordSearch.financial_phrases "revenue"
         "Microsoft azure" "Microsoft Azure" true eq_refl).
Qed.

Lemma keyword_of_microsoft_1 : keyword_of (searched microsoft_1) = 0.5%R.
Proof. exact relevance_microsoft. Qed.

Lemma keyword_of_apple_1 : (0.5 < keyword_of (searched apple_1))%R.
Proof. exact relevance_apple. Qed.

Lemma keyword_relevance_of c :
content c <> None ->
keyword_relevance KeywordSearch.financial_phrases "revenue" c
= Ok (keyword_of c).
Proof.
unfold keyword_relevance, keyword_of.
destruct (content c); [reflexivity|contradiction].
Qed.

Lemma comparison_scored :
mapM (fun chunk =>
        keyword_score ←
          keyword_relevance KeywordSearch.financial_phrases "revenue" chunk;
        Ok (set_hybrid
              (0.7 * normalize_semantic (score chunk)
               + (1 - 0.7) * keyword_score)%R
              (normalize_semantic (score chunk)) keyword_score chunk))
     [searched apple_1; searched microsoft_1;
      searched apple_2; searched microsoft_2]
= Ok [hybrid_scored apple_1; hybrid_scored microsoft_1;
      hybrid_scored apple_2; hybrid_scored microsoft_2].
Proof.
cbn [mapM].
rewrite !keyword_relevance_of by discriminate.
repeat (change (Py.bind (Ok ?x) ?f) with (f x); cbv beta).
repeat (change (Ok ?x ≫= ?f) with (f x); cbv beta).
reflexivity.
Qed.

Lemma keyword_of_content c1 c2 :
content c1 = content c2 -> keyword_of c1 = keyword_of c2.
Proof. unfold keyword_of. now intros ->. Qed.

Lemma keyword_of_balanced p :
keyword_of (balanced_chunk p) = keyword_of (searched p).
Proof. apply keyword_of_content. reflexivity. Qed.

Lemma hybrid_score_of p :
score (hybrid_scored p)
= (0.7 * normalize_semantic 0.0 + (1 - 0.7) * keyword_of (searched p))%R.
Proof. reflexivity. Qed.

Lemma comparison_hybrid_balanced :
comparison_hybrid
= ([EvVectorSearch "u" 270],
   Ok [balanced_chunk apple_1; balanced_chunk microsoft_1;
       balanced_chunk apple_2; balanced_chunk microsoft_2]).
Proof.
apply (hybrid_search_multi_ok comparison_index
         KeywordSearch.financial_phrases [] "revenue" "u" 30 0.7%R
         comparison_filters ["apple"; "microsoft"]
         [EvVectorSearch "u" 270]
         [searched apple_1; searched microsoft_1;
          searched apple_2; searched microsoft_2]
         [hybrid_scored apple_1; hybrid_scored microsoft_1;
          hybrid_scored apple_2; hybrid_scored microsoft_2]
         [balanced_chunk apple_1; balanced_chunk apple_2;
          balanced_chunk microsoft_1; balanced_chunk microsoft_2]).
- reflexivity.
- reflexivity.
- reflexivity.
- reflexivity.
- exact comparison_search.
- exact comparison_scored.
- apply (normalize_two_const _ "apple" "microsoft"
           [hybrid_scored apple_1; hybrid_scored apple_2]
           [hybrid_scored microsoft_1; hybrid_scored microsoft_2]
           (score (hybrid_scored apple_1))
           (score (hybrid_scored microsoft_1))).
  + exact names_differ.
  + repeat constructor; discriminate.
  + reflexivity.
  + reflexivity.
  + apply List.Forall_cons; [reflexivity|].
    apply List.Forall_cons; [|apply List.Forall_nil].
    rewrite !hybrid_score_of. now rewrite keyword_of_apple_2.
  + apply List.Forall_cons; [reflexivity|].
    apply List.Forall_cons; [|apply List.Forall_nil].
    rewrite !hybrid_score_of. now rewrite keyword_of_microsoft_2.
- apply (balance_two_by_two _ "apple" "microsoft").
  + exact names_differ.
  + repeat constructor; discriminate.
  + reflexivity.
  + reflexivity.
  + reflexivity.
  + reflexivity.
  + lia.
Qed.

Lemma rerank_key_of p :
default 0%R (rerank_score (reranked_chunk p))
= (0.6 * normalize_semantic 0.0 + 0.4 * keyword_of (balanced_chunk p))%R.
Proof. reflexivity. Qed.

Lemma rerank_key_apple_1 :
(0.2 < default 0%R (rerank_score (reranked_chunk apple_1)))%R.
Proof.
rewrite rerank_key_of, keyword_of_balanced.
rewrite normalize_semantic_nonneg by lra.
pose proof keyword_of_apple_1. lra.
Qed.

Lemma rerank_key_apple_2 :
default 0%R (rerank_score (reranked_chunk apple_2))
= default 0%R (rerank_score (reranked_chunk apple_1)).
Proof.
rewrite !rerank_key_of, !keyword_of_balanced.
now rewrite keyword_of_apple_2.
Qed.

Lemma rerank_key_microsoft_1 :
default 0%R (rerank_score (reranked_chunk microsoft_1)) = 0.2%R.
Proof.
rewrite rerank_key_of, keyword_of_balanced, keyword_of_microsoft_1.
rewrite normalize_semantic_nonneg by lra. lra.
Qed.

Lemma rerank_key_microsoft_2 :
default 0%R (rerank_score (reranked_chunk microsoft_2)) = 0.2%R.
Proof.
rewrite rerank_key_of, keyword_of_balanced, keyword_of_microsoft_2,
  keyword_of_microsoft_1.
rewrite normalize_semantic_nonneg by lra. lra.
Qed.

Lemma comparison_reranked :
Retriever._rerank_with_keywords KeywordSearch.financial_phrases
  [balanced_chunk apple_1; balanced_chunk microsoft_1;
   balanced_chunk apple_2; balanced_chunk microsoft_2] "revenue"
= Ok [reranked_chunk apple_1; reranked_chunk apple_2;
      reranked_chunk microsoft_1; reranked_chunk microsoft_2].
Proof.
unfold Retriever._rerank_with_keywords.
match goal with
| |- ?m ≫= _ = _ =>
    assert (Hscored : m = Ok [reranked_chunk apple_1;
                              reranked_chunk microsoft_1;
                              reranked_chunk apple_2;
                              reranked_chunk microsoft_2])
end.
{ cbn [mapM]. cbv zeta.
  rewrite !keyword_relevance_of by discriminate.
  repeat (change (Py.bind (Ok ?x) ?f) with (f x); cbv beta).
  repeat (change (Ok ?x ≫= ?f) with (f x); cbv beta).
  reflexivity. }
rewrite Hscored.
change (Ok ?x ≫= ?f) with (f x); cbv beta.
f_equal. apply sort_interleaved.
- rewrite rerank_key_apple_2. lra.
- rewrite rerank_key_microsoft_1, rerank_key_microsoft_2. lra.
- rewrite rerank_key_microsoft_1, rerank_key_apple_2.
  exact rerank_key_apple_1.
Qed.

(** C5 (what the code does instead).  [retrieve] hands the round-robin list
  of [hybrid_search] to [_rerank_with_keywords], which sorts it by
  [rerank_score], and then cuts it to [top_k].  For the query "revenue"
  over two Apple and two Microsoft chunks, [hybrid_search] returns them
  interleaved (Apple, Microsoft, Apple, Microsoft); [retrieve] returns
  both Apple chunks before both Microsoft chunks, and with [top_k = 2] it
  returns the two Apple chunks and no Microsoft chunk: the balanced order
  is sorted again by score after balancing. *)
Theorem retrieve_resorts_balanced_results :
snd comparison_hybrid
= Ok [balanced_chunk apple_1; balanced_chunk microsoft_1;
      balanced_chunk apple_2; balanced_chunk microsoft_2]
/\ snd (comparison_retrieve 4)
   = Ok [reranked_chunk apple_1; reranked_chunk apple_2;
         reranked_chunk microsoft_1; reranked_chunk microsoft_2]
/\ snd (comparison_retrieve 2)
   = Ok [reranked_chunk apple_1; reranked_chunk apple_2]
/\ Spec.count_company "microsoft"
     [reranked_chunk apple_1; reranked_chunk apple_2] = 0%nat.
Proof.
assert (Hne : [balanced_chunk apple_1; balanced_chunk microsoft_1;
               balanced_chunk apple_2; balanced_chunk microsoft_2] <> [])
  by discriminate.
split; [now rewrite comparison_hybrid_balanced|].
split; [|split].
- now rewrite (comparison_retrieve_unfold 4 _ _ _
                 comparison_hybrid_balanced Hne comparison_reranked).
- now rewrite (comparison_retrieve_unfold 2 _ _ _
                 comparison_hybrid_balanced Hne comparison_reranked).
- reflexivity.
Qed.
End Comparison.
End RetrieveOrder.

(** * Further properties *)
Section FilterFacts.
Import Py Qdrant.

Lemma cond_str_keys key guard v :
map Spec.condition_key (cond_str key guard v) `sublist_of` [key].
Proof.
unfold cond_str. destruct v as [s|]; [|apply sublist_nil_l].
destruct (guard && truthy_str s); [reflexivity|apply sublist_nil_l].
Qed.

Lemma cond_int_keys key v :
map Spec.condition_key (cond_int key v) `sublist_of` [key].
Proof. destruct v; [reflexivity|apply sublist_nil_l]. Qed.

Lemma cond_bool_keys key v :
map Spec.condition_key (cond_bool key v) `sublist_of` [key].
Proof. destruct v; [reflexivity|apply sublist_nil_l]. Qed.

(** The keys a filter can test, in the order the conditions are added. *)
Lemma filter_keys_shape user f qf :
_build_query_filter user f = Ok qf ->
exists rest,
qf = MatchValue "user_id" (VStr user) :: rest
/\ map Spec.condition_key rest
 `sublist_of`
 [ "fiscal_year"; "company"; "document_type"; "document_category";
   "fiscal_quarter"; "company_sector"; "company_industry";
   "has_financial_statements"; "has_mda"; "has_risk_factors";
   "period_type"; "reporting_standard"; "company_country";
   "company_exchange"; "chunk_type"; "has_table" ].
Proof.
unfold _build_query_filter.
set (temporal := if truthy_opt truthy_list (f_year_range f) then _ else _).
assert (Ht : forall t, temporal = Ok t ->
                   map Spec.condition_key t `sublist_of` ["fiscal_year"]).
{ subst temporal. intros t.
destruct (truthy_opt truthy_list (f_year_range f)).
- destruct (nth_error _ 0) as [lo|]; [|discriminate].
destruct (nth_error _ 1) as [hi|]; [|discriminate].
intros [= <-]. reflexivity.
- intros [= <-]. apply cond_int_keys. }
destruct temporal as [t|e]; [|discriminate].
specialize (Ht t eq_refl).
intros [= <-]. eexists. split; [reflexivity|].
rewrite !map_app.
change [ "fiscal_year"; "company"; "document_type"; "document_category";
     "fiscal_quarter"; "company_sector"; "company_industry";
     "has_financial_statements"; "has_mda"; "has_risk_factors";
     "period_type"; "reporting_standard"; "company_country";
     "company_exchange"; "chunk_type"; "has_table" ]
with (["fiscal_year"] ++ ["company"] ++ ["document_type"]
    ++ ["document_category"] ++ ["fiscal_quarter"] ++ ["company_sector"]
    ++ ["company_industry"] ++ ["has_financial_statements"]
    ++ ["has_mda"] ++ ["has_risk_factors"] ++ ["period_type"]
    ++ ["reporting_standard"] ++ ["company_country"]
    ++ ["company_exchange"] ++ ["chunk_type"] ++ ["has_table"])%list.
repeat (apply sublist_app;
    [first [exact Ht | apply cond_str_keys | apply cond_int_keys
           | apply cond_bool_keys]|]).
apply cond_bool_keys.
Qed.

Lemma filter_carries_user user f qf :
_build_query_filter user f = Ok qf -> Spec.carries_user user qf.
Proof.
intros H. destruct (filter_keys_shape _ _ _ H) as (rest & -> & _).
now left.
Qed.

Lemma filter_fails user f e :
_build_query_filter user f = Raise e ->
e = IndexError /\ exists y, f_year_range f = Some [y].
Proof.
unfold _build_query_filter.
destruct (f_year_range f) as [[|lo [|hi r]]|]; cbn; try discriminate.
intros [= <-]. eauto.
Qed.

(** X1.  Whatever the arguments, the filter [_build_query_filter]
returns starts with the condition on [user_id] for the user given and
tests no payload key twice: a year range replaces the single year, and
there is one condition at most per argument.  It raises only for a year
range with a single bound, and then [IndexError]. *)
Theorem query_filter_names_the_user_once user f :
match _build_query_filter user f with
| Ok qf =>
head qf = Some (MatchValue "user_id" (VStr user))
/\ List.NoDup (map Spec.condition_key qf)
| Raise e => e = IndexError /\ exists y, f_year_range f = Some [y]
end.
Proof.
destruct (_build_query_filter user f) as [qf|e] eqn:H.
- destruct (filter_keys_shape _ _ _ H) as (rest & -> & Hsub).
split; [reflexivity|].
apply NoDup_ListNoDup.
change (NoDup ("user_id" :: map Spec.condition_key rest)).
eapply sublist_NoDup; [|apply sublist_skip, Hsub].
compute_done.
- exact (filter_fails _ _ _ H).
Qed.
End FilterFacts.

Section IsolationFacts.
Import Py Qdrant Retriever.

Lemma eff_bind_ext {A B} (m : Eff A) (k1 k2 : A -> Eff B) :
(forall a, k1 a = k2 a) -> m ≫= k1 = m ≫= k2.
Proof.
intros H. unfold mbind, eff_mbind, eff_bind.
destruct m as [t [a|e]]; [|reflexivity]. now rewrite H.
Qed.

Lemma search_agrees c1 c2 qv user_id top_k f :
Spec.agree_for_user (default "" user_id) c1 c2 ->
search c1 qv user_id top_k f = search c2 qv user_id top_k f.
Proof.
intros H. unfold search.
destruct (negb (truthy_opt truthy_str user_id)); [reflexivity|].
destruct (_build_query_filter (default "" user_id) f) as [qf|e] eqn:Hqf;
[|reflexivity].
rewrite !bind_lift_ok.
now rewrite (H qv _ qf (filter_carries_user _ _ _ Hqf)).
Qed.

Lemma hybrid_search_agrees c1 c2 po qv q user_id top_k alpha f :
Spec.agree_for_user (default "" user_id) c1 c2 ->
hybrid_search c1 po qv q user_id top_k alpha f
= hybrid_search c2 po qv q user_id top_k alpha f.
Proof.
intros H. unfold hybrid_search.
now rewrite (search_agrees c1 c2 _ _ _ _ H).
Qed.

(** X2.  [retrieve] reads the index only through queries whose filter
carries the condition [user_id = u] for its own user: two indexes that
answer those queries alike give the same calls and the same result,
however they differ on the points of other users. *)
Theorem retrieve_reads_only_the_users_points
    config c1 c2 paq embed po ce query user_id top_k company companies
    year year_range use_hybrid expand_query rf :
Spec.agree_for_user (default "" user_id) c1 c2 ->
retrieve config c1 paq embed po ce query user_id top_k company companies
     year year_range use_hybrid expand_query rf
= retrieve config c2 paq embed po ce query user_id top_k company companies
       year year_range use_hybrid expand_query rf.
Proof.
intros H. unfold retrieve.
destruct (negb (truthy_opt truthy_str user_id)); [reflexivity|].
apply eff_bind_ext. intros processed.
destruct (if truthy_opt truthy_list year_range then _ else _)
as [final_year_range year_filter].
destruct use_hybrid.
- now rewrite (hybrid_search_agrees c1 c2 _ _ _ _ _ _ _ H).
- now rewrite (search_agrees c1 c2 _ _ _ _ H).
Qed.
End IsolationFacts.

Lemma retrieve_reads_only_the_users_points_witness :
Retriever.retrieve Retriever.default_settings Samples.comparison_index
  Samples.no_llm Samples.no_embedding KeywordSearch.financial_phrases None
  "revenue" (Some "u") (Some 2%Z) None (Some ["apple"; "microsoft"])
  None None true false Retriever.no_retrieve_filters
= Retriever.retrieve Retriever.default_settings Samples.other_tenant_index
  Samples.no_llm Samples.no_embedding KeywordSearch.financial_phrases None
  "revenue" (Some "u") (Some 2%Z) None (Some ["apple"; "microsoft"])
  None None true false Retriever.no_retrieve_filters.
Proof.
apply retrieve_reads_only_the_users_points.
intros qv limit qf Hu. unfold Samples.other_tenant_index, Samples.comparison_index.
replace (existsb _ qf) with true; [reflexivity|].
symmetry. apply existsb_exists.
eexists. split; [exact Hu|]. reflexivity.
Defined.

Section SearchFailures.
Import Py Qdrant.
Variable client_search :
list R -> Z -> query_filter -> result (list scored_point).
Variable phrase_order : list string.

(** The number of points [search] asks the index for. *)
Lemma search_shape qv user top_k f qf :
truthy_str user = true ->
_build_query_filter user f = Ok qf ->
let limit :=
if (1 <? List.length (target_companies_of f))%nat
then (top_k * 3)%Z else top_k in
exists out,
search client_search qv (Some user) top_k f
= ([EvVectorSearch user limit], Ok out)
/\ (forall e, client_search qv limit qf = Raise e -> out = []).
Proof.
intros Hu Hqf limit. unfold search.
cbn [truthy_opt default from_option]. unfold Datatypes.id.
rewrite Hu. cbn [negb]. rewrite Hqf, bind_lift_ok.
fold limit.
destruct (client_search qv limit qf) as [pts|e] eqn:Hc.
- rewrite bind_call_ok.
match goal with
| |- context [eff_try (_, snd ?body) _] =>
  assert (Hfst : fst body = []);
  [|destruct body as [t [out|e]]; cbn in Hfst; subst t]
end.
{ destruct (truthy_opt truthy_list (f_companies f)).
- destruct (filterM _ _) as [rs|e]; [|reflexivity].
  rewrite bind_lift_ok.
  destruct (1 <? _)%nat; [|reflexivity].
  destruct (_normalize_scores_per_company _ _) as [ns|e]; [|reflexivity].
  now rewrite bind_lift_ok.
- rewrite bind_ret.
  destruct (1 <? _)%nat; [|reflexivity].
  destruct (_normalize_scores_per_company _ _) as [ns|e]; [|reflexivity].
  now rewrite bind_lift_ok. }
+ exists out. split; [reflexivity|]. intros e' [=].
+ exists []. split; [reflexivity|]. reflexivity.
- exists []. split; [reflexivity|]. reflexivity.
Qed.

(** X3.  With a user id and a usable year range, [search] never raises:
it queries the index once, for [top_k] or [3 * top_k] points, and when
that query raises it returns the empty list. *)
Theorem search_survives_a_failing_index qv user top_k f :
truthy_str user = true ->
(forall y, f_year_range f <> Some [y]) ->
exists limit out,
search client_search qv (Some user) top_k f
= ([EvVectorSearch user limit], Ok out)
/\ (limit = top_k \/ limit = (top_k * 3)%Z)
/\ (forall qf e,
_build_query_filter user f = Ok qf ->
client_search qv limit qf = Raise e -> out = []).
Proof.
intros Hu Hyr.
destruct (_build_query_filter user f) as [qf|e] eqn:Hqf.
- destruct (search_shape qv user top_k f qf Hu Hqf) as (out & Hs & Hout).
eexists. exists out. split; [exact Hs|]. split.
+ destruct (1 <? _)%nat; auto.
+ intros qf' e' [= <-]. apply Hout.
- destruct (filter_fails _ _ _ Hqf) as (_ & y & Hy). now destruct (Hyr y).
Qed.
End SearchFailures.

Lemma search_survives_a_failing_index_witness :
exists limit out,
Qdrant.search Samples.failing_index [] (Some "u") 10
              Samples.comparison_filters
= ([Py.EvVectorSearch "u" limit], Py.Ok out)
/\ out = [].
Proof.
destruct (search_survives_a_failing_index Samples.failing_index [] "u" 10
          Samples.comparison_filters eq_refl)
as (limit & out & Hs & _ & Hout).
- intros y. discriminate.
- exists limit, out. split; [exact Hs|].
eapply Hout; reflexivity.
Defined.

Section HybridFailures.
Import Py Qdrant.
Variable client_search :
list R -> Z -> query_filter -> result (list scored_point).
Variable phrase_order : list string.

Lemma mapM_raises {A B} (f : A -> result B) (l : list A) (x : A) e :
In x l -> (forall y e', f y = Raise e' -> e' = e) -> f x = Raise e ->
mapM f l = Raise e.
Proof.
intros Hin Hall Hx. induction l as [|y l IH]; [contradiction|].
cbn [mapM]. destruct (f y) as [b|e'] eqn:Hy.
- cbn [bind]. destruct Hin as [->|Hin]; [congruence|].
now rewrite (IH Hin).
- cbn [bind]. now rewrite (Hall _ _ Hy).
Qed.

(** X4.  [hybrid_search] has no such guard: when the semantic search
returns a chunk whose [content] is missing, the keyword scoring raises
[AttributeError] and [hybrid_search] raises it after the one index
query, for a single company and for several alike. *)
Theorem hybrid_search_raises_without_text
    qv query_text user top_k alpha f trace semantic c :
truthy_str user = true ->
truthy_str query_text = true ->
search client_search qv (Some user)
   (if (1 <? List.length (target_companies_of f))%nat
    then (top_k * 3)%Z else top_k)
   (without_chunk_filters f) = (trace, Ok semantic) ->
In c semantic -> content c = None ->
hybrid_search client_search phrase_order qv query_text (Some user) top_k
          alpha f
= (trace, Raise AttributeError).
Proof.
intros Hu Hq Hs Hin Hc. unfold hybrid_search.
cbn [truthy_opt default from_option]. rewrite Hu, Hq. cbn [negb].
rewrite Hs, bind_trace.
rewrite (mapM_raises _ semantic c AttributeError Hin).
- cbn. now rewrite app_nil_r.
- intros y e'. unfold keyword_relevance.
destruct (content y); cbn; congruence.
- unfold keyword_relevance. now rewrite Hc.
Qed.
End HybridFailures.

Lemma hybrid_search_raises_without_text_witness :
Qdrant.hybrid_search Samples.blank_index KeywordSearch.financial_phrases
  [] "revenue" (Some "u") 10 0.7%R Samples.no_filters
= ([Py.EvVectorSearch "u" 10], Py.Raise Py.AttributeError).
Proof.
apply (hybrid_search_raises_without_text Samples.blank_index
       KeywordSearch.financial_phrases [] "revenue" "u" 10 0.7%R
       Samples.no_filters [Py.EvVectorSearch "u" 10]
       [Qdrant.chunk_of_point Samples.blank_point]
       (Qdrant.chunk_of_point Samples.blank_point)).
- reflexivity.
- reflexivity.
- reflexivity.
- now left.
- reflexivity.
Defined.

Section NormalizeFacts.
Import Py Qdrant.

Lemma sum_R_cons x l : sum_R (x :: l) = (x + sum_R l)%R.
Proof. unfold sum_R at 1. cbn [fold_left]. rewrite sum_R_from. lra. Qed.

Lemma sum_R_nil : sum_R [] = 0%R.
Proof. reflexivity. Qed.


Lemma sum_R_nonneg l : Forall (fun x => 0 <= x)%R l -> (0 <= sum_R l)%R.
Proof.
induction 1 as [|x l Hx _ IH]; [rewrite sum_R_nil; lra|].
rewrite sum_R_cons. lra.
Qed.

Lemma sum_R_zero_terms l :
Forall (fun x => 0 <= x)%R l -> sum_R l = 0%R -> Forall (fun x => x = 0%R) l.
Proof.
induction 1 as [|x l Hx Hl IH]; [constructor|].
rewrite sum_R_cons. intros H0.
pose proof (sum_R_nonneg l Hl).
constructor; [lra|]. apply IH. lra.
Qed.

(** The mean and the standard deviation [normalize_company] computes. *)
Lemma normalize_company_cases l :
l <> [] ->
let n := INR (List.length l) in
let mean := (sum_R (map score l) / n)%R in
let var := (sum_R (map (fun r => (score r - mean) ^ 2) l) / n)%R in
(0 < n)%R /\ (0 <= var)%R
/\ ((0 < var)%R
/\ normalize_company l
   = map (fun r => set_normalized ((score r - mean) / sqrt var) r) l
\/ var = 0%R
   /\ Forall (fun r => score r = mean) l
   /\ normalize_company l = map (set_score 0.0) l).
Proof.
intros Hne n mean var.
assert (Hn : (0 < n)%R).
{ apply lt_0_INR. destruct l; [contradiction|cbn; lia]. }
assert (Hsq : Forall (fun x => 0 <= x)%R
                 (map (fun r => (score r - mean) ^ 2)%R l)).
{ apply List.Forall_forall. intros x Hx.
apply in_map_iff in Hx as (r & <- & _). apply pow2_ge_0. }
assert (Hvar : (0 <= var)%R).
{ unfold var. apply Rmult_le_pos; [now apply sum_R_nonneg|].
left. now apply Rinv_0_lt_compat. }
split; [exact Hn|]. split; [exact Hvar|].
assert (Hunf : normalize_company l
           = if Rltb 0 (sqrt var)
             then map (fun r => set_normalized
                                  ((score r - mean) / sqrt var) r) l
             else map (set_score 0.0) l).
{ destruct l as [|r l]; [contradiction|].
unfold normalize_company. rewrite List.length_map, map_map. reflexivity. }
destruct Hvar as [Hpos|Hzero].
- left. split; [exact Hpos|].
rewrite Hunf, Rltb_true; [reflexivity|]. now apply sqrt_lt_R0.
- right. split; [now symmetry|]. split.
+ assert (H0 : sum_R (map (fun r => (score r - mean) ^ 2)%R l) = 0%R).
{ unfold var in Hzero. unfold Rdiv in Hzero.
  symmetry in Hzero. apply Rmult_integral in Hzero as [H|H]; [exact H|].
  pose proof (Rinv_0_lt_compat n Hn). lra. }
pose proof (sum_R_zero_terms _ Hsq H0) as Hall.
apply List.Forall_forall. intros r Hr.
assert (Hr0 : ((score r - mean) ^ 2 = 0)%R).
{ apply (proj1 (List.Forall_forall _ _) Hall).
  apply in_map_iff. now exists r. }
assert (score r - mean = 0)%R; [|lra].
replace ((score r - mean) ^ 2)%R
  with ((score r - mean) * (score r - mean))%R in Hr0 by ring.
now apply Rmult_integral in Hr0 as [H|H].
+ rewrite Hunf, <- Hzero, sqrt_0, Rltb_false by lra. reflexivity.
Qed.


Lemma Forall2_map_same {A B} (P : A -> B -> Prop) (f : A -> B) l :
(forall x, P x (f x)) -> Forall2 P l (map f l).
Proof. intros H. induction l; cbn [map]; constructor; auto. Qed.

(** X6.  Normalization keeps every chunk of a company in its place,
with its id, text and company, and changes the scores by one
non-decreasing function: it never inverts two scores of a company. *)
Theorem normalize_company_keeps_order l :
exists g : R -> R,
(forall a b, (a <= b)%R -> (g a <= g b)%R)
/\ Forall2 (fun r r' =>
           score r' = g (score r)
           /\ chunk_id r' = chunk_id r /\ content r' = content r
           /\ company r' = company r)
        l (normalize_company l).
Proof.
destruct l as [|r0 l0].
{ exists (fun x => x). split; [auto|constructor]. }
set (l := r0 :: l0).
assert (Hne : l <> []) by discriminate.
destruct (normalize_company_cases l Hne)
as (Hn & Hvar & [[Hpos ->]|(Hz & Hall & ->)]).
- set (mean := (sum_R (map score l) / INR (List.length l))%R) in *.
set (var := (sum_R (map (fun r => (score r - mean) ^ 2) l)
           / INR (List.length l))%R) in *.
assert (Hsd : (0 < sqrt var)%R) by now apply sqrt_lt_R0.
exists (fun x => ((x - mean) / sqrt var)%R). split.
+ intros a b Hab. unfold Rdiv.
apply Rmult_le_compat_r; [|lra].
left. now apply Rinv_0_lt_compat.
+ apply Forall2_map_same. intros r. cbn. auto.
- exists (fun _ => 0.0%R). split; [intros; lra|].
apply Forall2_map_same. intros r. cbn. auto.
Qed.
End NormalizeFacts.

Section BalanceBounds.
Import Py Qdrant.

Lemma of_company_inv name results l :
of_company name results = Ok l ->
l = List.filter (Spec.from_company name) results.
Proof.
unfold of_company. revert l.
induction results as [|r results IH]; intros l; cbn [filterM].
- now intros [= <-].
- cbn [List.filter]. unfold company_lower at 1, Spec.from_company at 1.
destruct (company r) as [c|]; [|discriminate].
cbn [bind mbind result_bind].
destruct (filterM _ results) as [ys|e]; [|discriminate].
cbn [bind]. intros [= <-]. rewrite <- (IH ys eq_refl). reflexivity.
Qed.

Lemma groups_grouped results targets :
forall d0 d,
Spec.grouped results d0 ->
foldM (fun (d : gmap string (list chunk)) company =>
     l ← of_company company results;
     Ok (<[company := sort_desc score l]> d)) targets d0 = Ok d ->
Spec.grouped results d.
Proof.
induction targets as [|t targets IH]; intros d0 d H0; cbn [foldM].
- now intros [= <-].
- destruct (of_company t results) as [l|e] eqn:Hl; [|discriminate].
cbn [bind mbind result_bind]. apply IH.
intros c G. destruct (decide (c = t)) as [->|Hc].
+ rewrite lookup_insert_eq. intros [= <-].
apply List.Forall_forall. intros r Hr.
apply (proj1 (sort_desc_In score r _)) in Hr.
rewrite (of_company_inv _ _ _ Hl) in Hr.
now apply List.filter_In in Hr.
+ rewrite lookup_insert_ne by congruence. apply H0.
Qed.

Section Loops.
Variable results : list chunk.
Variable d : gmap string (list chunk).
Variable targets : list string.
Variables top_k per_company_k rem0 : Z.
Variable cap : Z.
Hypothesis Hd : Spec.grouped results d.
Hypothesis Hshare :
cap = (per_company_k + (if (0 <? rem0)%Z then 1 else 0))%Z.

Lemma count_company_snoc c company bal r :
Spec.from_company company r = true ->
Z.of_nat (Spec.count_company c (bal ++ [r]))
= (Z.of_nat (Spec.count_company c bal) + (if decide (c = company) then 1 else 0))%Z.
Proof.
intros Hr. rewrite count_company_app. unfold Spec.count_company at 2.
cbn [List.filter]. destruct (decide (c = company)) as [->|Hc].
- rewrite Hr. cbn. lia.
- destruct (Spec.from_company c r) eqn:E.
+ exfalso. apply Hc. eapply from_company_unique; eassumption.
+ cbn. lia.
Qed.

Lemma take_keeps round company st :
In company targets ->
Spec.balance_inv results targets cap rem0 st ->
Spec.balance_inv results targets cap rem0
(balance_take d per_company_k round company st).
Proof.
intros Hin (Hel & Hcount & Hcap & Hrem). unfold balance_take.
destruct (nth_error (default [] (d !! company)) round) as [r|] eqn:Hn;
[|repeat split; assumption].
assert (Hr : In r results /\ Spec.from_company company r = true).
{ destruct (d !! company) as [G|] eqn:HG.
- apply nth_error_In in Hn.
apply (proj1 (List.Forall_forall _ _) (Hd _ _ HG)). exact Hn.
- cbn in Hn. now destruct round. }
destruct Hr as [Hr1 Hr2].
set (taken := default 0%Z (taken_count st !! company)).
assert (Hnew : forall t' rem',
       (t' = taken + 1)%Z -> (t' <= cap)%Z -> (rem' <= rem0)%Z ->
       Spec.balance_inv results targets cap rem0
         {| balanced_results := balanced_results st ++ [r];
            taken_count := <[company := t']> (taken_count st);
            remainder := rem' |}).
{ intros t' rem' -> Ht' Hrem'. unfold Spec.balance_inv.
cbn [balanced_results taken_count remainder]. repeat split.
- apply Forall_app. split; [exact Hel|].
constructor; [|constructor]. split; [exact Hr1|]. eauto.
- intros c. rewrite (count_company_snoc c company _ r Hr2), Hcount.
destruct (decide (c = company)) as [->|Hc].
+ now rewrite lookup_insert_eq.
+ rewrite lookup_insert_ne by congruence. lia.
- intros c. destruct (decide (c = company)) as [->|Hc].
+ now rewrite lookup_insert_eq.
+ rewrite lookup_insert_ne by congruence. apply Hcap.
- exact Hrem'. }
destruct (Z.ltb_spec taken per_company_k) as [Hlt|Hge].
- apply Hnew; [reflexivity| |exact Hrem].
rewrite Hshare. destruct (0 <? rem0)%Z; lia.
- destruct (Z.ltb_spec 0 (remainder st)) as [Hpos|Hnp]; cbn [andb].
+ destruct (Z.eqb_spec taken per_company_k) as [Heq|Hneq].
* apply Hnew; [reflexivity| |lia].
  rewrite Hshare. destruct (Z.ltb_spec 0 rem0); lia.
* repeat split; assumption.
+ repeat split; assumption.
Qed.

Lemma round_keeps round companies :
(forall c, In c companies -> In c targets) ->
forall st,
Spec.balance_inv results targets cap rem0 st ->
Spec.balance_inv results targets cap rem0
(balance_round d top_k per_company_k round companies st).
Proof.
induction companies as [|c companies IH]; intros Hsub st Hst;
cbn [balance_round]; [exact Hst|].
destruct (full top_k st); [exact Hst|].
apply IH; [intros c' Hc'; apply Hsub; now right|].
apply take_keeps; [apply Hsub; now left|exact Hst].
Qed.

Lemma rounds_keep rounds :
forall st,
Spec.balance_inv results targets cap rem0 st ->
Spec.balance_inv results targets cap rem0
(balance_rounds d top_k per_company_k targets rounds st).
Proof.
induction rounds as [|round rounds IH]; intros st Hst;
cbn [balance_rounds]; [exact Hst|].
pose proof (round_keeps round targets (fun _ H => H) st Hst) as Hst'.
destruct (full top_k _); [exact Hst'|]. now apply IH.
Qed.
End Loops.

Lemma slice_to_firstn {A} (l : list A) k :
exists m, slice_to l k = firstn m l.
Proof. unfold slice_to. destruct (0 <=? k)%Z; eauto. Qed.

Lemma In_firstn {A} (x : A) m l : In x (firstn m l) -> In x l.
Proof.
intros H. rewrite <- (firstn_skipn m l). apply in_or_app. now left.
Qed.

Lemma count_company_firstn c m l :
(Spec.count_company c (firstn m l) <= Spec.count_company c l)%nat.
Proof.
rewrite <- (firstn_skipn m l) at 2. rewrite count_company_app. lia.
Qed.

Lemma slice_to_length {A} (l : list A) k :
(0 <= k)%Z -> (Z.of_nat (List.length (slice_to l k)) <= k)%Z.
Proof.
intros Hk. unfold slice_to. destruct (Z.leb_spec 0 k); [|lia].
rewrite List.length_firstn. lia.
Qed.

Lemma zero_counts targets c :
default 0%Z
((list_to_map (map (fun company : string => (company, 0%Z)) targets)
: gmap string Z) !! c) = 0%Z.
Proof.
induction targets as [|t targets IH]; cbn [map list_to_map foldr fst snd].
- now rewrite lookup_empty.
- destruct (decide (c = t)) as [->|Hc].
+ now rewrite lookup_insert_eq.
+ now rewrite lookup_insert_ne by congruence.
Qed.

(** X7.  Whenever [_balance_results] returns, for any number of target
companies: it returns at most [top_k] chunks, each of them a candidate
of a target company, and of no company more than its share
[max(1, top_k // n)], plus one when [top_k % n] is not zero. *)
Theorem balance_results_bounds results targets top_k out :
_balance_results results targets top_k = Ok out ->
let n := Z.of_nat (List.length targets) in
let share :=
(Z.max 1 (top_k / n) + (if (0 <? top_k mod n)%Z then 1 else 0))%Z in
((0 <= top_k)%Z -> (Z.of_nat (List.length out) <= top_k)%Z)
/\ (forall r, In r out ->
 In r results
 /\ exists c, In c targets /\ Spec.from_company (lower c) r = true)
/\ (forall c, (Z.of_nat (Spec.count_company c out) <= share)%Z).
Proof.
intros Hout n share. revert Hout. unfold _balance_results.
destruct (foldM _ (map lower targets) ∅) as [d|e] eqn:Hd; [|discriminate].
cbn [bind mbind result_bind]. rewrite List.length_map.
destruct (Z.eqb_spec (Z.of_nat (List.length targets)) 0) as [H0|Hn];
[discriminate|].
fold n. intros [= <-].
assert (Hgrouped : Spec.grouped results d).
{ eapply groups_grouped; [|exact Hd]. intros c G. now rewrite lookup_empty. }
assert (Hrem : (0 <= top_k mod n)%Z) by (apply Z.mod_pos_bound; lia).
set (st0 := {| balanced_results := []; taken_count := _; remainder := _ |}).
assert (Hst0 : Spec.balance_inv results (map lower targets) share
                            (top_k mod n) st0).
{ unfold Spec.balance_inv, st0. cbn [balanced_results taken_count remainder].
repeat split.
- constructor.
- intros c. now rewrite zero_counts.
- intros c. rewrite zero_counts. unfold share.
destruct (0 <? top_k mod n)%Z; lia.
- fold n. lia. }
pose proof (rounds_keep results d (map lower targets) top_k
          (Z.max 1 (top_k / n)) (top_k mod n) share Hgrouped eq_refl
          (range (fold_left Nat.max
                    (map (fun c => List.length (default [] (d !! c)))
                         (map lower targets)) 0%nat))
          st0 Hst0) as (Hel & Hcount & Hcap & _).
fold n in Hel, Hcount, Hcap |- *.
set (st := balance_rounds _ _ _ _ _ _) in *.
destruct (slice_to_firstn (balanced_results st) top_k) as [m Hm].
split; [|split].
- intros Hk. now apply slice_to_length.
- intros r Hr. rewrite Hm in Hr. apply In_firstn in Hr.
destruct (proj1 (List.Forall_forall _ _) Hel r Hr) as (Hin & c & Hc & Hfrom).
split; [exact Hin|].
apply in_map_iff in Hc as (c0 & <- & Hc0). eauto.
- intros c. rewrite Hm.
pose proof (count_company_firstn c m (balanced_results st)).
specialize (Hcount c). specialize (Hcap c). lia.
Qed.
End BalanceBounds.

Lemma balance_results_bounds_witness :
exists out,
Qdrant._balance_results Samples.apple_microsoft_results
                        ["Apple"; "Microsoft"] 10 = Py.Ok out
/\ (Z.of_nat (List.length out) <= 10)%Z
/\ (forall c, (Z.of_nat (Spec.count_company c out) <= 5)%Z).
Proof.
destruct (balance_two_companies Samples.apple_microsoft_results
          "Apple" "Microsoft" 5) as (out & Hout & _).
- vm_compute. discriminate.
- repeat constructor; discriminate.
- lia.
- vm_compute. lia.
- vm_compute. lia.
- exists out. split; [exact Hout|].
destruct (balance_results_bounds _ _ _ _ Hout) as (Hlen & _ & Hcap).
split; [apply Hlen; lia|exact Hcap].
Defined.

Lemma firstn_snoc {A} (G : list A) i r :
nth_error G i = Some r -> firstn (S i) G = (firstn i G ++ [r])%list.
Proof.
revert G. induction i as [|i IH]; intros [|x G] Hn; cbn in Hn;
try discriminate.
- now injection Hn as ->.
- cbn [firstn]. rewrite (IH G Hn). reflexivity.
Qed.

Section OneSided.
Import Py Qdrant.
Variable d : gmap string (list chunk).
Variables l1 l2 : string.
Variable G1 : list chunk.
Variable k : nat.
Hypothesis Hne : l1 <> l2.
Hypothesis Hd1 : d !! l1 = Some G1.
Hypothesis Hd2 : d !! l2 = Some [].
Hypothesis Hk : (1 <= k)%nat.
Variables top_k per_company_k : Z.
Hypothesis Htop : top_k = (2 * Z.of_nat k)%Z.
Hypothesis Hper : per_company_k = Z.of_nat k.

Lemma one_sided_not_full i st :
Spec.one_sided G1 l1 k i st -> full top_k st = false.
Proof.
intros (Hb & _). unfold full. rewrite Hb, Htop, List.length_firstn.
apply Z.leb_gt. lia.
Qed.

Lemma take_nothing round st :
balance_take d per_company_k round l2 st = st.
Proof.
unfold balance_take. rewrite Hd2. cbn [default from_option].
now destruct round.
Qed.

Lemma one_sided_round i st :
(i < List.length G1)%nat ->
Spec.one_sided G1 l1 k i st ->
Spec.one_sided G1 l1 k (S i)
(balance_round d top_k per_company_k i [l1; l2] st).
Proof.
intros Hi Hst. cbn [balance_round].
rewrite (one_sided_not_full i st Hst).
destruct (nth_error G1 i) as [r|] eqn:Hn;
[|apply nth_error_None in Hn; lia].
destruct (Nat.lt_ge_cases i k) as [Hlt|Hge].
- destruct Hst as (Hb & Ht & Hr).
rewrite (take_ok d per_company_k i l1 st G1 r _ Hd1 Ht Hn)
by (rewrite Hper; lia).
set (st1 := {| balanced_results := _; taken_count := _; remainder := _ |}).
assert (H1 : Spec.one_sided G1 l1 k (S i) st1).
{ unfold Spec.one_sided, st1. cbn [balanced_results taken_count remainder].
rewrite Hb.
replace (Nat.min i k) with i by lia.
replace (Nat.min (S i) k) with (S i) by lia.
repeat split.
- symmetry. now apply firstn_snoc.
- rewrite lookup_insert_eq. f_equal. lia.
- exact Hr. }
rewrite (one_sided_not_full (S i) st1 H1).
now rewrite take_nothing.
- assert (Hsame : balance_take d per_company_k i l1 st = st).
{ destruct Hst as (Hb & Ht & Hr). unfold balance_take.
rewrite Hd1, Ht. cbn [default from_option]. unfold Datatypes.id.
rewrite Hn, Hr.
destruct (Z.ltb_spec (Z.of_nat (Nat.min i k)) per_company_k); [lia|].
reflexivity. }
rewrite Hsame, (one_sided_not_full i st Hst), take_nothing.
destruct Hst as (Hb & Ht & Hr). unfold Spec.one_sided.
replace (Nat.min (S i) k) with (Nat.min i k) by lia. auto.
Qed.

Lemma one_sided_rounds m :
forall i st,
(i + m <= List.length G1)%nat ->
Spec.one_sided G1 l1 k i st ->
Spec.one_sided G1 l1 k (i + m)
(balance_rounds d top_k per_company_k [l1; l2] (seq i m) st).
Proof.
induction m as [|m IH]; intros i st Him Hst; cbn [seq balance_rounds].
- now rewrite Nat.add_0_r.
- pose proof (one_sided_round i st ltac:(lia) Hst) as Hst'.
rewrite (one_sided_not_full (S i) _ Hst').
replace (i + S m)%nat with (S i + m)%nat by lia.
apply IH; [lia|exact Hst'].
Qed.
End OneSided.

Section Starvation.
Import Py Qdrant.

(** X8.  The share of a company without candidates is not given to the
others: for two companies and [top_k = 2k], when the second company has
no candidate the result is the [k] best chunks of the first, however
many candidates the first has. *)
Theorem balance_leaves_a_missing_share_empty results c1 c2 k :
lower c1 <> lower c2 ->
Forall Spec.has_company results ->
(1 <= k)%nat ->
Spec.count_company (lower c2) results = 0%nat ->
_balance_results results [c1; c2] (2 * Z.of_nat k)
= Ok (firstn k (sort_desc score
              (List.filter (Spec.from_company (lower c1)) results))).
Proof.
intros Hne Hall Hk H2.
unfold _balance_results. cbn [map]. rewrite (group_two _ _ _ Hall).
assert (Hnil : List.filter (Spec.from_company (lower c2)) results = []).
{ unfold Spec.count_company in H2.
destruct (List.filter _ results); [reflexivity|discriminate]. }
rewrite Hnil. cbn [sort_desc].
set (G1 := sort_desc score (List.filter (Spec.from_company (lower c1)) results)).
set (d := <[lower c2 := []]> (<[lower c1 := G1]> ∅)).
assert (Hd1 : d !! lower c1 = Some G1).
{ unfold d. rewrite lookup_insert_ne by (intros E; apply Hne; now symmetry).
apply lookup_insert_eq. }
assert (Hd2 : d !! lower c2 = Some []) by apply lookup_insert_eq.
change (Py.Ok d ≫= ?f) with (f d). cbv beta.
cbn [List.length]. change (Z.of_nat 2 =? 0)%Z with false. cbv iota.
change (Z.of_nat 2) with 2%Z.
assert (Hper : Z.max 1 (2 * Z.of_nat k / 2) = Z.of_nat k).
{ rewrite Z.mul_comm, Z.div_mul by lia. lia. }
assert (Hrem : ((2 * Z.of_nat k) mod 2 = 0)%Z).
{ rewrite Z.mul_comm. apply Z.mod_mul. lia. }
rewrite Hrem. cbn [map fold_left]. rewrite Hd1, Hd2.
cbn [default from_option List.length]. unfold Datatypes.id.
replace (Nat.max (Nat.max 0 (List.length G1)) (List.length (@nil chunk)))
with (List.length G1) by (cbn [List.length]; lia).
set (st0 := {| balanced_results := []; taken_count := _; remainder := 0 |}).
assert (H0 : Spec.one_sided G1 (lower c1) k 0 st0).
{ unfold Spec.one_sided, st0. cbn [balanced_results taken_count remainder].
repeat split. cbn [list_to_map foldr fst snd]. apply lookup_insert_eq. }
pose proof (one_sided_rounds d (lower c1) (lower c2) G1 k Hd1 Hd2 Hk
          (2 * Z.of_nat k) (Z.max 1 (2 * Z.of_nat k / 2)) eq_refl Hper
          (List.length G1) 0 st0 ltac:(lia) H0) as (Hb & _).
unfold range. cbn [Nat.add] in Hb. rewrite Hb.
f_equal. unfold slice_to.
destruct (Z.leb_spec 0 (2 * Z.of_nat k)); [|lia].
rewrite firstn_all2 by (rewrite List.length_firstn; lia).
destruct (Nat.le_ge_cases (List.length G1) k).
- replace (Nat.min (List.length G1) k) with (List.length G1) by lia.
rewrite firstn_all. symmetry. now apply firstn_all2.
- now replace (Nat.min (List.length G1) k) with k by lia.
Qed.
End Starvation.

Lemma balance_leaves_a_missing_share_empty_witness :
exists out,
Qdrant._balance_results Samples.apple_microsoft_results
                        ["Apple"; "Tesla"] 10 = Py.Ok out
/\ (List.length out <= 5)%nat.
Proof.
eexists. split.
- apply (balance_leaves_a_missing_share_empty
         Samples.apple_microsoft_results "Apple" "Tesla" 5).
+ vm_compute. discriminate.
+ repeat constructor; discriminate.
+ lia.
+ reflexivity.
- rewrite List.length_firstn. lia.
Defined.

Section SortedFacts.
Import Py.
Context {A : Type} (key : A -> R).

Lemma insert_desc_sorted x l :
StronglySorted (fun a b => key b <= key a)%R l ->
StronglySorted (fun a b => key b <= key a)%R (insert_desc key x l).
Proof.
induction 1 as [|y l Hl IH Hy]; cbn [insert_desc].
- repeat constructor.
- unfold Rltb. destruct (Rlt_dec (key x) (key y)) as [Hlt|Hge].
+ constructor; [exact IH|].
apply List.Forall_forall. intros z Hz.
apply (Permutation_in _ (insert_desc_perm key x l)) in Hz.
destruct Hz as [<-|Hz]; [lra|].
now apply (proj1 (List.Forall_forall _ _) Hy).
+ constructor; [now constructor|].
constructor; [lra|].
apply List.Forall_forall. intros z Hz.
pose proof (proj1 (List.Forall_forall _ _) Hy z Hz). lra.
Qed.

Lemma sort_desc_sorted l :
StronglySorted (fun a b => key b <= key a)%R (sort_desc key l).
Proof.
induction l as [|x l IH]; cbn [sort_desc]; [constructor|].
now apply insert_desc_sorted.
Qed.

Lemma firstn_sorted (R0 : A -> A -> Prop) m l :
StronglySorted R0 l -> StronglySorted R0 (firstn m l).
Proof.
intros H. revert m. induction H as [|x l Hl IH Hx]; intros [|m];
cbn [firstn]; try constructor.
- apply IH.
- apply List.Forall_forall. intros z Hz.
apply (proj1 (List.Forall_forall _ _) Hx).
rewrite <- (firstn_skipn m l). apply in_or_app. now left.
Qed.

Lemma slice_to_sorted (R0 : A -> A -> Prop) l k :
StronglySorted R0 l -> StronglySorted R0 (slice_to l k).
Proof.
intros H. destruct (slice_to_firstn l k) as [m ->]. now apply firstn_sorted.
Qed.

Lemma slice_to_nil k : slice_to (@nil A) k = [].
Proof. unfold slice_to. destruct (0 <=? k)%Z; apply firstn_nil. Qed.

Lemma slice_to_In (x : A) l k : In x (slice_to l k) -> In x l.
Proof.
destruct (slice_to_firstn l k) as [m ->]. apply In_firstn.
Qed.
End SortedFacts.

Section SingleCompany.
Import Py Qdrant.
Variable client_search :
list R -> Z -> query_filter -> result (list scored_point).
Variable phrase_order : list string.

Lemma filterM_In {A} (p : A -> result bool) l out x :
filterM p l = Ok out -> In x out -> In x l.
Proof.
revert out. induction l as [|y l IH]; intros out; cbn [filterM].
- intros [= <-] [].
- destruct (p y) as [b|e]; [|discriminate]. cbn [bind].
destruct (filterM p l) as [ys|e]; [|discriminate]. cbn [bind].
intros [= <-]. destruct b.
+ intros [<-|Hx]; [now left|right; now apply (IH ys)].
+ intros Hx. right. now apply (IH ys).
Qed.

(** [search] for no company or a single one. *)
Lemma search_single qv user top_k f qf :
truthy_str user = true ->
_build_query_filter user f = Ok qf ->
(List.length (target_companies_of f) <= 1)%nat ->
exists rs,
search client_search qv (Some user) top_k f
= ([EvVectorSearch user top_k],
 Ok (slice_to (sort_desc score rs) top_k))
/\ (forall c, In c rs ->
          exists pts p,
            client_search qv top_k qf = Ok pts
            /\ In p pts /\ c = chunk_of_point p).
Proof.
intros Hu Hqf Hsingle. unfold search.
cbn [truthy_opt default from_option]. unfold Datatypes.id.
rewrite Hu. cbn [negb]. rewrite Hqf, bind_lift_ok.
destruct (Nat.ltb_spec 1 (List.length (target_companies_of f))); [lia|].
destruct (client_search qv top_k qf) as [pts|e] eqn:Hc.
- rewrite bind_call_ok.
destruct (truthy_opt truthy_list (f_companies f)).
+ destruct (filterM _ (map chunk_of_point pts)) as [rs|e] eqn:Hf.
* rewrite bind_lift_ok. exists rs. split; [reflexivity|].
  intros c Hin. apply (filterM_In _ _ _ _ Hf) in Hin.
  apply in_map_iff in Hin as (p & <- & Hp). eauto.
* exists []. cbn [sort_desc]. rewrite slice_to_nil.
  split; [reflexivity|]. intros c [].
+ rewrite bind_ret. exists (map chunk_of_point pts). split; [reflexivity|].
intros c Hin. apply in_map_iff in Hin as (p & <- & Hp). eauto.
- exists []. cbn [sort_desc]. rewrite slice_to_nil.
split; [reflexivity|]. intros c [].
Qed.

(** X9.  A [search] for no company or a single one queries the index
for [top_k] points and returns at most [top_k] of the points it got, in
descending order of score. *)
Theorem search_single_company_is_ranked qv user top_k f :
truthy_str user = true ->
(forall y, f_year_range f <> Some [y]) ->
(List.length (target_companies_of f) <= 1)%nat ->
exists out,
search client_search qv (Some user) top_k f
= ([EvVectorSearch user top_k], Ok out)
/\ StronglySorted (fun a b => score b <= score a)%R out
/\ ((0 <= top_k)%Z -> (Z.of_nat (List.length out) <= top_k)%Z)
/\ (forall c, In c out ->
          exists qf pts p,
            client_search qv top_k qf = Ok pts
            /\ In p pts /\ c = chunk_of_point p).
Proof.
intros Hu Hyr Hsingle.
destruct (_build_query_filter user f) as [qf|e] eqn:Hqf.
- destruct (search_single qv user top_k f qf Hu Hqf Hsingle)
as (rs & Hs & Hrs).
eexists. split; [exact Hs|]. split; [|split].
+ apply slice_to_sorted, sort_desc_sorted.
+ apply slice_to_length.
+ intros c Hc. apply slice_to_In in Hc.
apply (proj1 (sort_desc_In score c rs)) in Hc.
destruct (Hrs c Hc) as (pts & p & H). eauto.
- destruct (filter_fails _ _ _ Hqf) as (_ & y & Hy). now destruct (Hyr y).
Qed.
End SingleCompany.

Lemma search_single_company_is_ranked_witness :
exists out,
Qdrant.search Samples.comparison_index [] (Some "u") 3 Samples.no_filters
= ([Py.EvVectorSearch "u" 3], Py.Ok out)
/\ (Z.of_nat (List.length out) <= 3)%Z.
Proof.
destruct (search_single_company_is_ranked Samples.comparison_index [] "u" 3
          Samples.no_filters eq_refl) as (out & Hs & _ & Hlen & _).
- intros y. discriminate.
- cbn. lia.
- exists out. split; [exact Hs|]. apply Hlen. lia.
Defined.

Section HybridScores.
Import Py Qdrant.
Variable client_search :
list R -> Z -> query_filter -> result (list scored_point).
Variable phrase_order : list string.

Lemma relevance_bounds query content use_phrases :
(0 <= KeywordSearch.calculate_keyword_relevance phrase_order query content
    use_phrases <= 1)%R.
Proof.
destruct (KeywordSearch.tokenize phrase_order query) as [|t ts] eqn:Hq.
- unfold KeywordSearch.calculate_keyword_relevance. rewrite Hq. cbn. lra.
- assert (Hne : KeywordSearch.tokenize phrase_order query <> [])
by (rewrite Hq; discriminate).
destruct (relevance_with_tokens phrase_order query content use_phrases Hne)
as (_ & _ & Hs). lra.
Qed.

Lemma normalize_semantic_bounds s :
(-1 <= s <= 1)%R -> (0 <= normalize_semantic s <= 1)%R.
Proof.
intros Hs. unfold normalize_semantic, Rltb.
destruct (Rlt_dec s 0); [|lra].
unfold Rmax, Rmin.
destruct (Rle_dec 1.0 ((s + 1) / 2)), (Rle_dec 0.0 _); lra.
Qed.

Lemma mapM_total {A B} (f : A -> result B) (P : A -> B -> Prop) l :
(forall x, In x l -> exists y, f x = Ok y /\ P x y) ->
exists ys, mapM f l = Ok ys /\ Forall2 P l ys.
Proof.
induction l as [|x l IH]; intros H; cbn [mapM].
- exists []. split; [reflexivity|constructor].
- destruct (H x (or_introl eq_refl)) as (y & Hy & HP).
destruct (IH (fun z Hz => H z (or_intror Hz))) as (ys & Hys & HPs).
rewrite Hy, Hys. exists (y :: ys). split; [reflexivity|now constructor].
Qed.

Lemma Forall2_right {A B} (P : A -> B -> Prop) (Q : B -> Prop) l ys :
Forall2 P l ys -> (forall x y, In x l -> P x y -> Q y) -> Forall Q ys.
Proof.
induction 1 as [|x y l ys HP _ IH]; intros H; constructor.
- apply (H x y); [now left|exact HP].
- apply IH. intros x' y' Hx'. apply H. now right.
Qed.

(** X10.  A [hybrid_search] for no company or a single one, with a
weight [alpha] in [[0, 1]] over an index whose points have a text and a
similarity in [[-1, 1]]: every chunk returned carries a semantic and a
keyword score in [[0, 1]], its score is their weighted sum, in [[0, 1]]
too, and the chunks come in descending order of that score, at most
[top_k] of them. *)
Theorem hybrid_single_company_scores qv query_text user top_k alpha f :
truthy_str user = true ->
truthy_str query_text = true ->
(forall y, f_year_range f <> Some [y]) ->
(List.length (target_companies_of f) <= 1)%nat ->
(0 <= alpha <= 1)%R ->
(forall qf pts,
 client_search qv top_k qf = Ok pts ->
 Forall (fun p => payload_content p <> None
                /\ (-1 <= point_score p <= 1)%R) pts) ->
exists out,
hybrid_search client_search phrase_order qv query_text (Some user) top_k
            alpha f
= ([EvVectorSearch user top_k], Ok out)
/\ StronglySorted (fun a b => score b <= score a)%R out
/\ ((0 <= top_k)%Z -> (Z.of_nat (List.length out) <= top_k)%Z)
/\ Forall (fun c =>
         exists s kw,
           semantic_score c = Some s /\ keyword_score c = Some kw
           /\ score c = (alpha * s + (1 - alpha) * kw)%R
           /\ (0 <= s <= 1)%R /\ (0 <= kw <= 1)%R
           /\ (0 <= score c <= 1)%R) out.
Proof.
intros Hu Hq Hyr Hsingle Halpha Hpts.
destruct (_build_query_filter user (without_chunk_filters f)) as [qf|e]
eqn:Hqf;
[|destruct (filter_fails _ _ _ Hqf) as (_ & y & Hy); now destruct (Hyr y)].
destruct (search_single client_search qv user top_k (without_chunk_filters f)
                    qf Hu Hqf Hsingle) as (rs & Hs & Hrs).
set (semantic := slice_to (sort_desc score rs) top_k) in *.
set (good := fun c : chunk =>
           exists s kw,
             semantic_score c = Some s /\ keyword_score c = Some kw
             /\ score c = (alpha * s + (1 - alpha) * kw)%R
             /\ (0 <= s <= 1)%R /\ (0 <= kw <= 1)%R
             /\ (0 <= score c <= 1)%R).
destruct (mapM_total
        (fun chunk =>
           keyword_score ← keyword_relevance phrase_order query_text chunk;
           Ok (set_hybrid
                 (alpha * normalize_semantic (score chunk)
                  + (1 - alpha) * keyword_score)%R
                 (normalize_semantic (score chunk)) keyword_score chunk))
        (fun _ y => good y) semantic) as (scored & Hscored & Hgood).
{ intros x Hx. apply slice_to_In in Hx.
apply (proj1 (sort_desc_In score x rs)) in Hx.
destruct (Hrs x Hx) as (pts & p & Hc & Hp & ->).
destruct (proj1 (List.Forall_forall _ _) (Hpts qf pts Hc) p Hp)
as (Hcontent & Hscore).
unfold keyword_relevance. cbn [content chunk_of_point score].
destruct (payload_content p) as [text|]; [|contradiction].
eexists. split; [reflexivity|].
pose proof (relevance_bounds query_text text true) as Hkw.
pose proof (normalize_semantic_bounds (point_score p) Hscore) as Hsem.
unfold good. cbn [semantic_score keyword_score score set_hybrid].
eexists _, _. repeat split; try reflexivity; try lra; nra. }
exists (slice_to (sort_desc score scored) top_k).
split; [|split; [|split]].
- unfold hybrid_search.
cbn [truthy_opt default from_option]. rewrite Hu, Hq. cbn [negb].
destruct (Nat.ltb_spec 1 (List.length (target_companies_of f))); [lia|].
rewrite Hs, bind_trace. fold semantic.
rewrite Hscored, bind_lift_ok. reflexivity.
- apply slice_to_sorted, sort_desc_sorted.
- apply slice_to_length.
- apply List.Forall_forall. intros c Hc. apply slice_to_In in Hc.
apply (proj1 (sort_desc_In score c scored)) in Hc.
assert (Hall : Forall good scored).
{ eapply Forall2_right; [exact Hgood|]. auto. }
now apply (proj1 (List.Forall_forall _ _) Hall).
Qed.
End HybridScores.

Lemma hybrid_single_company_scores_witness :
exists out,
Qdrant.hybrid_search Samples.comparison_index KeywordSearch.financial_phrases
  [] "revenue" (Some "u") 3 0.7%R Samples.no_filters
= ([Py.EvVectorSearch "u" 3], Py.Ok out)
/\ Forall (fun c => (0 <= Qdrant.score c <= 1)%R) out.
Proof.
destruct (hybrid_single_company_scores Samples.comparison_index
          KeywordSearch.financial_phrases [] "revenue" "u" 3 0.7%R
          Samples.no_filters eq_refl eq_refl)
as (out & Hs & _ & _ & Hall).
- intros y. discriminate.
- cbn. lia.
- lra.
- intros qf pts [= <-].
repeat constructor; try discriminate; cbn; lra.
- exists out. split; [exact Hs|].
apply List.Forall_forall. intros c Hc.
destruct (proj1 (List.Forall_forall _ _) Hall c Hc)
  as (s & kw & _ & _ & _ & _ & _ & H). exact H.
Defined.

Section RerankOrder.
Import Py Qdrant Retriever.
Variable phrase_order : list string.

(** X11.  Without a cross-encoder, [_rerank] on chunks that have a text
only reorders them: every chunk gets
[rerank_score = 0.6 * normalized score + 0.4 * keyword score] and keeps
its other fields, none is dropped or added, and the result is in
descending order of [rerank_score]. *)
Theorem rerank_with_keywords_reorders results query_text :
Forall Spec.has_content results ->
exists scored out,
_rerank phrase_order None results query_text = Ok out
/\ Forall2 (fun r r' =>
           exists text kw,
             content r = Some text
             /\ kw = KeywordSearch.calculate_keyword_relevance
                       phrase_order query_text text true
             /\ r' = set_rerank
                       (0.6 * normalize_semantic (score r) + 0.4 * kw)%R
                       (Some kw) r)
        results scored
/\ Permutation out scored
/\ StronglySorted
 (fun a b => default 0 (rerank_score b) <= default 0 (rerank_score a))%R
 out.
Proof.
intros Hall.
destruct (mapM_total
        (fun result =>
           keyword_score ← keyword_relevance phrase_order query_text result;
           Ok (set_rerank
                 (0.6 * normalize_semantic (score result)
                  + 0.4 * keyword_score)%R
                 (Some keyword_score) result))
        (fun r r' =>
           exists text kw,
             content r = Some text
             /\ kw = KeywordSearch.calculate_keyword_relevance
                       phrase_order query_text text true
             /\ r' = set_rerank
                       (0.6 * normalize_semantic (score r) + 0.4 * kw)%R
                       (Some kw) r)
        results) as (scored & Hscored & Hrel).
{ intros x Hx.
pose proof (proj1 (List.Forall_forall _ _) Hall x Hx) as Hc.
unfold keyword_relevance. unfold Spec.has_content in Hc.
destruct (content x) as [text|]; [|contradiction].
eexists. split; [reflexivity|]. eauto. }
destruct results as [|r results].
- exists [], []. cbn in Hscored. injection Hscored as <-.
split; [reflexivity|]. split; [constructor|]. split; constructor.
- exists scored,
     (sort_desc (fun x => default 0%R (rerank_score x)) scored).
split.
+ unfold _rerank. cbn [truthy_list negb]. unfold _rerank_with_keywords.
cbv zeta. rewrite Hscored. reflexivity.
+ split; [exact Hrel|]. split.
* apply sort_desc_perm.
* apply (sort_desc_sorted (fun x => default 0%R (rerank_score x))).
Qed.
End RerankOrder.

Lemma rerank_with_keywords_reorders_witness :
exists out,
Retriever._rerank KeywordSearch.financial_phrases None
  Samples.apple_microsoft_results "revenue" = Py.Ok out
/\ List.length out = 11%nat.
Proof.
destruct (rerank_with_keywords_reorders KeywordSearch.financial_phrases
          Samples.apple_microsoft_results "revenue")
as (scored & out & Hout & Hrel & Hperm & _).
- repeat constructor; discriminate.
- exists out. split; [exact Hout|].
rewrite (Permutation_length Hperm).
apply Forall2_length in Hrel. now rewrite <- Hrel.
Defined.

Section CallBudget.
Import Py Qdrant Retriever.
Variable config : settings.
Variable client_search :
list R -> Z -> query_filter -> result (list scored_point).
Variable paq : string -> result QueryProcessor.llm_result.
Variable embed : string -> result (list R).
Variable phrase_order : list string.
Variable cross_encoder : option (string -> option string -> R).

(** The calls of [process_query]: the language model when [expand] is
set, then the embedder. *)
Lemma process_query_trace query company year (expand : bool) :
exists (qt : string) (rest : list event),
((if expand then [EvLLM query] else []) ++ [EvEmbed qt])%list
= (fst (QueryProcessor.process_query paq embed query company year expand)
 ++ rest)%list
/\ (expand = false -> qt = query)
/\ (forall p,
  snd (QueryProcessor.process_query paq embed query company year expand)
  = Ok p ->
  rest = [] /\ QueryProcessor.query_text p = qt).
Proof.
unfold QueryProcessor.process_query. destruct expand.
- destruct (paq query) as [r|e] eqn:Hr.
+ rewrite bind_call_ok.
destruct (QueryProcessor.llm_companies r) as [cs|].
* rewrite bind_lift_ok.
  destruct (QueryProcessor.expand_years _ _ _) as [[y yr]|e].
  -- rewrite bind_lift_ok.
     exists (default query (QueryProcessor.llm_augmented_query r)), [].
     cbn.
     match goal with |- context [embed ?x] => destruct (embed x) end;
       cbn; (split; [reflexivity|]); (split; [discriminate|]);
       intros p [= <-]; split; reflexivity.
  -- exists query, [EvEmbed query]. cbn.
     split; [reflexivity|]. split; [discriminate|]. discriminate.
* exists query, [EvEmbed query]. cbn.
  split; [reflexivity|]. split; [discriminate|]. discriminate.
+ exists query, [EvEmbed query]. cbn.
split; [reflexivity|]. split; [discriminate|]. discriminate.
- rewrite bind_ret. exists query, []. cbn.
destruct (embed query) as [v|e]; cbn;
(split; [reflexivity|]); (split; [reflexivity|]);
intros p [= <-]; split; reflexivity.
Qed.

Lemma search_trace qv user top_k f :
truthy_str user = true ->
(exists e, search client_search qv (Some user) top_k f = ([], Raise e))
\/ (exists out,
   search client_search qv (Some user) top_k f
   = ([EvVectorSearch user
         (if (1 <? List.length (target_companies_of f))%nat
          then (top_k * 3)%Z else top_k)], Ok out)).
Proof.
intros Hu.
destruct (_build_query_filter user f) as [qf|e] eqn:Hqf.
- right. destruct (search_shape client_search qv user top_k f qf Hu Hqf)
  as (out & Hs & _). eauto.
- left. exists e. unfold search.
cbn [truthy_opt default from_option]. unfold Datatypes.id.
rewrite Hu. cbn [negb]. rewrite Hqf. reflexivity.
Qed.

Lemma hybrid_trace qv query_text user top_k alpha f :
truthy_str user = true ->
(exists e,
 hybrid_search client_search phrase_order qv query_text (Some user) top_k
             alpha f = ([], Raise e))
\/ (exists r,
   hybrid_search client_search phrase_order qv query_text (Some user) top_k
                 alpha f
   = ([EvVectorSearch user
         (if (1 <? List.length (target_companies_of f))%nat
          then (top_k * 3 * 3)%Z else top_k)], r)).
Proof.
intros Hu. unfold hybrid_search.
cbn [truthy_opt default from_option]. rewrite Hu. cbn [negb].
set (multi := (1 <? List.length (target_companies_of f))%nat).
destruct (search_trace qv user (if multi then (top_k * 3)%Z else top_k)
                   (without_chunk_filters f) Hu) as [[e He]|[out Hout]].
- left. exists e. now rewrite He.
- right. rewrite Hout, bind_trace.
change (target_companies_of (without_chunk_filters f))
with (target_companies_of f). fold multi.
replace (if multi then ((if multi then top_k * 3 else top_k) * 3)%Z
       else if multi then (top_k * 3)%Z else top_k)
with (if multi then (top_k * 3 * 3)%Z else top_k)
by now destruct multi.
destruct (negb (truthy_str query_text)); [eexists; reflexivity|].
destruct (mapM _ out) as [scored|e]; [|eexists; reflexivity].
rewrite bind_lift_ok. destruct multi.
+ destruct (_normalize_scores_per_company _ _) as [ns|e];
  [|eexists; reflexivity].
rewrite bind_lift_ok.
destruct (_balance_results ns (target_companies_of f) top_k) as [b|e];
  eexists; reflexivity.
+ eexists. reflexivity.
Qed.

(** X12.  The external calls of [retrieve], for any arguments and any
behaviour of the outside: the language model once at most, and only when
[expand_query] is set; then the embedder once at most; then the index
once at most, for this user and for [TOP_K_INITIAL] points, or 3 or 9
times as many.  A retrieval that returns has made all of them, and
returns at most [top_k] chunks. *)
Theorem retrieve_call_budget query user top_k company companies year
    year_range use_hybrid (expand_query : bool) rf :
truthy_str user = true ->
let run :=
retrieve config client_search paq embed phrase_order cross_encoder
       query (Some user) top_k company companies year year_range
       use_hybrid expand_query rf in
exists (qt : string) (limit : Z) (rest : list event),
((if expand_query then [EvLLM query] else [])
 ++ [EvEmbed qt; EvVectorSearch user limit])%list
= (fst run ++ rest)%list
/\ (expand_query = false -> qt = query)
/\ (limit = TOP_K_INITIAL config
 \/ limit = (TOP_K_INITIAL config * 3)%Z
 \/ limit = (TOP_K_INITIAL config * 3 * 3)%Z)
/\ (forall out,
  snd run = Ok out ->
  rest = []
  /\ ((0 <= default (TOP_K_FINAL config) top_k)%Z ->
     (Z.of_nat (List.length out) <= default (TOP_K_FINAL config) top_k)%Z)).
Proof.
intros Hu run. subst run. unfold retrieve.
cbn [truthy_opt]. rewrite Hu. cbn [negb].
destruct (process_query_trace query company year expand_query)
as (qt & rest1 & Htrace & Hqt & Hok).
set (pre := if expand_query then [EvLLM query] else []) in *.
destruct (QueryProcessor.process_query paq embed query company year
                                   expand_query) as [t1 [p|e]].
- destruct (Hok p eq_refl) as [-> Hp]. cbn [fst] in Htrace.
rewrite app_nil_r in Htrace. subst t1.
rewrite bind_trace.
destruct (if truthy_opt truthy_list year_range then _ else _)
as [final_year_range year_filter].
match goal with
| |- context [fst (?m ≫= ?k)] => set (m0 := m); set (k0 := k)
end.
assert (Hm : (exists e, m0 = ([], Raise e))
           \/ exists limit r,
               m0 = ([EvVectorSearch user limit], r)
               /\ (limit = TOP_K_INITIAL config
                   \/ limit = (TOP_K_INITIAL config * 3)%Z
                   \/ limit = (TOP_K_INITIAL config * 3 * 3)%Z)).
{ subst m0. destruct use_hybrid.
- match goal with
  | |- context [hybrid_search _ _ ?qv ?q _ ?k ?a ?f] =>
      destruct (hybrid_trace qv q user k a f Hu) as [[e He]|[r Hr]]
  end.
  + left. eauto.
  + right. eexists _, r. split; [exact Hr|].
    destruct (1 <? _)%nat; auto.
- match goal with
  | |- context [search _ ?qv _ ?k ?f] =>
      destruct (search_trace qv user k f Hu) as [[e He]|[r Hr]]
  end.
  + left. eauto.
  + right. eexists _, (Ok r). split; [exact Hr|].
    destruct (1 <? _)%nat; auto. }
clearbody m0.
destruct Hm as [[e ->]|(limit & r & -> & Hlimit)].
+ exists qt, (TOP_K_INITIAL config),
       [EvVectorSearch user (TOP_K_INITIAL config)].
cbn. split; [now rewrite <- !app_assoc|].
split; [exact Hqt|]. split; [auto|]. discriminate.
+ exists qt, limit, []. destruct r as [rs|e].
* rewrite bind_trace. subst k0. cbv beta.
  destruct (_rerank phrase_order cross_encoder rs
                    (QueryProcessor.query_text p)) as [rr|e].
  -- rewrite bind_lift_ok. cbn.
     split; [now rewrite <- !app_assoc, !app_nil_r|].
     split; [exact Hqt|]. split; [exact Hlimit|].
     intros out [= <-]. split; [reflexivity|]. apply slice_to_length.
  -- cbn. split; [now rewrite <- !app_assoc, !app_nil_r|].
     split; [exact Hqt|]. split; [exact Hlimit|]. discriminate.
* cbn. split; [now rewrite <- !app_assoc, !app_nil_r|].
  split; [exact Hqt|]. split; [exact Hlimit|]. discriminate.
- cbn [fst] in Htrace. cbn.
exists qt, (TOP_K_INITIAL config),
     (rest1 ++ [EvVectorSearch user (TOP_K_INITIAL config)])%list.
split.
+ rewrite app_assoc, <- Htrace. now rewrite <- !app_assoc.
+ split; [exact Hqt|]. split; [auto|]. discriminate.
Qed.
End CallBudget.

Lemma retrieve_call_budget_witness :
exists qt limit rest,
([Py.EvEmbed qt; Py.EvVectorSearch "u" limit]
 = fst (Samples.comparison_retrieve 2) ++ rest)%list
/\ qt = "revenue".
Proof.
destruct (retrieve_call_budget Retriever.default_settings
          Samples.comparison_index Samples.no_llm Samples.no_embedding
          KeywordSearch.financial_phrases None "revenue" "u" (Some 2%Z) None
          (Some ["apple"; "microsoft"]) None None true false
          Retriever.no_retrieve_filters eq_refl)
as (qt & limit & rest & Htrace & Hqt & _).
exists qt, limit, rest. split; [exact Htrace|]. now apply Hqt.
Defined.

Section KeywordCase.
Import Py KeywordSearch.
Variable phrase_order : list string.

Lemma lower_char_idem c : lower_char (lower_char c) = lower_char c.
Proof. destruct c as [[] [] [] [] [] [] [] []]; reflexivity. Qed.

Lemma lower_idem s : lower (lower s) = lower s.
Proof.
induction s as [|c s IH]; cbn [lower]; [reflexivity|].
now rewrite lower_char_idem, IH.
Qed.

(** X13.  The keyword score does not see the case of the query or of
the document. *)
Theorem keyword_relevance_ignores_case query content use_phrases :
calculate_keyword_relevance phrase_order query content use_phrases
= calculate_keyword_relevance phrase_order (lower query) (lower content)
                          use_phrases.
Proof.
unfold calculate_keyword_relevance, extract_phrases, tokenize.
now rewrite !lower_idem.
Qed.
End KeywordCase.

Section KeywordHalf.
Import Py KeywordSearch.
Variable phrase_order : list string.

Lemma mem_true_In x l : mem x l = true <-> In x l.
Proof.
unfold mem. rewrite existsb_exists. split.
- intros (y & Hy & He). apply String.eqb_eq in He. now subst.
- intros H. exists x. split; [exact H|apply String.eqb_refl].
Qed.

Lemma first_occurrences_In t l :
forall seen, In t (first_occurrences seen l) <-> In t l /\ ~ In t seen.
Proof.
induction l as [|x l IH]; intros seen; cbn [first_occurrences].
- cbn. tauto.
- destruct (mem x seen) eqn:Hm.
+ apply mem_true_In in Hm. rewrite IH. cbn. split.
* intros [H1 H2]. auto.
* intros [[->|H1] H2]; [contradiction|auto].
+ assert (Hx : ~ In x seen).
{ intros H. apply mem_true_In in H. congruence. }
cbn [In]. rewrite IH. cbn [In]. split.
* intros [<-|[H1 H2]]; [auto|]. split; [auto|]. intros H. apply H2. auto.
* intros [[->|H1] H2]; [auto|].
  destruct (String.eqb_spec x t) as [->|Hne]; [auto|].
  right. split; [exact H1|]. intros [H|H]; auto.
Qed.

Lemma count_token_zero t l : count_token t l = 0%nat <-> ~ In t l.
Proof.
unfold count_token. induction l as [|x l IH]; cbn [List.filter].
- cbn. tauto.
- destruct (String.eqb_spec t x) as [->|Hne]; cbn [List.length In].
+ split; [discriminate|]. intros H. exfalso. apply H. now left.
+ rewrite IH. split.
* intros H [E|E]; [congruence|contradiction].
* intros H E. apply H. now right.
Qed.

Lemma bm25_term_pos term tf doc_length :
(0 < tf)%nat ->
(0 < bm25_term term tf doc_length None None 100.0 1.5 0.75)%R.
Proof.
intros Htf. unfold bm25_term, idf. cbn.
pose proof ln10_pos. pose proof (term_boost_pos term).
assert (0 < INR tf)%R by now apply lt_0_INR.
pose proof (pos_INR doc_length).
apply Rmult_lt_0_compat.
- apply Rmult_lt_0_compat;
[apply Rmult_lt_0_compat; [apply Rmult_lt_0_compat|]|]; lra.
- apply Rinv_0_lt_compat.
assert (0 <= INR doc_length / 100.0)%R.
{ apply Rmult_le_pos; [assumption|]. apply Rlt_le, Rinv_0_lt_compat. lra. }
nra.
Qed.

(** The sum of [calculate_bm25_score] over the query terms [l]. *)
Lemma bm25_fold ct l :
forall acc,
(acc <= fold_left
        (fun (score : R) term =>
           if (count_token term ct =? 0)%nat then score
           else (score + bm25_term term (count_token term ct) (List.length ct) None None
                                  100.0 1.5 0.75)%R)
        l acc)%R
/\ ((forall t, In t l -> ~ In t ct) ->
fold_left
  (fun (score : R) term =>
     if (count_token term ct =? 0)%nat then score
     else (score + bm25_term term (count_token term ct) (List.length ct) None None
                            100.0 1.5 0.75)%R)
  l acc = acc)
/\ ((exists t, In t l /\ In t ct) ->
(acc < fold_left
         (fun (score : R) term =>
            if (count_token term ct =? 0)%nat then score
            else (score + bm25_term term (count_token term ct) (List.length ct) None None
                                   100.0 1.5 0.75)%R)
         l acc)%R).
Proof.
induction l as [|x l IH]; intros acc; cbn [fold_left].
- split; [lra|]. split; [reflexivity|]. intros (t & [] & _).
- destruct (Nat.eqb_spec (count_token x ct) 0) as [H0|Hpos].
+ destruct (IH acc) as (Hle & Heq & Hlt). split; [exact Hle|]. split.
* intros Hno. apply Heq. intros t Ht. apply Hno. now right.
* intros (t & [->|Ht] & Hc).
  -- apply count_token_zero in H0. contradiction.
  -- apply Hlt. eauto.
+ pose proof (bm25_term_pos x (count_token x ct) (List.length ct)
                          ltac:(lia)) as Hterm.
destruct (IH (acc + bm25_term x (count_token x ct) (List.length ct)
                              None None 100.0 1.5 0.75)%R)
  as (Hle & _ & _).
split; [lra|]. split.
* intros Hno. exfalso. apply (Hno x); [now left|].
  destruct (count_token_zero x ct) as [_ Hz].
  destruct (in_dec string_dec x ct) as [Hin|Hnin]; [exact Hin|].
  specialize (Hz Hnin). contradiction.
* intros _. lra.
Qed.

Lemma bm25_shared qt ct :
((forall t, In t qt -> ~ In t ct) ->
 calculate_bm25_score qt ct None None 100.0 1.5 0.75 = 0%R)
/\ ((exists t, In t qt /\ In t ct) ->
(0 < calculate_bm25_score qt ct None None 100.0 1.5 0.75)%R).
Proof.
unfold calculate_bm25_score.
destruct (negb (truthy_list qt) || negb (truthy_list ct)) eqn:Hemp.
- split; [intros _; lra|]. intros (t & Hq & Hc).
destruct qt; [contradiction|]. destruct ct; [contradiction|]. discriminate.
- cbv zeta.
destruct (bm25_fold ct (first_occurrences [] qt) 0.0%R) as (_ & Heq & Hlt).
split.
+ intros Hno. rewrite Heq; [lra|].
intros t Ht. apply first_occurrences_In in Ht as [Ht _]. now apply Hno.
+ intros (t & Hq & Hc). 
assert (0.0 < fold_left
          (fun (score : R) term =>
             if (count_token term ct =? 0)%nat then score
             else (score + bm25_term term (count_token term ct) (List.length ct) None None
                                    100.0 1.5 0.75)%R)
          (first_occurrences [] qt) 0.0)%R; [|lra].
apply Hlt. exists t. split; [|exact Hc].
apply first_occurrences_In. split; [exact Hq|intros []].
Qed.

Lemma sigmoid_above_half x :
(0 < x)%R -> (0.5 < 1.0 / (1.0 + exp (- x / 10.0)))%R.
Proof.
intros Hx.
assert (He : (exp (- x / 10.0) < 1)%R).
{ rewrite <- exp_0. apply exp_increasing. lra. }
pose proof (exp_pos (- x / 10.0)) as Hp.
apply Rmult_lt_reg_r with (1.0 + exp (- x / 10.0))%R; [lra|].
unfold Rdiv. rewrite Rmult_assoc, Rinv_l by lra. lra.
Qed.

Lemma no_bonus content_lower phrases :
(forall p, In p phrases -> contains p content_lower = false) ->
forall acc,
fold_left (fun bonus phrase =>
           (bonus + phrase_bonus_of content_lower phrase)%R)
        phrases acc = acc.
Proof.
induction phrases as [|p phrases IH]; intros H acc; cbn [fold_left];
[reflexivity|].
rewrite IH by (intros q Hq; apply H; now right).
unfold phrase_bonus_of. rewrite (H p) by now left. lra.
Qed.

(** X14.  A document that shares a token with the query scores more
than [0.5].  A document that shares no token with a query that has
tokens, and contains none of the phrases of the query, scores exactly
[0.5]: that is the score of an unrelated document. *)
Theorem keyword_relevance_one_half query content use_phrases :
let query_tokens := tokenize phrase_order query in
let content_tokens := tokenize phrase_order content in
let score :=
calculate_keyword_relevance phrase_order query content use_phrases in
((exists t, In t query_tokens /\ In t content_tokens) -> (0.5 < score)%R)
/\ (query_tokens <> [] ->
(forall t, In t query_tokens -> ~ In t content_tokens) ->
(forall p, In p (extract_phrases phrase_order query 2 3) ->
           contains p (lower content) = false) ->
score = 0.5%R).
Proof.
intros qt ct score. subst score.
destruct (bm25_shared qt ct) as [Hzero Hpos].
split.
- intros Hshare.
assert (Hne : qt <> []).
{ destruct Hshare as (t & Ht & _). intros E. rewrite E in Ht. contradiction. }
destruct (relevance_with_tokens phrase_order query content use_phrases Hne)
as (_ & Hge & _).
fold qt ct in Hge.
pose proof (sigmoid_above_half _ (Hpos Hshare)). lra.
- intros Hne Hno Hphr.
unfold calculate_keyword_relevance. fold qt ct.
destruct qt as [|t ts] eqn:Hq; [contradiction|].
cbn [truthy_list negb]. rewrite <- Hq in *.
rewrite (Hzero Hno).
replace (- 0 / 10.0)%R with 0%R by lra. rewrite exp_0.
assert (Hb : (if use_phrases
            then fold_left
                   (fun bonus phrase =>
                      bonus + phrase_bonus_of (lower content) phrase)
                   (extract_phrases phrase_order query 2 3) 0.0
            else 0.0)%R = 0.0%R).
{ destruct use_phrases; [|reflexivity]. now apply no_bonus. }
rewrite Hb. unfold Rmin.
destruct (Rle_dec 1.0 (1.0 / (1.0 + 1) + 0.0)); lra.
Qed.
End KeywordHalf.

Lemma keyword_relevance_one_half_witness :
KeywordSearch.calculate_keyword_relevance KeywordSearch.financial_phrases
  "revenue" "Microsoft Azure" true = 0.5%R.
Proof.
apply (keyword_relevance_one_half KeywordSearch.financial_phrases
       "revenue" "Microsoft Azure" true).
- vm_compute. discriminate.
- intros t Ht Hc. vm_compute in Ht, Hc.
destruct Ht as [<-|[]]. destruct Hc as [Hc|[Hc|[]]]; discriminate.
- intros p Hp. vm_compute in Hp. destruct Hp.
Defined.

Section PhraseFacts.
Import Py KeywordSearch.
Variable phrase_order : list string.

Lemma add_new_phrase p phrases :
List.NoDup phrases ->
List.NoDup (if mem p phrases then phrases else (phrases ++ [p])%list).
Proof.
intros H. destruct (mem p phrases) eqn:Hm; [exact H|].
assert (Hp : ~ In p phrases).
{ intros Hin. apply mem_true_In in Hin. congruence. }
apply NoDup_ListNoDup, NoDup_app. split; [now apply NoDup_ListNoDup|].
split.
- intros x Hx Hx'. apply list_elem_of_In in Hx, Hx'.
destruct Hx' as [<-|[]]. contradiction.
- apply NoDup_ListNoDup. constructor; [intros []|constructor].
Qed.

(** X15.  [extract_phrases] returns no phrase twice, so that no phrase
is counted twice in the phrase bonus. *)
Theorem extract_phrases_are_distinct text min_length max_length :
List.NoDup phrase_order ->
List.NoDup (extract_phrases phrase_order text min_length max_length).
Proof.
intros Hpo. unfold extract_phrases.
set (clean := flat_map _ (tokenize phrase_order text)).
assert (Hstart : List.NoDup
               (List.filter (fun phrase => contains phrase (lower text))
                            phrase_order))
by now apply List.NoDup_filter.
revert Hstart.
generalize (List.filter (fun phrase => contains phrase (lower text))
                    phrase_order) as phrases.
generalize (seq min_length (max_length + 1 - min_length)) as lengths.
induction lengths as [|len lengths IH]; intros phrases H; cbn [fold_left];
[exact H|].
apply IH. revert phrases H.
generalize (range (List.length clean + 1 - len)) as idx.
induction idx as [|i idx IHi]; intros phrases H; cbn [fold_left];
[exact H|].
apply IHi. now apply add_new_phrase.
Qed.
End PhraseFacts.

Lemma extract_phrases_are_distinct_witness :
List.NoDup (KeywordSearch.extract_phrases KeywordSearch.financial_phrases
            "Net income and cash flow of Apple" 2 3).
Proof.
apply extract_phrases_are_distinct.
apply NoDup_ListNoDup. compute_done.
Defined.

Section DedupOrder.
Import Py Agent1.
Variable hash : string -> Z.

Lemma dedup_from_sublist chunks :
forall seen out,
dedup_from hash seen chunks = Ok out ->
out `sublist_of` chunks
/\ (forall c rest, chunks = c :: rest ->
               Spec.dedup_key hash c ∉ seen ->
               exists out', out = c :: out').
Proof.
induction chunks as [|c chunks IH]; intros seen out; cbn [dedup_from].
- intros [= <-]. split; [constructor|]. intros c rest [=].
- unfold content_hash_of, Spec.dedup_key.
destruct (Qdrant.content c) as [text|] eqn:Hc; [|discriminate].
cbn [bind mbind result_bind default from_option]. unfold Datatypes.id.
destruct (bool_decide_reflect
          (hash (prefix CONTENT_HASH_LENGTH text) ∈ seen)) as [Hin|Hnin].
+ intros H. destruct (IH _ _ H) as [Hsub _]. split.
* now apply sublist_cons.
* intros c' rest [= <- <-]. rewrite Hc. cbn. contradiction.
+ destruct (dedup_from hash _ chunks) as [u|e] eqn:Hu; [|discriminate].
cbn [bind]. intros [= <-]. destruct (IH _ _ Hu) as [Hsub _]. split.
* now apply sublist_skip.
* intros c' rest [= <- <-] _. eauto.
Qed.

Lemma dedup_from_fixed l :
forall seen,
Forall Spec.has_content l ->
List.NoDup (map (Spec.dedup_key hash) l) ->
(forall d, In d l -> Spec.dedup_key hash d ∉ seen) ->
dedup_from hash seen l = Ok l.
Proof.
induction l as [|c l IH]; intros seen Hc Hnd Hseen; cbn [dedup_from];
[reflexivity|].
inversion Hc as [|? ? Hc1 Hc2]; subst.
inversion Hnd as [|? ? Hn1 Hn2]; subst.
rewrite (content_hash_of_ok hash c Hc1). cbn [bind mbind result_bind].
rewrite bool_decide_eq_false_2 by (apply Hseen; now left).
rewrite IH; [reflexivity|exact Hc2|exact Hn2|].
intros d Hd. rewrite elem_of_union, elem_of_singleton.
intros [E|E].
- apply Hn1. rewrite <- E. now apply in_map.
- apply (Hseen d); [now right|exact E].
Qed.

(** X16.  On chunks that have a text, [_deduplicate_chunks] keeps the
chunks it keeps in their order, always keeps the first chunk, and
changes nothing when run again on its result. *)
Theorem deduplicate_chunks_is_stable chunks :
Forall Spec.has_content chunks ->
exists out,
_deduplicate_chunks hash chunks = Ok out
/\ out `sublist_of` chunks
/\ head out = head chunks
/\ _deduplicate_chunks hash out = Ok out.
Proof.
intros Hc. unfold _deduplicate_chunks.
destruct (dedup_from_spec hash chunks Hc ∅) as (out & Hout & Hnd & Hin & _).
exists out. split; [exact Hout|].
destruct (dedup_from_sublist chunks ∅ out Hout) as [Hsub Hhead].
split; [exact Hsub|]. split.
- destruct chunks as [|c rest].
+ cbn in Hout. now injection Hout as <-.
+ destruct (Hhead c rest eq_refl) as [out' ->]; [set_solver|reflexivity].
- apply dedup_from_fixed; [|exact Hnd|set_solver].
apply List.Forall_forall. intros d Hd.
apply (proj1 (List.Forall_forall _ _) Hc). now apply Hin.
Qed.
End DedupOrder.

Lemma deduplicate_chunks_is_stable_witness :
exists out,
Agent1._deduplicate_chunks Samples.length_hash Samples.twin_chunks = Py.Ok out
/\ Agent1._deduplicate_chunks Samples.length_hash out = Py.Ok out.
Proof.
destruct (deduplicate_chunks_is_stable Samples.length_hash
          Samples.twin_chunks) as (out & H1 & _ & _ & H2).
- repeat constructor; discriminate.
- eauto.
Defined.

Section RefinementFlag.
Import Py Agent1.
Variable hash : string -> Z.
Variable keeps : bool.

Lemma validation_ignores_flag w st st' :
current_query st' = current_query st ->
user_id st' = user_id st ->
sub_queries st' = sub_queries st ->
is_decomposed st' = is_decomposed st ->
sub_query_results st' = sub_query_results st ->
processed_query st' = processed_query st ->
retrieval_attempts st' = retrieval_attempts st ->
previous_gaps st' = previous_gaps st ->
retrieved_context st' = retrieved_context st ->
validation_node keeps w st' = validation_node keeps w st.
Proof.
intros H1 H2 H3 H4 H5 H6 H7 H8 H9.
unfold validation_node, validated, decomposed.
now rewrite H1, H2, H3, H4, H5, H6, H7, H8, H9.
Qed.

Lemma pass_ignores_flag w b st :
retrieval_pass hash keeps w (Spec.with_sufficient b st)
= retrieval_pass hash keeps w st.
Proof.
unfold retrieval_pass, Spec.with_sufficient, retrieval_node, decomposed.
cbn [refined user_id sub_queries is_decomposed processed_query].
destruct (negb (truthy_opt truthy_str (user_id st)));
[now apply validation_ignores_flag|].
destruct (is_decomposed st && truthy_opt truthy_list (sub_queries st)).
- destruct (_retrieve_decomposed_query _ _ _ _) as [[chunks by_intent]|e];
now apply validation_ignores_flag.
- destruct (processed_query st) as [p|] eqn:Hp;
[|apply validation_ignores_flag; cbn; congruence].
destruct (_retrieve_single_query _ _ _) as [chunks|e];
apply validation_ignores_flag; cbn; congruence.
Qed.

(** X17.  The retrieval and validation that follow a refinement do not
read [retrieval_sufficient].  So a single-query refinement that gives up
(no processed query, or a refinement call that raises), which only sets
that flag, changes nothing: the next pass runs as if there had been no
refinement. *)
Theorem failed_refinement_changes_nothing w0 w st :
(forall b, retrieval_pass hash keeps w (Spec.with_sufficient b st)
       = retrieval_pass hash keeps w st)
/\ (decomposed st = false ->
(processed_query st = None \/ exists e, llm_refine w0 = Raise e) ->
refinement_node w0 st = Spec.with_sufficient true st
/\ retrieval_pass hash keeps w (refinement_node w0 st)
   = retrieval_pass hash keeps w st).
Proof.
split; [intros b; apply pass_ignores_flag|].
intros Hd Hfail.
assert (Hr : refinement_node w0 st = Spec.with_sufficient true st).
{ unfold refinement_node, Spec.with_sufficient. rewrite Hd.
destruct (3 <=? retrieval_attempts st)%Z; [reflexivity|].
destruct (processed_query st) as [p|]; [|reflexivity].
destruct Hfail as [[=]|[e ->]]. reflexivity. }
split; [exact Hr|]. rewrite Hr. apply pass_ignores_flag.
Qed.
End RefinementFlag.

Lemma failed_refinement_changes_nothing_witness :
Agent1.retrieval_pass Samples.length_hash true Samples.stalled_world
  (Agent1.refinement_node Samples.stalled_world
     (Agent1.initial_state "revenue" (Some "u")))
= Agent1.retrieval_pass Samples.length_hash true Samples.stalled_world
  (Agent1.initial_state "revenue" (Some "u")).
Proof.
apply (proj2 (failed_refinement_changes_nothing Samples.length_hash true
              Samples.stalled_world Samples.stalled_world
              (Agent1.initial_state "revenue" (Some "u")))).
- reflexivity.
- left. reflexivity.
Defined.

Section CacheFacts.
Import Py.
Context {V : Type}.
Implicit Types c : Cache.cache (V := V).

Lemma cache_get_after_set default_ttl t t' key (v : option V) ttl c :
let c1 := Cache.set default_ttl t key v ttl c in
let life := (default default_ttl ttl * 1000000)%Z in
((t' < t + life)%Z -> Cache.get t' key c1 = (v, c1))
/\ ((t + life <= t')%Z -> Cache.get t' key c1 = (None, Cache.delete key c))
/\ (forall key', key' <> key ->
             fst (Cache.get t' key' c1) = fst (Cache.get t' key' c)).
Proof.
intros c1 life. subst c1 life.
unfold Cache.set, Cache.get, Cache.delete, Cache.is_expired, Cache.new_entry,
Cache.cache in *.
replace (match ttl with Some t0 => t0 | None => default_ttl end)
with (default default_ttl ttl) by now destruct ttl.
generalize (default default_ttl ttl) as seconds. intros seconds.
split; [|split].
- intros Ht. rewrite lookup_insert_eq. cbn [Cache.expires_at Cache.value].
destruct (Z.leb_spec (t + seconds * 1000000) t'); [lia|reflexivity].
- intros Ht. rewrite lookup_insert_eq. cbn [Cache.expires_at Cache.value].
destruct (Z.leb_spec (t + seconds * 1000000) t'); [|lia].
now rewrite delete_insert_eq.
- intros key' Hk. rewrite lookup_insert_ne by congruence.
destruct (c !! key') as [e|]; [|reflexivity].
now destruct (Cache.expires_at e <=? t')%Z.
Qed.


(** X19.  [SimpleCache] never serves an expired entry: a value returned
by [get] is the value of an entry of the cache whose expiry is strictly
in the future; after a [get] the cache holds no expired entry under that
key; [size] keeps exactly the entries that have not expired and returns
their number. *)
Theorem cache_never_serves_expired now key c :
(forall v, fst (Cache.get now key c) = Some v ->
       exists entry, c !! key = Some entry
                     /\ Cache.value entry = Some v
                     /\ (now < Cache.expires_at entry)%Z)
/\ (forall entry, snd (Cache.get now key c) !! key = Some entry ->
              (now < Cache.expires_at entry)%Z)
/\ (forall k entry,
  snd (Cache.size now c) !! k = Some entry
  <-> c !! k = Some entry /\ (now < Cache.expires_at entry)%Z)
/\ fst (Cache.size now c) = base.size (snd (Cache.size now c)).
Proof.
unfold Cache.get, Cache.size, Cache.is_expired, Cache.cache in *.
split; [|split; [|split]].
- intros v. destruct (c !! key) as [e|] eqn:He; [|discriminate].
destruct (Z.leb_spec (Cache.expires_at e) now); [discriminate|].
cbn [fst]. intros Hv. eauto.
- intros entry. destruct (c !! key) as [e|] eqn:He.
+ destruct (Z.leb_spec (Cache.expires_at e) now); cbn [snd].
* now rewrite lookup_delete_eq.
* rewrite He. now intros [= <-].
+ cbn [snd]. now rewrite He.
- intros k entry. cbn [snd]. rewrite map_lookup_filter_Some. cbn [snd].
rewrite negb_True, Is_true_true, Z.leb_le.
split; intros [H1 H2]; split; auto; lia.
- reflexivity.
Qed.
End CacheFacts.


Section CacheFetch.
Import Py.
Context {V : Type}.
Implicit Types c : Cache.cache (V := V).

End CacheFetch.


Section EmbeddingCache.
Import Py.
Variable provider_name : string.
Variable is_voyage : bool.
Variable embedder_embed_query : string -> result (list R).
Variable embedder_embed_text : string -> result (list R).

(** X21.  [EmbeddingManager.embed_query]: once a call has embedded a
query through the embedder and returned, every call for the same query
made within one hour of the moment the result was stored returns the
same vector without calling the embedder, and leaves the cache
unchanged. *)
Theorem embed_query_hits_the_cache now later query c v c1 :
Embedding.embed_query provider_name is_voyage embedder_embed_query
                  embedder_embed_text now later query c
= (([EvEmbed query], Ok v), c1) ->
forall now' later',
(now' < later + 3600 * 1000000)%Z ->
Embedding.embed_query provider_name is_voyage embedder_embed_query
                    embedder_embed_text now' later' query c1
= (([], Ok v), c1).
Proof.
unfold Embedding.embed_query.
destruct (Cache.get now (Embedding.cache_key provider_name query) c)
as [[cached|] c0] eqn:Hget; [discriminate|].
destruct (if is_voyage then embedder_embed_query query
      else embedder_embed_text query) as [embedding|e]; [|discriminate].
intros [= <- <-] now' later' Hlive.
destruct (cache_get_after_set Embedding.EMBEDDING_TTL later now'
        (Embedding.cache_key provider_name query) (Some embedding)
        None c0) as (Hhit & _).
rewrite Hhit by exact Hlive. reflexivity.
Qed.
End EmbeddingCache.

Lemma embed_query_hits_the_cache_witness :
Embedding.embed_query "OpenAIEmbedder" false Samples.no_embedding
  Samples.no_embedding 10 11 "revenue"
  (Cache.set Embedding.EMBEDDING_TTL 5 "embedding:query:OpenAIEmbedder:revenue"
             (Some []) None ∅)
= (([], Py.Ok []),
 Cache.set Embedding.EMBEDDING_TTL 5 "embedding:query:OpenAIEmbedder:revenue"
           (Some []) None ∅).
Proof.
apply (embed_query_hits_the_cache "OpenAIEmbedder" false
       Samples.no_embedding Samples.no_embedding 0 5 "revenue" ∅).
- reflexivity.
- lia.
Defined.

Section SourceFacts.
Import Py Sources.

Lemma extract_from_kept chunks :
forall seen,
exists kept,
extract_from seen chunks = map source_of kept
/\ kept `sublist_of` chunks
/\ List.NoDup (map source_key kept)
/\ (forall m, In m kept -> source_key m ∉ seen)
/\ (forall m, In m chunks ->
            source_key m ∈ seen \/ In (source_key m) (map source_key kept))
/\ (forall c rest, chunks = c :: rest -> source_key c ∉ seen ->
                 exists kept', kept = c :: kept').
Proof.
induction chunks as [|c chunks IH]; intros seen; cbn [extract_from].
- exists []. split; [reflexivity|]. split; [constructor|].
split; [constructor|]. split; [intros m []|]. split; [intros m []|].
intros c rest [=].
- cbv zeta.
destruct (bool_decide_reflect (source_key c ∈ seen)) as [Hin|Hnin].
+ destruct (IH seen) as (kept & He & Hs & Hn & Hk & Hc & _).
exists kept. split; [exact He|]. split; [now apply sublist_cons|].
split; [exact Hn|]. split; [exact Hk|]. split.
* intros m [<-|Hm]; [now left|now apply Hc].
* intros c' rest [= <- <-] Hno. contradiction.
+ destruct (IH ({[source_key c]} ∪ seen))
  as (kept & He & Hs & Hn & Hk & Hc & _).
exists (c :: kept). cbn [map]. split; [now rewrite He|].
split; [now apply sublist_skip|]. split; [|split; [|split]].
* constructor; [|exact Hn].
  intros Hin. apply in_map_iff in Hin as (m & Hm & Hmk).
  apply (Hk m Hmk). rewrite Hm. set_solver.
* intros m [<-|Hm]; [exact Hnin|].
  specialize (Hk m Hm). set_solver.
* intros m [<-|Hm]; [right; now left|].
  destruct (Hc m Hm) as [H|H]; [|right; now right].
  apply elem_of_union in H as [H|H]; [|now left].
  apply elem_of_singleton in H. right. left. now symmetry.
* intros c' rest [= <- <-] _. eauto.
Qed.

Lemma source_is_labelled m :
s_company (source_of m) <> "" /\ s_document_display (source_of m) <> "".
Proof.
unfold source_of. cbn [s_company s_document_display]. split.
- destruct (company_of m); cbn; discriminate.
- destruct (document_type m) as [[|a t]|]; cbn [truthy_opt truthy_str];
destruct (_ && _); discriminate.
Qed.

(** X22.  [_extract_sources] returns the sources of a subsequence of
the chunks, in the chunks' order, starting with the first chunk; the
chunks it keeps have pairwise distinct source keys (company in lower
case, year, document type, quarter, page), every chunk's key is the key
of a kept chunk, and no source has an empty company or an empty document
label. *)
Theorem extract_sources_keeps_first_occurrences chunks :
exists kept,
_extract_sources chunks = map source_of kept
/\ kept `sublist_of` chunks
/\ head kept = head chunks
/\ List.NoDup (map source_key kept)
/\ (forall m, In m chunks -> In (source_key m) (map source_key kept))
/\ Forall (fun s => s_company s <> "" /\ s_document_display s <> "")
        (_extract_sources chunks).
Proof.
unfold _extract_sources.
destruct (extract_from_kept chunks ∅)
as (kept & He & Hs & Hn & _ & Hc & Hh).
exists kept. split; [exact He|]. split; [exact Hs|]. split; [|split; [|split]].
- destruct chunks as [|c rest].
+ apply sublist_nil_r in Hs. now subst.
+ destruct (Hh c rest eq_refl) as [kept' ->]; [set_solver|reflexivity].
- exact Hn.
- intros m Hm. destruct (Hc m Hm) as [H|H]; [set_solver|exact H].
- rewrite He. apply List.Forall_forall. intros s Hs'.
apply in_map_iff in Hs' as (m & <- & _). apply source_is_labelled.
Qed.

Lemma join_lines_nonempty sep x (l : list string) :
x <> "" -> join sep (x :: l) <> "".
Proof.
intros Hx. destruct l as [|y l]; cbn [join]; [exact Hx|].
destruct x; [contradiction|]. discriminate.
Qed.

(** X23.  The text that [_format_sources_text] makes of the sources
[_extract_sources] finds is empty exactly when there is no retrieved
chunk. *)
Theorem sources_text_is_empty_without_chunks chunks :
_format_sources_text (_extract_sources chunks) = "" <-> chunks = [].
Proof.
split.
- intros H. destruct chunks as [|c rest]; [reflexivity|]. exfalso.
destruct (extract_from_kept (c :: rest) ∅) as (kept & He & _ & _ & _ & _ & Hh).
destruct (Hh c rest eq_refl) as [kept' ->]; [set_solver|].
unfold _extract_sources in H. rewrite He in H. unfold _format_sources_text in H.
cbn [truthy_list negb map] in H.
revert H. apply join_lines_nonempty. discriminate.
- intros ->. reflexivity.
Qed.
End SourceFacts.
Section ModelSelection.
Import Py LLM.

Lemma priced_cost pin pout a b :
(0 < pin)%R -> (0 < pout)%R -> (0 <= a)%Z -> (0 <= b)%Z ->
(0 <= IZR a / 1000000 * pin + IZR b / 1000000 * pout)%R
/\ ((IZR a / 1000000 * pin + IZR b / 1000000 * pout)%R = 0%R
  -> a = 0%Z /\ b = 0%Z).
Proof.
intros Hin Hout Ha Hb.
apply IZR_le in Ha, Hb.
assert (H1 : (0 <= IZR a / 1000000 * pin)%R).
{ apply Rmult_le_pos; [lra|lra]. }
assert (H2 : (0 <= IZR b / 1000000 * pout)%R).
{ apply Rmult_le_pos; [lra|lra]. }
split; [lra|]. intros H0.
assert (E1 : (IZR a / 1000000 * pin = 0)%R) by lra.
assert (E2 : (IZR b / 1000000 * pout = 0)%R) by lra.
apply Rmult_integral in E1 as [E1|E1]; [|lra].
apply Rmult_integral in E2 as [E2|E2]; [|lra].
split; apply eq_IZR; lra.
Qed.

Ltac by_task task :=
repeat match goal with
     | |- context [String.eqb ?k task] =>
         destruct (String.eqb_spec k task) as [<-|?];
         [ first [ right; split; reflexivity
                 | left; split;
                   [ discriminate
                   | first [left; reflexivity | right; reflexivity] ] ]
         | cbv iota ]
     end.

Lemma task_model_cases task :
(task <> "analytical_reasoning"
 /\ (get_model_for_task task = GPT_4O_MINI
   \/ get_model_for_task task = GPT_4O))
\/ (task = "analytical_reasoning"
  /\ get_model_for_task task = CLAUDE_3_5_SONNET).
Proof.
unfold get_model_for_task. cbn [dict_get TASK_MODELS].
by_task task.
left. split; [congruence|left; reflexivity].
Qed.

(** X24.  Every task name, known or not, selects one of the three models
of [LLMModels]; the provider of the selected model is OpenAI for every
task but [analytical_reasoning]; the selected model has a price for its
provider, positive for input and for output, so that the cost of a
request is never negative and is zero only for a request without
tokens. *)
Theorem task_models_are_priced task :
let m := get_model_for_task task in
let p := get_provider_for_model m in
In m [GPT_4O_MINI; GPT_4O; CLAUDE_3_5_SONNET]
/\ (p = "openai" <-> task <> "analytical_reasoning")
/\ (exists pr, pricing_of p m = Some pr
             /\ (0 < input pr)%R /\ (0 < output pr)%R)
/\ (forall a b, (0 <= a)%Z -> (0 <= b)%Z ->
              (0 <= calculate_cost a b m p)%R
              /\ (calculate_cost a b m p = 0%R -> a = 0%Z /\ b = 0%Z)).
Proof.
intros m p. subst m p.
assert (Hpriced : forall m p pr,
       pricing_of p m = Some pr -> (0 < input pr)%R -> (0 < output pr)%R ->
       (exists pr, pricing_of p m = Some pr
                   /\ (0 < input pr)%R /\ (0 < output pr)%R)
       /\ (forall a b, (0 <= a)%Z -> (0 <= b)%Z ->
             (0 <= calculate_cost a b m p)%R
             /\ (calculate_cost a b m p = 0%R -> a = 0%Z /\ b = 0%Z))).
{ intros m p pr Hpr Hin Hout. split; [eauto|].
intros a b Ha Hb. unfold calculate_cost. rewrite Hpr. cbv zeta.
now apply priced_cost. }
destruct (task_model_cases task) as [[Hne [Hm|Hm]]|[-> Hm]]; rewrite Hm.
- split; [now left|]. split; [split; [intros _; exact Hne|reflexivity]|].
apply (Hpriced _ _ {| input := 0.15%R; output := 0.60%R |});
  [reflexivity|cbn; lra|cbn; lra].
- split; [right; now left|].
split; [split; [intros _; exact Hne|reflexivity]|].
apply (Hpriced _ _ {| input := 2.50%R; output := 10.00%R |});
  [reflexivity|cbn; lra|cbn; lra].
- split; [right; right; now left|].
split; [split; [discriminate|congruence]|].
apply (Hpriced _ _ {| input := 3.00%R; output := 15.00%R |});
  [reflexivity|cbn; lra|cbn; lra].
Qed.
End ModelSelection.
Section CostFacts.
Import Py LLM.

Lemma add_cost_eq {K} `{Countable K} (k : K) c (d : gmap K R) :
default 0.0%R (add_cost k c d !! k) = (default 0.0%R (d !! k) + c)%R.
Proof. unfold add_cost. now rewrite lookup_insert_eq. Qed.

Lemma add_cost_ne {K} `{Countable K} (k k' : K) c (d : gmap K R) :
k <> k' -> add_cost k c d !! k' = d !! k'.
Proof. intros Hk. unfold add_cost. now rewrite lookup_insert_ne. Qed.

Lemma add_named_eq k c d :
k <> "" ->
default 0.0%R (add_named (Some k) c d !! k) = (default 0.0%R (d !! k) + c)%R.
Proof.
intros Hk. unfold add_named.
destruct k as [|a k]; [contradiction|]. cbn [truthy_str].
apply add_cost_eq.
Qed.

Lemma replay_total records :
forall t,
total_cost (Spec.replay records t)
= (total_cost t + Qdrant.sum_R (map Spec.r_cost records))%R.
Proof.
induction records as [|r records IH]; intros t; cbn [Spec.replay fold_left map].
- rewrite sum_R_nil. lra.
- fold (Spec.replay records
       (record_cost (Spec.r_day r) (Spec.r_cost r) (Spec.r_task r)
                    (Spec.r_model r) (Spec.r_provider r) t)).
rewrite IH, sum_R_cons. cbn [record_cost total_cost]. lra.
Qed.

Lemma replay_daily records d :
forall t,
default 0.0%R (daily_costs (Spec.replay records t) !! d)
= (default 0.0%R (daily_costs t !! d)
 + Qdrant.sum_R (Spec.costs_of_day d records))%R.
Proof.
unfold Spec.costs_of_day.
induction records as [|r records IH]; intros t;
cbn [Spec.replay fold_left map List.filter].
- rewrite sum_R_nil. lra.
- fold (Spec.replay records
       (record_cost (Spec.r_day r) (Spec.r_cost r) (Spec.r_task r)
                    (Spec.r_model r) (Spec.r_provider r) t)).
rewrite IH. cbn [record_cost daily_costs].
destruct (Z.eqb_spec (Spec.r_day r) d) as [<-|Hd].
+ cbn [map]. rewrite sum_R_cons, add_cost_eq. lra.
+ now rewrite add_cost_ne.
Qed.

Lemma replay_task records task :
forall t,
default 0.0%R (task_costs (Spec.replay records t) !! task)
= (default 0.0%R (task_costs t !! task)
 + Qdrant.sum_R (Spec.costs_of_task task records))%R.
Proof.
unfold Spec.costs_of_task.
induction records as [|r records IH]; intros t;
cbn [Spec.replay fold_left map List.filter].
- rewrite sum_R_nil. lra.
- fold (Spec.replay records
       (record_cost (Spec.r_day r) (Spec.r_cost r) (Spec.r_task r)
                    (Spec.r_model r) (Spec.r_provider r) t)).
rewrite IH. cbn [record_cost task_costs]. unfold add_named.
destruct (Spec.r_task r) as [name|]; [|reflexivity].
destruct (truthy_str name) eqn:Hname; cbn [andb]; [|reflexivity].
destruct (String.eqb_spec name task) as [<-|Hn].
+ cbn [map]. rewrite sum_R_cons, add_cost_eq. lra.
+ now rewrite add_cost_ne.
Qed.

(** X26.  A [CostTracker] that was reset and then received any sequence of
[record_cost] calls holds their sums: [total_cost] is the sum of all the
recorded costs, [get_daily_cost] for a date is the sum of the costs
recorded on that day, and [get_task_cost] for a task is the sum of the
costs recorded with that task name (zero for a day or a task without a
record). *)
Theorem cost_tracker_sums_its_records records t0 :
let t := Spec.replay records (reset t0) in
total_cost t = Qdrant.sum_R (map Spec.r_cost records)
/\ (forall today d,
   get_daily_cost today (Some d) t
   = Qdrant.sum_R (Spec.costs_of_day d records))
/\ (forall task,
   get_task_cost task t = Qdrant.sum_R (Spec.costs_of_task task records)).
Proof.
intros t. subst t. unfold reset. split; [|split].
- rewrite replay_total. cbn [new_tracker total_cost]. lra.
- intros today d. unfold get_daily_cost. rewrite replay_daily.
cbn [new_tracker daily_costs]. rewrite lookup_empty. cbn [default]. lra.
- intros task. unfold get_task_cost. rewrite replay_task.
cbn [new_tracker task_costs]. rewrite lookup_empty. cbn [default]. lra.
Qed.
End CostFacts.

Section GenerateFacts.
Import Py LLM.
Variable chat_completions_create : api_params -> result completion.

Lemma initial_provider key name llm_provider :
get_provider (_initialize_providers key chat_completions_create) name
= Ok llm_provider ->
truthy_opt truthy_str key = true /\ name = "openai"
/\ llm_provider = openai_generate chat_completions_create.
Proof.
unfold get_provider, _initialize_providers.
destruct (truthy_opt truthy_str key).
- destruct (decide (name = "openai")) as [->|Hn].
+ rewrite lookup_singleton_eq. now intros [= <-].
+ rewrite lookup_singleton_ne by congruence. discriminate.
- rewrite lookup_empty. discriminate.
Qed.

Lemma missing_provider key name e :
get_provider (_initialize_providers key chat_completions_create) name
= Raise e ->
exists msg, e = ValueError msg.
Proof.
unfold get_provider. destruct (_ !! name); [discriminate|].
intros [= <-]. eauto.
Qed.

(** X27.  A call of [LLMManager.generate] that raises records no cost: the
tracker is left as it was.  It has called the API at most once, and when
it has not called it the exception is a [ValueError] (neither task nor
model given, or no provider registered for the model). *)
Theorem failed_generate_records_no_cost
    key today later prompt task model provider system_prompt temperature
    max_tokens response_format t trace e t' :
generate (_initialize_providers key chat_completions_create) today later
       prompt task model provider system_prompt temperature max_tokens
       response_format t
= ((trace, Raise e), t') ->
t' = t
/\ (trace = [] \/ trace = [EvLLM prompt])
/\ (trace = [] -> exists msg, e = ValueError msg).
Proof.
unfold generate.
set (selected := match model with Some m => Ok m | None => _ end).
assert (Hsel : forall e0, selected = Raise e0 -> exists msg, e0 = ValueError msg).
{ subst selected. intros e0. destruct model; [discriminate|].
destruct task; [discriminate|]. intros [= <-]. eauto. }
destruct selected as [m|e0].
2:{ intros [= <- <- <-]. split; [reflexivity|]. split; [now left|].
  intros _. now apply Hsel. }
clear Hsel.
set (p := match provider with Some p0 => p0 | None => _ end).
destruct (get_provider _ p) as [llm_provider|e0] eqn:Hp.
2:{ intros [= <- <- <-]. split; [reflexivity|]. split; [now left|].
  intros _. exact (missing_provider _ _ _ Hp). }
apply initial_provider in Hp as (_ & _ & ->).
unfold openai_generate.
destruct (chat_completions_create _) as [response|e0].
- cbn [eff_call]. destruct (_ && _); discriminate.
- cbn [eff_call]. intros [= <- <- <-]. split; [reflexivity|].
split; [now right|]. discriminate.
Qed.

(** X25.  When [LLMManager.generate] is called with a task name (not
empty, and other than [analytical_reasoning]) and no model or provider of
the caller's, and the API answers, the response carries the cost [c] of
the request at the price of the task's model, and that cost is recorded
twice: once by the provider and once by the manager.  [total_cost], the
cost of the model and the cost of the provider grow by [2 * c], the cost
of the task by [c]; the cost of the day grows by [2 * c] when both
records fall on the same day. *)
Theorem generate_records_the_cost_twice
    key today later prompt tk system_prompt temperature max_tokens
    response_format answer t :
truthy_str key = true ->
tk <> "" ->
tk <> "analytical_reasoning" ->
chat_completions_create
(api_params_of prompt (get_model_for_task tk) system_prompt temperature
               max_tokens response_format)
= Ok answer ->
exists response t',
generate (_initialize_providers (Some key) chat_completions_create)
       today later prompt (Some tk) None None system_prompt temperature
       max_tokens response_format t
= (([EvLLM prompt], Ok response), t')
/\ cost response
 = Some (calculate_cost (prompt_tokens answer) (completion_tokens answer)
                        (get_model_for_task tk) "openai")
/\ model response = get_model_for_task tk
/\ provider response = "openai"
/\ (total_cost t' = total_cost t + 2 * default 0 (cost response))%R
/\ (get_task_cost tk t'
  = get_task_cost tk t + default 0 (cost response))%R
/\ (default 0.0 (model_costs t' !! get_model_for_task tk)
  = default 0.0 (model_costs t !! get_model_for_task tk)
    + 2 * default 0 (cost response))%R
/\ (default 0.0 (provider_costs t' !! "openai")
  = default 0.0 (provider_costs t !! "openai")
    + 2 * default 0 (cost response))%R
/\ (today = later ->
  get_daily_cost today None t'
  = get_daily_cost today None t + 2 * default 0 (cost response))%R.
Proof.
intros Hkey Htk Hnot Hanswer.
assert (Hm : get_model_for_task tk <> ""
           /\ get_provider_for_model (get_model_for_task tk) = "openai").
{ destruct (task_model_cases tk) as [[_ [-> | ->]]|[-> _]];
  [split; [discriminate|reflexivity]..|contradiction]. }
destruct Hm as [Hmodel Hprov].
unfold generate. rewrite Hprov.
unfold get_provider, _initialize_providers. cbn [truthy_opt]. rewrite Hkey.
rewrite lookup_singleton_eq. unfold openai_generate. rewrite Hanswer.
cbn [eff_call cost]. cbv zeta.
set (c := calculate_cost _ _ _ _).
set (response := {| content := _ |}).
assert (Htask : truthy_str tk = true) by (destruct tk; [contradiction|reflexivity]).
cbn [truthy_opt]. rewrite Htask. cbn [andb default]. unfold truthy_float.
destruct (Req_dec_T c 0) as [Hc|Hc].
- exists response, (record_cost today c None (Some (get_model_for_task tk))
                            (Some "openai") t).
split; [reflexivity|]. split; [reflexivity|]. split; [reflexivity|].
split; [reflexivity|]. unfold get_task_cost, get_daily_cost.
subst response.
cbn [record_cost total_cost task_costs model_costs provider_costs
   daily_costs cost default].
rewrite add_named_eq by exact Hmodel.
rewrite (add_named_eq "openai") by discriminate.
rewrite add_cost_eq. cbn [add_named]. change (Datatypes.id c) with c. clearbody c.
split; [lra|]. split; [lra|]. split; [lra|]. split; [lra|]. intros _. lra.
- exists response,
    (record_cost later c (Some tk) (Some (get_model_for_task tk))
                 (Some "openai")
                 (record_cost today c None (Some (get_model_for_task tk))
                              (Some "openai") t)).
split; [reflexivity|]. split; [reflexivity|]. split; [reflexivity|].
split; [reflexivity|]. unfold get_task_cost, get_daily_cost.
subst response.
cbn [record_cost total_cost task_costs model_costs provider_costs
   daily_costs cost default].
rewrite !add_named_eq by (exact Hmodel || exact Htk || discriminate).
cbn [add_named]. change (Datatypes.id c) with c. clearbody c.
split; [lra|]. split; [lra|]. split; [lra|]. split; [lra|].
intros <-. rewrite !add_cost_eq. lra.
Qed.
End GenerateFacts.

Lemma failed_generate_records_no_cost_witness :
snd (LLM.generate
       (LLM._initialize_providers (Some "sk-test") Samples.failing_api)
       0 0 "Summarise" (Some "generation") None None None 0.4%R None None
       LLM.new_tracker)
= LLM.new_tracker.
Proof.
destruct (failed_generate_records_no_cost Samples.failing_api
          (Some "sk-test") 0 0 "Summarise" (Some "generation") None None
          None 0.4%R None None LLM.new_tracker
          [Py.EvLLM "Summarise"] (Py.ExternalError "rate limit")
          LLM.new_tracker eq_refl) as (H & _).
reflexivity.
Defined.

Lemma generate_records_the_cost_twice_witness :
exists response t',
LLM.generate
  (LLM._initialize_providers (Some "sk-test") Samples.answering_api)
  0 0 "Summarise" (Some "generation") None None None 0.4%R None None
  LLM.new_tracker
= (([Py.EvLLM "Summarise"], Py.Ok response), t')
/\ (LLM.total_cost t'
    = LLM.total_cost LLM.new_tracker + 2 * default 0 (LLM.cost response))%R.
Proof.
destruct (generate_records_the_cost_twice Samples.answering_api "sk-test"
          0 0 "Summarise" "generation" None 0.4%R None None
          Samples.api_answer LLM.new_tracker eq_refl
          ltac:(discriminate) ltac:(discriminate) eq_refl)
as (response & t' & Hrun & _ & _ & _ & Htotal & _).
exists response, t'. split; assumption.
Defined.
Section RemoveSources.
Import Py Sources.

Lemma newline_is_space c : Ascii.eqb c "010" = true -> is_space c = true.
Proof. intros H. apply Ascii.eqb_eq in H. now subst c. Qed.

Lemma append_cons c (a b : string) : String c a ++ b = String c (a ++ b).
Proof. reflexivity. Qed.

Lemma append_nil (b : string) : "" ++ b = b.
Proof. reflexivity. Qed.

(** [rstrip], [lstrip] and [strip]. *)

Lemma lstrip_idem s : lstrip (lstrip s) = lstrip s.
Proof.
induction s as [|a s IH]; [reflexivity|]. cbn [lstrip].
destruct (is_space a) eqn:Hsp; [exact IH|]. cbn [lstrip]. now rewrite Hsp.
Qed.

Lemma rstrip_idem s : rstrip (rstrip s) = rstrip s.
Proof.
induction s as [|a s IH]; [reflexivity|]. cbn [rstrip].
destruct (rstrip s) as [|b r] eqn:Hr.
- destruct (is_space a) eqn:Hsp; [reflexivity|]. cbn [rstrip]. now rewrite Hsp.
- change (rstrip (String a (String b r)))
with (match rstrip (String b r) with
      | EmptyString =>
          if is_space a then EmptyString else String a EmptyString
      | r0 => String a r0
      end).
now rewrite IH.
Qed.

Lemma lstrip_rstrip s : lstrip (rstrip s) = rstrip (lstrip s).
Proof.
induction s as [|a s IH]; [reflexivity|]. cbn [lstrip rstrip].
destruct (is_space a) eqn:Hsp.
- rewrite <- IH. destruct (rstrip s) as [|b r]; [reflexivity|].
cbn [lstrip]. now rewrite Hsp.
- cbn [rstrip]. destruct (rstrip s) as [|b r]; cbn [lstrip]; now rewrite Hsp.
Qed.

Lemma strip_idem s : strip (strip s) = strip s.
Proof.
unfold strip. rewrite <- (lstrip_rstrip (rstrip s)).
now rewrite rstrip_idem, lstrip_idem.
Qed.

Lemma strip_rstrip s : strip (rstrip s) = strip s.
Proof. unfold strip. now rewrite rstrip_idem. Qed.

Lemma strip_lstrip s : strip (lstrip s) = strip s.
Proof. unfold strip. now rewrite <- lstrip_rstrip, lstrip_idem. Qed.

Lemma rstrip_prefix s : exists w, s = rstrip s ++ w.
Proof.
induction s as [|a s [w IH]]; [now exists ""|]. cbn [rstrip].
destruct (rstrip s) as [|b r] eqn:Hr.
- destruct (is_space a).
+ now exists (String a s).
+ exists s. reflexivity.
- exists w. rewrite append_cons. f_equal. exact IH.
Qed.

(** Lines. *)

Lemma join_lines s : join newline (lines s) = s.
Proof.
unfold lines. induction s as [|a s IH]; [reflexivity|]. cbn [split_lines].
destruct (split_lines s) as [f r].
destruct (Ascii.eqb_spec a "010") as [->|Hne].
- change (join newline ("" :: f :: r))
with ("" ++ newline ++ join newline (f :: r)).
rewrite IH. reflexivity.
- destruct r as [|x r].
+ cbn [join] in *. now rewrite IH.
+ change (join newline (String a f :: x :: r))
  with (String a (f ++ newline ++ join newline (x :: r))).
f_equal. exact IH.
Qed.

Lemma split_lines_cons a s :
split_lines (String a s)
= let (line, rest) := split_lines s in
if Ascii.eqb a "010" then ("", line :: rest) else (String a line, rest).
Proof. reflexivity. Qed.

Lemma split_lines_nonempty b s : split_lines (String b s) <> ("", []).
Proof.
cbn [split_lines]. destruct (split_lines s) as [f r].
destruct (Ascii.eqb b "010"); discriminate.
Qed.

Lemma lines_single s : Forall (fun l => split_lines l = (l, [])) (lines s).
Proof.
unfold lines. induction s as [|a s IH]; [now repeat constructor|].
cbn [split_lines]. destruct (split_lines s) as [f r].
apply List.Forall_cons_iff in IH as [Hf Hr].
destruct (Ascii.eqb a "010") eqn:Ha.
- constructor; [reflexivity|]. now constructor.
- constructor; [|exact Hr]. cbn [split_lines]. now rewrite Hf, Ha.
Qed.

Lemma split_lines_app x s :
split_lines x = (x, []) ->
split_lines (x ++ String "010" s) = (x, lines s).
Proof.
induction x as [|a x IH]; intros Hx.
- rewrite append_nil. cbn [split_lines]. unfold lines.
destruct (split_lines s) as [f r]. reflexivity.
- cbn [split_lines] in Hx. rewrite append_cons. cbn [split_lines].
destruct (split_lines x) as [f r].
destruct (Ascii.eqb a "010"); [discriminate|].
injection Hx as -> ->. now rewrite IH.
Qed.

Lemma lines_join (l : list string) :
l <> [] ->
Forall (fun x => split_lines x = (x, [])) l ->
lines (join newline l) = l.
Proof.
induction l as [|x l IH]; [contradiction|]. intros _ Hl.
apply List.Forall_cons_iff in Hl as [Hx Hl].
destruct l as [|y l].
- cbn [join]. unfold lines. now rewrite Hx.
- change (join newline (x :: y :: l))
with (x ++ String "010" (join newline (y :: l))).
unfold lines at 1. rewrite (split_lines_app _ _ Hx).
now rewrite IH.
Qed.

Lemma rstrip_first_line s :
rstrip s = "" -> rstrip (fst (split_lines s)) = "".
Proof.
induction s as [|a s IH]; [reflexivity|]. cbn [rstrip split_lines].
destruct (rstrip s) as [|b r]; [|discriminate].
destruct (is_space a) eqn:Hsp; [|discriminate]. intros _.
destruct (split_lines s) as [f r]. cbn [fst] in IH.
destruct (Ascii.eqb a "010"); cbn [fst rstrip]; [reflexivity|].
now rewrite (IH eq_refl), Hsp.
Qed.

(** The lines of [rstrip s] are lines of [s], up to some line that is
trimmed on the right and ends the text. *)
Lemma lines_rstrip s :
exists pre l suf,
lines s = (pre ++ l :: suf)%list /\ lines (rstrip s) = (pre ++ [rstrip l])%list.
Proof.
induction s as [|a s (pre & l & suf & Hs & Hr)].
- now exists [], "", [].
- pose proof (rstrip_first_line s) as Hfirst.
unfold lines in *. cbn [rstrip split_lines].
destruct (split_lines s) as [f r] eqn:Hsplit. cbn [fst] in Hfirst.
destruct (rstrip s) as [|b r0] eqn:Hrs.
+ specialize (Hfirst eq_refl).
destruct (Ascii.eqb a "010") eqn:Ha.
* rewrite (newline_is_space _ Ha). now exists [], "", (f :: r).
* exists [], (String a f), r. split; [reflexivity|].
  cbn [rstrip app]. rewrite Hfirst.
  destruct (is_space a); [reflexivity|].
  cbn [split_lines]. now rewrite Ha.
+ rewrite (split_lines_cons a (String b r0)).
pose proof (split_lines_nonempty b r0) as Hne.
destruct (split_lines (String b r0)) as [f' r'].
destruct (Ascii.eqb a "010") eqn:Ha.
* exists ("" :: pre), l, suf. cbn [app]. now rewrite Hs, Hr.
* destruct pre as [|p pre]; cbn [app] in *.
  -- injection Hs as -> ->. injection Hr as -> ->.
     exists [], (String a l), suf. split; [reflexivity|].
     cbn [app rstrip]. destruct (rstrip l); [now contradiction Hne|].
     reflexivity.
  -- injection Hs as -> ->. injection Hr as -> ->.
     now exists (String a p :: pre), l, suf.
Qed.

(** The lines of [lstrip s] are the last lines of [s], the first of them
trimmed on the left. *)
Lemma lines_lstrip s :
exists pre l suf,
lines s = (pre ++ l :: suf)%list /\ lines (lstrip s) = lstrip l :: suf.
Proof.
induction s as [|a s (pre & l & suf & Hs & Hl)].
- now exists [], "", [].
- cbn [lstrip]. destruct (is_space a) eqn:Hsp.
+ rewrite Hl. unfold lines in *. cbn [split_lines].
destruct (split_lines s) as [f r].
destruct (Ascii.eqb a "010").
* exists ("" :: pre), l, suf. cbn [app]. now rewrite Hs.
* destruct pre as [|p pre]; cbn [app] in *; injection Hs as -> ->.
  -- exists [], (String a l), suf. split; [reflexivity|].
     cbn [lstrip]. now rewrite Hsp.
  -- now exists (String a p :: pre), l, suf.
+ unfold lines. cbn [split_lines]. destruct (split_lines s) as [f r].
destruct (Ascii.eqb a "010") eqn:Ha.
* rewrite (newline_is_space _ Ha) in Hsp. discriminate.
* exists [], (String a f), r. split; [reflexivity|].
  cbn [lstrip]. now rewrite Hsp.
Qed.

Lemma lines_strip (P : string -> Prop) s :
(forall l, P l -> P (lstrip l)) ->
(forall l, P l -> P (rstrip l)) ->
Forall P (lines s) -> Forall P (lines (strip s)).
Proof.
intros Hleft Hright Hall. unfold strip.
destruct (lines_rstrip s) as (pre & l & suf & Hs & Hr).
destruct (lines_lstrip (rstrip s)) as (pre' & l' & suf' & Hs' & Hl').
rewrite Hl'.
assert (Hmid : Forall P (lines (rstrip s))).
{ rewrite Hr. rewrite Hs in Hall.
apply List.Forall_app in Hall as [Hpre Hrest].
apply List.Forall_app. split; [exact Hpre|].
constructor; [|constructor]. apply Hright.
now apply List.Forall_cons_iff in Hrest as [H _]. }
rewrite Hs' in Hmid. apply List.Forall_app in Hmid as [_ Hrest].
apply List.Forall_cons_iff in Hrest as [H1 H2].
constructor; [now apply Hleft|exact H2].
Qed.

(** Substrings. *)

Lemma starts_with_contains p s : starts_with p s = true -> contains p s = true.
Proof. intros H. destruct s; cbn [contains]; now rewrite H. Qed.

Lemma contains_cons p c s :
contains p s = true -> contains p (String c s) = true.
Proof. intros H. cbn [contains]. rewrite H. apply orb_true_r. Qed.

Lemma contains_app_r p a b :
contains p b = true -> contains p (a ++ b) = true.
Proof.
intros H. induction a as [|c a IH]; [exact H|].
rewrite append_cons. now apply contains_cons.
Qed.

Lemma starts_with_app p :
forall a w, starts_with p a = true -> starts_with p (a ++ w) = true.
Proof.
induction p as [|c p IH]; intros a w H.
- now destruct (a ++ w).
- destruct a as [|d a]; [discriminate|]. rewrite append_cons.
cbn [starts_with] in *.
apply andb_true_iff in H as [H1 H2]. rewrite H1. cbn [andb]. now apply IH.
Qed.

Lemma contains_app_l p a w :
contains p a = true -> contains p (a ++ w) = true.
Proof.
induction a as [|c a IH]; intros H.
- cbn [contains] in H. rewrite orb_false_r in H.
apply starts_with_contains. exact (starts_with_app p "" w H).
- cbn [contains] in H. apply orb_true_iff in H as [H|H].
+ apply starts_with_contains. now apply starts_with_app.
+ rewrite append_cons. apply contains_cons. now apply IH.
Qed.

Lemma contains_strip p s : contains p (strip s) = true -> contains p s = true.
Proof.
unfold strip. intros H.
assert (Hr : contains p (rstrip s) = true).
{ revert H. generalize (rstrip s) as r.
induction r as [|c r IH]; [auto|]. cbn [lstrip].
destruct (is_space c); [|auto]. intros H. apply contains_cons. now apply IH. }
destruct (rstrip_prefix s) as [w Hw]. rewrite Hw. now apply contains_app_l.
Qed.

Lemma contains_join p l (ls : list string) :
In l ls -> contains p l = true -> contains p (join newline ls) = true.
Proof.
intros Hin Hp. induction ls as [|x ls IH]; [destruct Hin|].
destruct ls as [|y ls].
- destruct Hin as [->|[]]. exact Hp.
- change (join newline (x :: y :: ls))
with (x ++ newline ++ join newline (y :: ls)).
destruct Hin as [->|Hin].
+ now apply contains_app_l.
+ apply contains_app_r, contains_app_r. now apply IH.
Qed.

Lemma heading_is_marked l text :
In l (lines text) -> is_sources_heading l = true ->
contains "## Sources" text = true \/ contains "### Sources" text = true.
Proof.
intros Hin Hh. unfold is_sources_heading in Hh.
rewrite <- (join_lines text).
apply orb_true_iff in Hh as [H|H]; [left|right];
apply (contains_join _ l); auto;
apply contains_strip, starts_with_contains, H.
Qed.

(** The loop. *)

Lemma remove_loop_no_heading ls :
forall skip,
Forall (fun l => is_sources_heading l = false) (remove_loop skip ls).
Proof.
induction ls as [|l ls IH]; intros skip; cbn [remove_loop]; [constructor|].
destruct (is_sources_heading l) eqn:Hh; [apply IH|].
destruct skip; cbn [andb].
- destruct (starts_with "#" (strip l)); [constructor; auto|apply IH].
- constructor; auto.
Qed.

Lemma remove_loop_keeps (P : string -> Prop) ls :
forall skip, Forall P ls -> Forall P (remove_loop skip ls).
Proof.
induction ls as [|l ls IH]; intros skip Hall; cbn [remove_loop]; [constructor|].
apply List.Forall_cons_iff in Hall as [Hl Hall].
destruct (is_sources_heading l); [now apply IH|].
destruct skip; cbn [andb].
- destruct (starts_with "#" (strip l)); [constructor; auto|now apply IH].
- constructor; auto.
Qed.

Lemma remove_loop_fixed ls :
Forall (fun l => is_sources_heading l = false) ls ->
remove_loop false ls = ls.
Proof.
induction 1 as [|l ls Hl _ IH]; cbn [remove_loop]; [reflexivity|].
rewrite Hl. cbn [andb]. now rewrite IH.
Qed.

Lemma heading_lstrip l : is_sources_heading (lstrip l) = is_sources_heading l.
Proof. unfold is_sources_heading. now rewrite strip_lstrip. Qed.

Lemma heading_rstrip l : is_sources_heading (rstrip l) = is_sources_heading l.
Proof. unfold is_sources_heading. now rewrite strip_rstrip. Qed.

Lemma cleaned_text_no_heading ls :
Forall (fun l => split_lines l = (l, [])) ls ->
Forall (fun l => is_sources_heading l = false)
   (lines (strip (join newline (remove_loop false ls)))).
Proof.
intros Hsingle. apply lines_strip.
- intros l. now rewrite heading_lstrip.
- intros l. now rewrite heading_rstrip.
- destruct (remove_loop false ls) as [|x xs] eqn:Hloop.
+ now repeat constructor.
+ rewrite lines_join; [|discriminate|].
* rewrite <- Hloop. apply remove_loop_no_heading.
* rewrite <- Hloop. now apply remove_loop_keeps.
Qed.

(** X28.  In the text [_remove_sources_from_text] returns, no line is a
Sources heading: no line, once stripped, starts with [## Sources] or with
[### Sources]. *)
Theorem remove_sources_leaves_no_heading text :
Forall (fun line => is_sources_heading line = false)
   (lines (_remove_sources_from_text text)).
Proof.
unfold _remove_sources_from_text.
destruct (negb (contains "## Sources" text)
      && negb (contains "### Sources" text)) eqn:Hguard.
- apply andb_true_iff in Hguard as [H2 H3].
apply negb_true_iff in H2, H3.
apply List.Forall_forall. intros l Hl.
destruct (is_sources_heading l) eqn:Hh; [|reflexivity].
destruct (heading_is_marked l text Hl Hh); congruence.
- apply cleaned_text_no_heading, lines_single.
Qed.

(** X29.  [_remove_sources_from_text] is idempotent: cleaning a cleaned
text changes nothing. *)
Theorem remove_sources_is_idempotent text :
_remove_sources_from_text (_remove_sources_from_text text)
= _remove_sources_from_text text.
Proof.
destruct (negb (contains "## Sources" text)
      && negb (contains "### Sources" text)) eqn:Hguard.
- assert (E : _remove_sources_from_text text = text)
by (unfold _remove_sources_from_text; now rewrite Hguard).
rewrite E. exact E.
- set (out := strip (join newline (remove_loop false (lines text)))).
assert (E : _remove_sources_from_text text = out)
by (unfold _remove_sources_from_text; now rewrite Hguard).
assert (Hout : Forall (fun l => is_sources_heading l = false) (lines out))
by apply cleaned_text_no_heading, lines_single.
rewrite E. unfold _remove_sources_from_text.
destruct (negb (contains "## Sources" out)
        && negb (contains "### Sources" out)); [reflexivity|].
rewrite (remove_loop_fixed _ Hout), join_lines.
apply strip_idem.
Qed.

Lemma remove_loop_body body rest :
Forall (fun l => is_sources_heading l = false) body ->
remove_loop false (body ++ rest) = (body ++ remove_loop false rest)%list.
Proof.
induction 1 as [|l body Hl _ IH]; [reflexivity|].
cbn [app remove_loop]. rewrite Hl. cbn [andb]. now rewrite IH.
Qed.

Lemma remove_loop_section tail :
Forall (fun l => starts_with "#" (strip l) = false) tail ->
remove_loop true tail = [].
Proof.
induction 1 as [|l tail Hl _ IH]; [reflexivity|].
cbn [remove_loop]. rewrite Hl. cbn [andb].
now destruct (is_sources_heading l).
Qed.

(** X30.  A Sources section that ends the text is removed with its
heading: when the lines of the text are some lines without a Sources
heading, then a Sources heading, then lines of which none starts (once
stripped) with [#], the result is the text before the heading, stripped
of its leading and trailing white space. *)
Theorem remove_sources_drops_a_trailing_section text body heading tail :
lines text = (body ++ heading :: tail)%list ->
Forall (fun l => is_sources_heading l = false) body ->
is_sources_heading heading = true ->
Forall (fun l => starts_with "#" (strip l) = false) tail ->
_remove_sources_from_text text = strip (join newline body).
Proof.
intros Hlines Hbody Hheading Htail. unfold _remove_sources_from_text.
assert (Hin : In heading (lines text))
by (rewrite Hlines; apply in_or_app; right; now left).
destruct (heading_is_marked heading text Hin Hheading) as [-> | ->];
rewrite ?andb_false_r; cbn [negb andb];
rewrite Hlines, (remove_loop_body _ _ Hbody);
cbn [remove_loop]; rewrite Hheading, (remove_loop_section _ Htail);
now rewrite app_nil_r.
Qed.
End RemoveSources.

Lemma remove_sources_drops_a_trailing_section_witness :
Sources._remove_sources_from_text Samples.answer_with_sources
= "Revenue grew.".
Proof.
rewrite (remove_sources_drops_a_trailing_section
         Samples.answer_with_sources ["Revenue grew."; ""] "## Sources"
         ["- Apple 2023 10-K"]).
- reflexivity.
- reflexivity.
- repeat constructor.
- reflexivity.
- repeat constructor.
Defined.
